(** * PowerManagement: thermal control loop, frequency actuation and
      configuration, embedded from the Python sources.

    - [SmartThermal]  : scripts/smart_thermal_manager.py
    - [Detector]      : src/hardware/hardware_detector.py
    - [PyFloat]       : Python's [int * float] and [int(float)] on binary64
    - [Config]        : src/config/power_config.py
    - [UniversalCPU]  : src/frequency/universal_cpu_manager.py
    - [LegacyCPU]     : src/frequency/cpu_frequency_manager.py
    - [ThermalCommands] : classes of commands and temperatures of the
                          thermal manager
    - [Identify]      : src/hardware/hardware_detector.py, model names
                        and compatibility
    - [Profiles]      : src/frequency/universal_cpu_manager.py, write
                        plan and named profiles
    - [LegacyMethods] : src/frequency/cpu_frequency_manager.py, outcome
                        of a method
    - [FanController] : src/sensors/fan_controller.py
    - [Monitoring]    : src/services/monitoring_service.py *)

From Stdlib Require Import ZArith List String Ascii Bool Lia SpecFloat Zpower.
From Stdlib Require QArith Sorted.
Import ListNotations.
Local Open Scope Z_scope.

(* ================================================================== *)
(** * scripts/smart_thermal_manager.py *)
(* ================================================================== *)

Module SmartThermal.

(** [class PowerMode(Enum)] *)
Inductive PowerMode := PERFORMANCE | BALANCED | POWER_SAVE | EMERGENCY.

Definition PowerMode_eqb (a b : PowerMode) : bool :=
  match a, b with
  | PERFORMANCE, PERFORMANCE | BALANCED, BALANCED
  | POWER_SAVE, POWER_SAVE | EMERGENCY, EMERGENCY => true
  | _, _ => false
  end.

(** The attributes of a [SmartThermalManager] instance that
    [adaptive_thermal_response] and the methods it calls read or write:
    the four thresholds set in [__init__], the current mode and the
    escalation counter. The flag [self.monitoring], which only
    [thermal_monitoring_loop], [start_monitoring] and [stop_monitoring]
    read and write, and the list [self.ai_processes], which no method
    uses, are not part of it. *)
Record Manager := {
  comfort_temp : Z;
  warning_temp : Z;
  critical_temp : Z;
  emergency_temp : Z;
  current_mode : PowerMode;
  escalation_count : Z
}.

(** [SmartThermalManager.__init__] *)
Definition init : Manager :=
  {| comfort_temp := 65; warning_temp := 70;
     critical_temp := 80; emergency_temp := 83;
     current_mode := BALANCED; escalation_count := 0 |}.

Definition with_mode (m : PowerMode) (s : Manager) : Manager :=
  {| comfort_temp := comfort_temp s; warning_temp := warning_temp s;
     critical_temp := critical_temp s; emergency_temp := emergency_temp s;
     current_mode := m; escalation_count := escalation_count s |}.

Definition with_count (c : Z) (s : Manager) : Manager :=
  {| comfort_temp := comfort_temp s; warning_temp := warning_temp s;
     critical_temp := critical_temp s; emergency_temp := emergency_temp s;
     current_mode := current_mode s; escalation_count := c |}.

(** The external commands the manager issues through [subprocess.run]. *)
Inductive Command :=
| powerprofilesctl_set (mode : PowerMode)   (* sudo powerprofilesctl set <mode> *)
| pgrep (pattern : string)                  (* pgrep -f <pattern> *)
| renice (nice_level pid : Z)               (* sudo renice +<n> <pid> *)
| taskset (cores : string) (pid : Z)        (* sudo taskset -cp <cores> <pid> *)
| pkill (pattern : string)                  (* pkill -f <pattern> *)
| sync                                      (* sudo sync *)
| drop_caches.                              (* echo 3 > /proc/sys/vm/drop_caches *)

(** What [subprocess.run] does with a command: it raises (time-out,
    missing binary), or the command exits with a return code; for
    [pgrep] the pids printed on stdout are kept. *)
Inductive Outcome :=
| Raised
| Exited (returncode : Z) (stdout_pids : list Z).

(** The operating system as one tick sees it. *)
Definition OS := Command -> Outcome.

(** ** A state-and-trace monad for the manager's methods: every method
    threads the instance and appends the commands it has run. *)
Definition M (A : Type) : Type := Manager -> A * Manager * list Command.

Definition ret {A} (a : A) : M A := fun s => (a, s, []).

Definition bind {A B} (c : M A) (k : A -> M B) : M B :=
  fun s =>
    let '(a, s1, t1) := c s in
    let '(b, s2, t2) := k a s1 in
    (b, s2, t1 ++ t2).

Definition get : M Manager := fun s => (s, s, []).
Definition modify (f : Manager -> Manager) : M unit := fun s => (tt, f s, []).
Definition exec (os : OS) (c : Command) : M Outcome := fun s => (os c, s, [c]).

Declare Scope thermal_scope.
Delimit Scope thermal_scope with thermal.
Notation "x <- c ;; k" := (bind c (fun x => k))
  (at level 61, c at next level, right associativity) : thermal_scope.
Notation "c ;; k" := (bind c (fun _ => k))
  (at level 61, right associativity) : thermal_scope.
Local Open Scope thermal_scope.

Definition state_of {A} (r : A * Manager * list Command) : Manager := snd (fst r).
Definition trace_of {A} (r : A * Manager * list Command) : list Command := snd r.
Definition value_of {A} (r : A * Manager * list Command) : A := fst (fst r).

(** ** Temperature sampling *)

(** What the two reading methods of [get_cpu_temperature] find:
    [sensors_core0] is the integer parsed from the first "Core 0:" line
    of the [sensors] output ([None]: the command raised, printed no
    such line or the number did not parse); [thermal_zone0] is the
    integer read from /sys/class/thermal/thermal_zone0/temp, in
    millidegrees ([None]: the read raised). *)
Record TempSources := {
  sensors_core0 : option Z;
  thermal_zone0 : option Z
}.

(** [get_cpu_temperature] *)
Definition get_cpu_temperature (src : TempSources) : Z :=
  match sensors_core0 src with
  | Some t => t
  | None =>
      match thermal_zone0 src with
      | Some milli => milli / 1000
      | None => 0
      end
  end.

Section WithOS.
Variable os : OS.

(** [set_power_profile]: the mode is recorded only when the command
    exits with return code 0. *)
Definition set_power_profile (mode : PowerMode) : M bool :=
  r <- exec os (powerprofilesctl_set mode) ;;
  match r with
  | Exited 0 _ => modify (with_mode mode) ;; ret true
  | Exited _ _ => ret false
  | Raised => ret false
  end.

Definition ai_patterns : list string :=
  ["ollama"; "claude"; "python.*ai"; "python.*mycoder"; "gemini"]%string.

(** [find_ai_processes]: one [try] around the whole loop: a raising
    [pgrep] ends the search and keeps the pids found so far. *)
Fixpoint find_loop (patterns : list string) (pids : list Z) : M (list Z) :=
  match patterns with
  | [] => ret pids
  | p :: rest =>
      r <- exec os (pgrep p) ;;
      match r with
      | Raised => ret pids
      | Exited rc out =>
          find_loop rest (if rc =? 0 then pids ++ out else pids)
      end
  end.

Definition find_ai_processes : M (list Z) := find_loop ai_patterns [].

(** The body of the [for pid in ai_pids] loop of
    [throttle_ai_processes]: [renice], then the affinity restriction
    chosen by the nice level; a raising command skips the rest of the
    iteration ([continue]) and the pid is not counted. *)
Definition throttle_one (nice_level pid : Z) : M Z :=
  r <- exec os (renice nice_level pid) ;;
  match r with
  | Raised => ret 0
  | Exited _ _ =>
      if 15 <? nice_level then
        r2 <- exec os (taskset "0" pid) ;;
        match r2 with Raised => ret 0 | Exited _ _ => ret 1 end
      else if 5 <? nice_level then
        r2 <- exec os (taskset "0,1" pid) ;;
        match r2 with Raised => ret 0 | Exited _ _ => ret 1 end
      else ret 1
  end.

Fixpoint throttle_loop (nice_level : Z) (pids : list Z) (throttled : Z) : M Z :=
  match pids with
  | [] => ret throttled
  | pid :: rest =>
      n <- throttle_one nice_level pid ;;
      throttle_loop nice_level rest (throttled + n)
  end.

(** [throttle_ai_processes] *)
Definition throttle_ai_processes (nice_level : Z) : M Z :=
  ai_pids <- find_ai_processes ;;
  throttle_loop nice_level ai_pids 0.

Definition heavy_patterns : list string :=
  ["docker"; "ollama"; "python.*ollama"; "npm"; "python.*mycoder"]%string.

Fixpoint kill_loop (patterns : list string) : M unit :=
  match patterns with
  | [] => ret tt
  | p :: rest => exec os (pkill p) ;; kill_loop rest
  end.

(** [emergency_kill_heavy_processes]: [pkill] for every heavy pattern,
    then [sync] and the cache drop inside one [try]. *)
Definition emergency_kill_heavy_processes : M unit :=
  kill_loop heavy_patterns ;;
  r <- exec os sync ;;
  match r with
  | Raised => ret tt
  | Exited _ _ => exec os drop_caches ;; ret tt
  end.

(** [adaptive_thermal_response(temp, cpu_usage)]; [cpu_usage] is not
    read by the body. *)
Definition adaptive_thermal_response (temp : Z) : M unit :=
  s <- get ;;
  if temp <? comfort_temp s then
    if PowerMode_eqb (current_mode s) EMERGENCY then
      set_power_profile BALANCED ;;
      modify (fun s => with_count (Z.max 0 (escalation_count s - 1)) s)
    else ret tt
  else if temp <? warning_temp s then
    if PowerMode_eqb (current_mode s) PERFORMANCE then
      set_power_profile BALANCED ;;
      throttle_ai_processes 5 ;;
      ret tt
    else ret tt
  else if temp <? critical_temp s then
    modify (fun s => with_count (escalation_count s + 1) s) ;;
    s <- get ;;
    if escalation_count s <=? 3 then
      set_power_profile POWER_SAVE ;;
      throttle_ai_processes (10 + escalation_count s * 2) ;;
      ret tt
    else
      set_power_profile EMERGENCY ;;
      throttle_ai_processes 19 ;;
      ret tt
  else if emergency_temp s <=? temp then
    set_power_profile EMERGENCY ;;
    emergency_kill_heavy_processes ;;
    modify (with_count 10)
  else
    set_power_profile EMERGENCY ;;
    throttle_ai_processes 19 ;;
    ret tt.

(** One iteration of [thermal_monitoring_loop]: sample, then respond. *)
Definition monitoring_tick (src : TempSources) : M unit :=
  adaptive_thermal_response (get_cpu_temperature src).

(** Consecutive calls of [adaptive_thermal_response] at the given
    temperatures, as the iterations of the monitoring loop make them. *)
Fixpoint ticks (temps : list Z) : M unit :=
  match temps with
  | [] => ret tt
  | t :: rest => adaptive_thermal_response t ;; ticks rest
  end.

End WithOS.

(** An operating system on which every command exits with code 0;
    [pgrep -f claude] reports one process, pid 4242. *)
Definition os_ok : OS := fun c =>
  match c with
  | pgrep "claude" => Exited 0 [4242]
  | pgrep _ => Exited 1 []
  | _ => Exited 0 []
  end.

(** The profile command exits with code 0 for [mode]. *)
Definition profile_succeeds (os : OS) (mode : PowerMode) : Prop :=
  exists out, os (powerprofilesctl_set mode) = Exited 0 out.

Definition is_throttle (c : Command) : bool :=
  match c with renice _ _ | taskset _ _ => true | _ => false end.

(** The profile command exits with code 0, as a boolean. *)
Definition profile_ok (os : OS) (mode : PowerMode) : bool :=
  match os (powerprofilesctl_set mode) with
  | Exited 0 _ => true
  | _ => false
  end.

(** The manager after [set_power_profile mode]. *)
Definition after_profile (os : OS) (mode : PowerMode) (s : Manager) : Manager :=
  if profile_ok os mode then with_mode mode s else s.

(** A manager with the thresholds 60, 75, 85 and 95. *)
Definition thresholds_60_75_85_95 : Manager :=
  {| comfort_temp := 60; warning_temp := 75;
     critical_temp := 85; emergency_temp := 95;
     current_mode := BALANCED; escalation_count := 0 |}.

End SmartThermal.

(* ================================================================== *)
(** * src/hardware/hardware_detector.py *)
(* ================================================================== *)

Module Detector.

Inductive CPUVendor := INTEL | AMD | UNKNOWN_VENDOR.

Inductive CPUGeneration :=
| CORE2 | NEHALEM | SANDY_BRIDGE | IVY_BRIDGE | HASWELL | BROADWELL
| SKYLAKE_PLUS
| K8 | K10 | BULLDOZER | ZEN
| UNKNOWN.

Definition CPUGeneration_eqb (a b : CPUGeneration) : bool :=
  match a, b with
  | CORE2, CORE2 | NEHALEM, NEHALEM | SANDY_BRIDGE, SANDY_BRIDGE
  | IVY_BRIDGE, IVY_BRIDGE | HASWELL, HASWELL | BROADWELL, BROADWELL
  | SKYLAKE_PLUS, SKYLAKE_PLUS | K8, K8 | K10, K10
  | BULLDOZER, BULLDOZER | ZEN, ZEN | UNKNOWN, UNKNOWN => true
  | _, _ => false
  end.

(** [@dataclass CPUInfo] *)
Record CPUInfo := {
  vendor : CPUVendor;
  model_name : string;
  generation : CPUGeneration;
  cores : Z;
  min_freq_mhz : Z;
  max_freq_mhz : Z;
  current_freq_mhz : Z;
  supports_msr : bool;
  supports_cpufreq : bool;
  thermal_max_safe : Z
}.

(** What the detector reads from the operating system.
    - [cpufreq_limits]: [None] when cpuinfo_min_freq and
      cpuinfo_max_freq do not both exist; otherwise the integers parsed
      from the two files, in kHz, each [None] when its read raises.
    - [proc_cpu_mhz]: the integer [int(float(...))] parsed from the
      first "cpu MHz" line of /proc/cpuinfo; [None] when the file cannot
      be read, has no such line, or the number does not parse.
    - the identification fields are what [_detect_cpu] extracts from
      /proc/cpuinfo with its regular expressions. *)
Record Platform := {
  cpufreq_limits : option (option Z * option Z);
  proc_cpu_mhz : option Z;
  id_vendor : CPUVendor;
  id_model_name : string;
  id_generation : CPUGeneration;
  id_cores : Z;
  msr_device_exists : bool;
  cpufreq_dir_exists : bool
}.

(** [_detect_frequency_range] *)
Definition _detect_frequency_range (p : Platform) : Z * Z :=
  let min_freq := 800 in
  let max_freq := 3000 in
  match cpufreq_limits p with
  | Some (Some kmin, Some kmax) => (kmin / 1000, kmax / 1000)
  | limits =>
      (* the first [try] was left without returning; [min_freq] keeps
         the value assigned before the read of the maximum raised *)
      let min_freq :=
        match limits with
        | Some (Some kmin, None) => kmin / 1000
        | _ => min_freq
        end in
      match proc_cpu_mhz p with
      | Some current =>
          let max_freq := Z.max current 2000 in
          let min_freq := max_freq / 3 in
          (min_freq, max_freq)
      | None => (min_freq, max_freq)
      end
  end.

(** [_get_current_cpu_freq] *)
Definition _get_current_cpu_freq (p : Platform) : option Z := proc_cpu_mhz p.

(** [_get_thermal_max_safe] *)
Definition _get_thermal_max_safe (v : CPUVendor) (g : CPUGeneration) : Z :=
  match v with
  | INTEL =>
      match g with
      | CORE2 => 85
      | NEHALEM | SANDY_BRIDGE => 95
      | _ => 100
      end
  | AMD =>
      match g with
      | K8 | K10 => 70
      | BULLDOZER => 75
      | _ => 95
      end
  | UNKNOWN_VENDOR => 85
  end.

(** [_detect_cpu], from the identification fields onwards. *)
Definition _detect_cpu (p : Platform) : CPUInfo :=
  let '(min_freq, max_freq) := _detect_frequency_range p in
  let current_freq :=
    match _get_current_cpu_freq p with
    | Some c => if c =? 0 then max_freq else c     (* [... or max_freq] *)
    | None => max_freq
    end in
  {| vendor := id_vendor p;
     model_name := id_model_name p;
     generation := id_generation p;
     cores := id_cores p;
     min_freq_mhz := min_freq;
     max_freq_mhz := max_freq;
     current_freq_mhz := current_freq;
     supports_msr := msr_device_exists p;
     supports_cpufreq := cpufreq_dir_exists p;
     thermal_max_safe := _get_thermal_max_safe (id_vendor p) (id_generation p) |}.

(** A Core 2 machine without cpufreq whose /proc/cpuinfo reports
    [current] MHz. *)
Definition core2_without_cpufreq (current : Z) : Platform :=
  {| cpufreq_limits := None;
     proc_cpu_mhz := Some current;
     id_vendor := INTEL;
     id_model_name := "Intel(R) Core(TM)2 Duo CPU";
     id_generation := CORE2;
     id_cores := 2;
     msr_device_exists := true;
     cpufreq_dir_exists := false |}.

(** A machine whose /proc/cpuinfo cannot be read, without cpufreq,
    with the MSR device node present. *)
Definition unidentified_with_msr : Platform :=
  {| cpufreq_limits := None;
     proc_cpu_mhz := None;
     id_vendor := UNKNOWN_VENDOR;
     id_model_name := "Unknown CPU";
     id_generation := UNKNOWN;
     id_cores := 1;
     msr_device_exists := true;
     cpufreq_dir_exists := false |}.

End Detector.

(* ================================================================== *)
(** * Python floats: [int * float] and [int(float)] on IEEE binary64 *)
(* ================================================================== *)

Module PyFloat.

Definition prec : Z := 53.
Definition emax : Z := 1024.

(** Outcome of an expression that may raise [OverflowError]. *)
Inductive Result (A : Type) :=
| Ok (a : A)
| OverflowError.
Arguments Ok {A} a.
Arguments OverflowError {A}.

Definition rbind {A B} (r : Result A) (k : A -> Result B) : Result B :=
  match r with
  | Ok a => k a
  | OverflowError => OverflowError
  end.

(** Conversion of a Python [int] to [float]: correctly rounded, ties to
    even; "int too large to convert to float" when the rounded value
    is not finite. *)
Definition float_of_int (n : Z) : Result spec_float :=
  match binary_normalize prec emax n 0 false with
  | S754_infinity _ => OverflowError
  | x => Ok x
  end.

(** [float * float] *)
Definition float_mul (x y : spec_float) : spec_float := SFmul prec emax x y.

(** [int(x)] for a float [x]: truncation toward zero; infinities raise
    [OverflowError] (a NaN raises [ValueError]; no product of a finite
    integer and a finite literal is a NaN, the case is merged). *)
Definition int_of_float (x : spec_float) : Result Z :=
  match x with
  | S754_zero _ => Ok 0
  | S754_finite s m e => Ok (cond_Zopp s (Z.shiftl (Zpos m) e))
  | S754_infinity _ => OverflowError
  | S754_nan => OverflowError
  end.

(** [int(n * c)] for an [int] [n] and a float literal [c]. *)
Definition int_mul_lit (n : Z) (c : spec_float) : Result Z :=
  rbind (float_of_int n) (fun x => int_of_float (float_mul x c)).

(** The float literals of power_config.py: the binary64 numbers nearest
    to the decimal literals. *)
Definition lit_0_65 : spec_float := S754_finite false 5854679515581645 (-53).
Definition lit_0_75 : spec_float := S754_finite false 6755399441055744 (-53).
Definition lit_0_85 : spec_float := S754_finite false 7656119366529843 (-53).
Definition lit_0_95 : spec_float := S754_finite false 8556839292003942 (-53).
Definition lit_0_7  : spec_float := S754_finite false 6305039478318694 (-53).
Definition lit_0_5  : spec_float := S754_finite false 4503599627370496 (-53).

(** [num/den] is within half a unit in the last place of the literal
    [m * 2^-53], for a literal in [1/2, 1). *)
Definition nearest_to (num den : Z) (c : spec_float) : Prop :=
  match c with
  | S754_finite false m (-53) =>
      2 ^ 52 <= Zpos m < 2 ^ 53 /\
      Z.abs (2 * (Zpos m * den - num * 2 ^ 53)) <= den
  | _ => False
  end.

End PyFloat.

(* ================================================================== *)
(** * src/config/power_config.py *)
(* ================================================================== *)

Module Config.
Import PyFloat.

(** [@dataclass ThermalConfig] *)
Record ThermalConfig := {
  comfort_temp : Z;
  warning_temp : Z;
  critical_temp : Z;
  emergency_temp : Z
}.

Definition ThermalConfig_default : ThermalConfig :=
  {| comfort_temp := 65; warning_temp := 70;
     critical_temp := 80; emergency_temp := 85 |}.

(** [@dataclass FrequencyConfig] *)
Record FrequencyConfig := {
  min_freq_mhz : Z;
  max_freq_mhz : Z;
  performance_freq : Z;
  balanced_freq : Z;
  powersave_freq : Z;
  emergency_freq : Z
}.

(** The two attributes of [PowerConfig] set by the hardware-dependent
    setters. *)
Record PowerConfig := {
  thermal : ThermalConfig;
  frequency : option FrequencyConfig
}.

(** [PowerConfig.__init__] without a configuration file. *)
Definition PowerConfig_init : PowerConfig :=
  {| thermal := ThermalConfig_default; frequency := None |}.

(** The [FrequencyConfig(...)] expression of [set_frequency_config]. *)
Definition frequency_profile (min_freq max_freq : Z) : Result FrequencyConfig :=
  let freq_range := max_freq - min_freq in
  rbind (int_mul_lit freq_range lit_0_7) (fun b =>
  rbind (int_mul_lit freq_range lit_0_5) (fun p =>
  Ok {| min_freq_mhz := min_freq;
        max_freq_mhz := max_freq;
        performance_freq := max_freq;
        balanced_freq := min_freq + b;
        powersave_freq := min_freq + p;
        emergency_freq := min_freq |})).

(** [set_frequency_config]: [self.frequency] is assigned once the
    profile has been computed. *)
Definition set_frequency_config (min_freq max_freq : Z) (cfg : PowerConfig)
  : Result PowerConfig :=
  rbind (frequency_profile min_freq max_freq) (fun f =>
  Ok {| thermal := thermal cfg; frequency := Some f |}).

(** The four threshold expressions of [set_thermal_config]. *)
Definition thermal_thresholds (max_safe_temp : Z) : Result ThermalConfig :=
  rbind (int_mul_lit max_safe_temp lit_0_65) (fun c =>
  rbind (int_mul_lit max_safe_temp lit_0_75) (fun w =>
  rbind (int_mul_lit max_safe_temp lit_0_85) (fun k =>
  rbind (int_mul_lit max_safe_temp lit_0_95) (fun e =>
  Ok {| comfort_temp := c; warning_temp := w;
        critical_temp := k; emergency_temp := e |})))).

(** [set_thermal_config]: the four fields are assigned in turn; the
    only expression that can raise is the conversion of
    [max_safe_temp], which the first assignment already performs, so
    either all four fields are written or none. *)
Definition set_thermal_config (max_safe_temp : Z) (cfg : PowerConfig)
  : Result PowerConfig :=
  rbind (thermal_thresholds max_safe_temp) (fun t =>
  Ok {| thermal := t; frequency := frequency cfg |}).

Definition strictly_increasing (t : ThermalConfig) : Prop :=
  comfort_temp t < warning_temp t /\
  warning_temp t < critical_temp t /\
  critical_temp t < emergency_temp t.

End Config.

(* ================================================================== *)
(** * src/frequency/universal_cpu_manager.py *)
(* ================================================================== *)

Module UniversalCPU.
Import Detector.

(** The values [_select_control_method] returns. *)
Inductive ControlMethod :=
| CI_MODE | cpufreq_intel_pstate | cpufreq | msr | cpupower | none.

(** The attributes of a [UniversalCPUManager] read by the frequency
    methods. *)
Record Manager := {
  is_ci : bool;
  cpu_info : CPUInfo;
  control_method : ControlMethod
}.

(** What the manager does to the machine: writes under
    /sys/devices/system/cpu/cpu<N>/cpufreq and external commands. *)
Inductive Action :=
| write_scaling_min_freq (cpu_id khz : Z)
| write_scaling_max_freq (cpu_id khz : Z)
| write_scaling_governor (cpu_id : Z) (governor : string)
| write_scaling_setspeed (cpu_id khz : Z)
| modprobe_msr                             (* sudo modprobe msr *)
| wrmsr (msr_value : Z)                    (* sudo wrmsr -a 0x199 <value> *)
| cpupower_frequency_set (mhz : Z)         (* sudo cpupower frequency-set -f <mhz>MHz *)
| which_cpupower.                          (* which cpupower *)

(** An action raises (permission denied, time-out, missing binary) or
    completes; a command completes with a return code, a file write
    with 0. *)
Inductive Outcome :=
| Raises
| Returns (returncode : Z).

Definition Env := Action -> Outcome.

(** [CORE2_QUAD_MULTIPLIERS], in source order. *)
Definition CORE2_QUAD_MULTIPLIERS : list (Z * Z) :=
  [ (2833, 0x0615); (2666, 0x0514); (2500, 0x0513); (2333, 0x0512);
    (2166, 0x0411); (2000, 0x0610); (1833, 0x050F); (1666, 0x050E);
    (1500, 0x050D); (1333, 0x040C); (1200, 0x040B) ].

(** [sorted(...)] on integers. *)
Fixpoint insert_sorted (x : Z) (l : list Z) : list Z :=
  match l with
  | [] => [x]
  | y :: r => if x <=? y then x :: l else y :: insert_sorted x r
  end.

Definition sorted (l : list Z) : list Z := fold_right insert_sorted [] l.

(** [min(l, key=...)] on a non-empty list: the first element whose key
    is least. *)
Fixpoint min_by (key : Z -> Z) (best : Z) (rest : list Z) : Z :=
  match rest with
  | [] => best
  | x :: r => min_by key (if key x <? key best then x else best) r
  end.

(** [dict[key]] on the multiplier table. *)
Fixpoint lookup (k : Z) (table : list (Z * Z)) : option Z :=
  match table with
  | [] => None
  | (k', v) :: r => if k =? k' then Some v else lookup k r
  end.

Section WithEnv.
Variable env : Env.

(** [_select_control_method] *)
Definition _select_control_method (ci : bool) (info : CPUInfo) : ControlMethod :=
  if ci then CI_MODE
  else if supports_cpufreq info then
    if CPUGeneration_eqb (generation info) SKYLAKE_PLUS
    then cpufreq_intel_pstate
    else cpufreq
  else if supports_msr info then msr
  else
    match env which_cpupower with
    | Returns 0 => cpupower
    | _ => none
    end.

(** Actions performed in order inside one [try]: the first one that
    raises ends the block. The result tells whether the block ran to
    its end, with the actions attempted. *)
Fixpoint run_all (acts : list Action) : bool * list Action :=
  match acts with
  | [] => (true, [])
  | a :: rest =>
      match env a with
      | Raises => (false, [a])
      | Returns _ =>
          let '(ok, t) := run_all rest in (ok, a :: t)
      end
  end.

(** The same for commands run with [check=True]: a non-zero return
    code raises as well. *)
Fixpoint run_checked (acts : list Action) : bool * list Action :=
  match acts with
  | [] => (true, [])
  | a :: rest =>
      match env a with
      | Returns 0 =>
          let '(ok, t) := run_checked rest in (ok, a :: t)
      | _ => (false, [a])
      end
  end.

(** [range(cores)] *)
Definition range (n : Z) : list Z :=
  map Z.of_nat (seq 0 (Z.to_nat n)).

(** [set_frequency_cpufreq] *)
Definition set_frequency_cpufreq (m : Manager) (target_freq : Z)
  : bool * list Action :=
  match control_method m with
  | cpufreq_intel_pstate =>
      run_all (flat_map (fun cpu_id =>
                 [ write_scaling_min_freq cpu_id (target_freq * 1000);
                   write_scaling_max_freq cpu_id (target_freq * 1000) ])
               (range (cores (cpu_info m))))
  | _ =>
      run_all (flat_map (fun cpu_id =>
                 [ write_scaling_governor cpu_id "userspace";
                   write_scaling_setspeed cpu_id (target_freq * 1000) ])
               (range (cores (cpu_info m))))
  end.

(** The table frequency [set_frequency_msr] settles on. *)
Definition closest_freq (target_freq : Z) : option Z :=
  match sorted (map fst CORE2_QUAD_MULTIPLIERS) with
  | [] => None
  | x :: r => Some (min_by (fun x => Z.abs (x - target_freq)) x r)
  end.

(** [set_frequency_msr] *)
Definition set_frequency_msr (m : Manager) (target_freq : Z)
  : bool * list Action :=
  if negb (CPUGeneration_eqb (generation (cpu_info m)) CORE2) then (false, [])
  else
    match closest_freq target_freq with
    | None => (false, [])          (* the table is not empty *)
    | Some closest =>
        if 200 <? Z.abs (closest - target_freq) then (false, [])
        else
          match lookup closest CORE2_QUAD_MULTIPLIERS with
          | None => (false, [])    (* [closest] is a key of the table *)
          | Some msr_value => run_checked [modprobe_msr; wrmsr msr_value]
          end
    end.

(** [set_frequency_cpupower] *)
Definition set_frequency_cpupower (target_freq : Z) : bool * list Action :=
  match env (cpupower_frequency_set target_freq) with
  | Returns 0 => (true, [cpupower_frequency_set target_freq])
  | _ => (false, [cpupower_frequency_set target_freq])
  end.

(** The clamp of [set_frequency]. *)
Definition clamp (m : Manager) (target_freq : Z) : Z :=
  Z.max (min_freq_mhz (cpu_info m))
        (Z.min target_freq (max_freq_mhz (cpu_info m))).

(** The method call [set_frequency] makes with the clamped target. *)
Inductive Attempt :=
| try_cpufreq (target_freq : Z)
| try_msr (target_freq : Z)
| try_cpupower (target_freq : Z).

Definition attempted_freq (a : Attempt) : Z :=
  match a with
  | try_cpufreq f | try_msr f | try_cpupower f => f
  end.

Definition perform (m : Manager) (a : Attempt) : bool * list Action :=
  match a with
  | try_cpufreq f => set_frequency_cpufreq m f
  | try_msr f => set_frequency_msr m f
  | try_cpupower f => set_frequency_cpupower f
  end.

(** The dispatch of [set_frequency]: which method it calls, and with
    which target; [None] in CI mode and when no method is available. *)
Definition set_frequency_attempt (m : Manager) (target_freq : Z)
  : option Attempt :=
  if is_ci m then None
  else
    let target_freq := clamp m target_freq in
    match control_method m with
    | cpufreq | cpufreq_intel_pstate => Some (try_cpufreq target_freq)
    | msr => Some (try_msr target_freq)
    | cpupower => Some (try_cpupower target_freq)
    | _ => None
    end.

(** [set_frequency] *)
Definition set_frequency (m : Manager) (target_freq : Z) : bool * list Action :=
  if is_ci m then (true, [])
  else
    let target_freq := clamp m target_freq in
    match control_method m with
    | cpufreq | cpufreq_intel_pstate => set_frequency_cpufreq m target_freq
    | msr => set_frequency_msr m target_freq
    | cpupower => set_frequency_cpupower target_freq
    | _ => (false, [])
    end.

(** [UniversalCPUManager.__init__], for the attributes modelled. *)
Definition new_manager (ci : bool) (info : CPUInfo) : Manager :=
  {| is_ci := ci; cpu_info := info;
     control_method := _select_control_method ci info |}.

End WithEnv.

(** The frequency an action asks the hardware for, in MHz: the value
    written or passed, or the table frequency of a register value. *)
Definition key_of_value (v : Z) : option Z :=
  match filter (fun kv => snd kv =? v) CORE2_QUAD_MULTIPLIERS with
  | (k, _) :: _ => Some k
  | [] => None
  end.

Definition applied_mhz (a : Action) : option Z :=
  match a with
  | write_scaling_min_freq _ khz
  | write_scaling_max_freq _ khz
  | write_scaling_setspeed _ khz => Some (khz / 1000)
  | cpupower_frequency_set mhz => Some mhz
  | wrmsr v => key_of_value v
  | _ => None
  end.

(** An environment in which every action completes with code 0. *)
Definition env_ok : Env := fun _ => Returns 0.

End UniversalCPU.

(* ================================================================== *)
(** * src/frequency/cpu_frequency_manager.py *)
(* ================================================================== *)

Module LegacyCPU.

(** [class FrequencyMethod(Enum)] *)
Inductive FrequencyMethod := CPUFREQ | MSR | CPUPOWER | GRUB_FALLBACK.

Inductive Action :=
| write_scaling_governor (governor : string)
| write_scaling_setspeed (khz : Z)
| modprobe_msr
| wrmsr (msr_value : Z)
| cpupower_frequency_set (mhz : Z).

Inductive Outcome :=
| Raises
| Returns (returncode : Z).

Definition Env := Action -> Outcome.

(** [self.q9550_multipliers] *)
Definition q9550_multipliers : list (Z * Z) :=
  [ (2833, 0x0615); (2500, 0x0513); (2166, 0x0411); (2000, 0x0610);
    (1833, 0x050F); (1666, 0x050E); (1500, 0x050D); (1333, 0x040C) ].

Fixpoint lookup (k : Z) (table : list (Z * Z)) : option Z :=
  match table with
  | [] => None
  | (k', v) :: r => if k =? k' then Some v else lookup k r
  end.

(** The bounds [get_cpu_state] reports. *)
Definition q9550_min_freq : Z := 1333.
Definition q9550_max_freq : Z := 2833.

Section WithEnv.
Variable env : Env.

(** [set_frequency_cpufreq] *)
Definition set_frequency_cpufreq (target_freq : Z) : bool * list Action :=
  match env (write_scaling_governor "userspace") with
  | Raises => (false, [write_scaling_governor "userspace"])
  | Returns _ =>
      match env (write_scaling_setspeed (target_freq * 1000)) with
      | Raises => (false, [write_scaling_governor "userspace";
                           write_scaling_setspeed (target_freq * 1000)])
      | Returns _ => (true, [write_scaling_governor "userspace";
                             write_scaling_setspeed (target_freq * 1000)])
      end
  end.

(** [set_frequency_msr] *)
Definition set_frequency_msr (target_freq : Z) : bool * list Action :=
  match lookup target_freq q9550_multipliers with
  | None => (false, [])
  | Some msr_value =>
      match env modprobe_msr with
      | Returns 0 =>
          match env (wrmsr msr_value) with
          | Returns 0 => (true, [modprobe_msr; wrmsr msr_value])
          | _ => (false, [modprobe_msr; wrmsr msr_value])
          end
      | _ => (false, [modprobe_msr])
      end
  end.

(** [set_frequency_cpupower] *)
Definition set_frequency_cpupower (target_freq : Z) : bool * list Action :=
  match env (cpupower_frequency_set target_freq) with
  | Returns 0 => (true, [cpupower_frequency_set target_freq])
  | _ => (false, [cpupower_frequency_set target_freq])
  end.

(** [set_frequency]: the methods of [available_methods] in order, the
    first success ends the loop; the result carries the method that
    succeeded ([self.active_method]). *)
Fixpoint set_frequency (available_methods : list FrequencyMethod)
    (target_freq : Z) : option FrequencyMethod * list Action :=
  match available_methods with
  | [] => (None, [])
  | method :: rest =>
      let '(ok, t) :=
        match method with
        | CPUFREQ => set_frequency_cpufreq target_freq
        | MSR => set_frequency_msr target_freq
        | CPUPOWER => set_frequency_cpupower target_freq
        | GRUB_FALLBACK => (false, [])
        end in
      if ok then (Some method, t)
      else let '(r, t') := set_frequency rest target_freq in (r, t ++ t')
  end.

End WithEnv.

Definition env_ok : Env := fun _ => Returns 0.

End LegacyCPU.

(* ================================================================== *)
(** * scripts/smart_thermal_manager.py: classes of commands and of
      temperatures *)
(* ================================================================== *)

Module ThermalCommands.
Import SmartThermal.

(** A command of the kill path. *)
Definition is_kill (c : Command) : bool :=
  match c with pkill _ | sync | drop_caches => true | _ => false end.

(** [pid] was printed by a [pgrep] that exited with code 0 for one of
    the AI patterns. *)
Definition reported (os : OS) (pid : Z) : Prop :=
  exists p out,
    In p ai_patterns /\ os (pgrep p) = Exited 0 out /\ In pid out.

(** The temperature bands of [adaptive_thermal_response]. *)
Definition cool (s : Manager) (t : Z) : Prop := t < comfort_temp s.

Definition in_band (s : Manager) (t : Z) : Prop :=
  comfort_temp s <= t /\ warning_temp s <= t < critical_temp s.

Definition high_risk (s : Manager) (t : Z) : Prop :=
  comfort_temp s <= t /\ warning_temp s <= t /\
  critical_temp s <= t < emergency_temp s.

Definition at_emergency (s : Manager) (t : Z) : Prop :=
  comfort_temp s <= t /\ warning_temp s <= t /\
  critical_temp s <= t /\ emergency_temp s <= t.

(** What the manager may run on one pid at a nice level. *)
Definition throttle_command (os : OS) (nice_level : Z) (c : Command) : Prop :=
  match c with
  | pgrep p => In p ai_patterns
  | renice n pid => n = nice_level /\ reported os pid
  | taskset cores pid =>
      reported os pid /\
      ((cores = "0"%string /\ 15 < nice_level) \/
       (cores = "0,1"%string /\ 5 < nice_level <= 15))
  | _ => False
  end.

(** An operating system like [os_ok] on which the Balanced profile
    command exits with code 1. *)
Definition os_balanced_fails : OS := fun c =>
  match c with
  | powerprofilesctl_set BALANCED => Exited 1 []
  | _ => os_ok c
  end.

End ThermalCommands.

(* ================================================================== *)
(** * src/hardware/hardware_detector.py: identification and
      compatibility *)
(* ================================================================== *)

Module Identify.
Import Detector.
Local Open Scope string_scope.

(** [sub in s] on strings. *)
Fixpoint contains (sub s : string) : bool :=
  if prefix sub s then true
  else match s with
       | EmptyString => false
       | String _ rest => contains sub rest
       end.

Definition is_357 (c : ascii) : bool :=
  Ascii.eqb c "3" || Ascii.eqb c "5" || Ascii.eqb c "7".

(** A character class [[lo-hi]]. *)
Definition in_class (lo hi c : ascii) : bool :=
  (nat_of_ascii lo <=? nat_of_ascii c)%nat && (nat_of_ascii c <=? nat_of_ascii hi)%nat.

(** The pattern [i[357]-[6-9]|i[357]-1[0-9]] matched at the start of
    [s]. *)
Definition skylake_at (s : string) : bool :=
  match s with
  | String "i" (String c (String "-" (String d rest))) =>
      is_357 c &&
      (in_class "6" "9" d ||
       (Ascii.eqb d "1" &&
        match rest with
        | String e _ => in_class "0" "9" e
        | EmptyString => false
        end))
  | _ => false
  end.

(** [re.search(r"i[357]-[6-9]|i[357]-1[0-9]", s)] *)
Fixpoint skylake_search (s : string) : bool :=
  if skylake_at s then true
  else match s with
       | EmptyString => false
       | String _ rest => skylake_search rest
       end.

(** The vendor test of [_detect_cpu]. *)
Definition detect_vendor (model_name : string) : CPUVendor :=
  if contains "Intel" model_name then INTEL
  else if contains "AMD" model_name then AMD
  else UNKNOWN_VENDOR.

(** [_detect_cpu_generation] *)
Definition _detect_cpu_generation (vendor : CPUVendor) (model_name : string)
  : CPUGeneration :=
  match vendor with
  | INTEL =>
      if contains "Core(TM)2" model_name || contains "Pentium(R) Dual" model_name
      then CORE2
      else if contains "i3-2" model_name || contains "i5-2" model_name
              || contains "i7-2" model_name
      then SANDY_BRIDGE
      else if contains "i3-3" model_name || contains "i5-3" model_name
              || contains "i7-3" model_name
      then IVY_BRIDGE
      else if contains "i3-4" model_name || contains "i5-4" model_name
              || contains "i7-4" model_name
      then HASWELL
      else if contains "i3-5" model_name || contains "i5-5" model_name
              || contains "i7-5" model_name
      then BROADWELL
      else if skylake_search model_name
      then SKYLAKE_PLUS
      else if contains "i3" model_name || contains "i5" model_name
              || contains "i7" model_name
      then NEHALEM
      else UNKNOWN
  | AMD =>
      if contains "Ryzen" model_name || contains "EPYC" model_name
      then ZEN
      else if contains "FX" model_name || contains "Bulldozer" model_name
      then BULLDOZER
      else if contains "Phenom" model_name || contains "Athlon II" model_name
      then K10
      else if contains "Athlon 64" model_name || contains "Opteron" model_name
      then K8
      else UNKNOWN
  | UNKNOWN_VENDOR => UNKNOWN
  end.

(** The thermal ceiling [_detect_cpu] derives from a model name. *)
Definition thermal_max_of_name (model_name : string) : Z :=
  let vendor := detect_vendor model_name in
  _get_thermal_max_safe vendor (_detect_cpu_generation vendor model_name).

(** The messages of [is_compatible]. *)
Inductive Issue :=
| hardware_is_compatible        (* "Hardware is compatible with power management" *)
| no_frequency_control          (* "No CPU frequency control available ..." *)
| msr_fallback                  (* "CPUFreq not available, will use MSR ..." *)
| no_thermal_zones              (* "No thermal zones found ..." *)
| no_gpu_power_management.      (* "GPU power management not available (optional)" *)

(** [is_compatible], from the detected CPU capabilities, the thermal
    zones found and the two GPU capabilities. *)
Definition is_compatible (cpu : CPUInfo) (zones : list string)
    (gpu_power_profile gpu_power_cap : bool) : bool * list Issue :=
  let '(compatible, issues) :=
    if negb (supports_cpufreq cpu) && negb (supports_msr cpu)
    then (false, [no_frequency_control])
    else if negb (supports_cpufreq cpu)
    then (true, [msr_fallback])
    else (true, []) in
  let issues :=
    match zones with
    | [] => (issues ++ [no_thermal_zones])%list
    | _ => issues
    end in
  let issues :=
    if negb gpu_power_profile && negb gpu_power_cap
    then (issues ++ [no_gpu_power_management])%list
    else issues in
  if compatible then (compatible, hardware_is_compatible :: issues)
  else (compatible, issues).

End Identify.

(* ================================================================== *)
(** * src/frequency/universal_cpu_manager.py: write plan and named
      profiles *)
(* ================================================================== *)

Module Profiles.
Import Detector PyFloat Config UniversalCPU.

(** The writes [set_frequency_cpufreq] goes through, in order. *)
Definition cpufreq_plan (m : Manager) (target_freq : Z) : list Action :=
  match control_method m with
  | cpufreq_intel_pstate =>
      flat_map (fun cpu_id =>
                  [ write_scaling_min_freq cpu_id (target_freq * 1000);
                    write_scaling_max_freq cpu_id (target_freq * 1000) ])
               (range (cores (cpu_info m)))
  | _ =>
      flat_map (fun cpu_id =>
                  [ write_scaling_governor cpu_id "userspace";
                    write_scaling_setspeed cpu_id (target_freq * 1000) ])
               (range (cores (cpu_info m)))
  end.

(** The keys of the multiplier table, as [set_frequency_msr] sorts
    them. *)
Definition available_freqs : list Z := sorted (map fst CORE2_QUAD_MULTIPLIERS).

(** [@dataclass FrequencyProfile] *)
Record FrequencyProfile := {
  name : string;
  frequency_mhz : Z;
  description : string
}.

(** [get_frequency_profiles] *)
Definition get_frequency_profiles (cfg : PowerConfig) : list FrequencyProfile :=
  match frequency cfg with
  | None => []
  | Some f =>
      [ {| name := "performance"; frequency_mhz := performance_freq f;
           description := "Maximum performance - full CPU speed" |};
        {| name := "balanced"; frequency_mhz := balanced_freq f;
           description := "Balanced - good performance with moderate power" |};
        {| name := "powersave"; frequency_mhz := powersave_freq f;
           description := "Power saving - reduced speed for efficiency" |};
        {| name := "emergency"; frequency_mhz := emergency_freq f;
           description := "Emergency - minimum speed to prevent thermal shutdown" |} ]
  end.

(** [{p.name: p for p in profiles}[profile_name]]: the last profile of
    that name. *)
Definition profile_named (profiles : list FrequencyProfile) (profile_name : string)
  : option FrequencyProfile :=
  find (fun p => String.eqb (name p) profile_name) (rev profiles).

(** [set_profile] *)
Definition set_profile (env : Env) (m : Manager) (cfg : PowerConfig)
    (profile_name : string) : bool * list Action :=
  match profile_named (get_frequency_profiles cfg) profile_name with
  | None => (false, [])
  | Some profile => set_frequency env m (frequency_mhz profile)
  end.

(** The configuration [UniversalCPUManager.__init__] builds for the
    detected CPU from what [PowerConfig()] loaded: frequency profile
    first, thermal thresholds next. *)
Definition init_config (loaded : PowerConfig) (info : CPUInfo)
  : Result PowerConfig :=
  rbind (set_frequency_config (Detector.min_freq_mhz info)
                              (Detector.max_freq_mhz info) loaded)
        (set_thermal_config (thermal_max_safe info)).

Definition profile_names : list string :=
  ["performance"; "balanced"; "powersave"; "emergency"]%string.

(** The manager of a Core 2 machine without cpufreq that reports
    2400 MHz: range 800..2400, method [msr]. *)
Definition core2_manager : Manager :=
  new_manager env_ok false (_detect_cpu (core2_without_cpufreq 2400)).

(** A machine with cpufreq whose /proc/cpuinfo has no "processor"
    line. *)
Definition no_processor_lines : Platform :=
  {| cpufreq_limits := Some (Some 800000, Some 3000000);
     proc_cpu_mhz := Some 3000;
     id_vendor := UNKNOWN_VENDOR;
     id_model_name := "Unknown CPU";
     id_generation := UNKNOWN;
     id_cores := 0;
     msr_device_exists := false;
     cpufreq_dir_exists := true |}.

(** An environment in which [modprobe msr] exits with code 1. *)
Definition env_no_modprobe : Env := fun a =>
  match a with
  | modprobe_msr => Returns 1
  | _ => Returns 0
  end.

End Profiles.

(* ================================================================== *)
(** * src/frequency/cpu_frequency_manager.py: outcome of a method *)
(* ================================================================== *)

Module LegacyMethods.
Import LegacyCPU.

(** The outcome of one method of [set_frequency]. *)
Definition method_succeeds (env : Env) (method : FrequencyMethod) (t : Z) : bool :=
  match method with
  | CPUFREQ => fst (set_frequency_cpufreq env t)
  | MSR => fst (set_frequency_msr env t)
  | CPUPOWER => fst (set_frequency_cpupower env t)
  | GRUB_FALLBACK => false
  end.

End LegacyMethods.

(* ================================================================== *)
(** * src/sensors/fan_controller.py *)
(* ================================================================== *)

Module FanController.
Import PyFloat.

Inductive FanControlMode := AUTO | MANUAL.

(** The entries of [self.pwm_fans] read by the methods below. *)
Record Fan := {
  name : string;
  pwm_path : string;
  pwm_enable_path : option string;
  current_pwm : Z;
  current_rpm : option Z;
  mode : FanControlMode
}.

(** Writes to the hwmon files: the mode ("1" manual, "2" automatic)
    and the duty value. A method returns the writes it attempted, the
    one that failed included. *)
Inductive Action :=
| write_pwm_enable (path : string) (value : Z)
| write_pwm (path : string) (value : Z).

Inductive WriteResult := Written | PermissionError | OtherError.

Definition Env := Action -> WriteResult.

(** A call returns a boolean or lets an exception out. *)
Inductive Outcome := Returned (b : bool) | Raised.

(** [l[i]] with Python's negative indices; [None] is IndexError. *)
Definition py_index {A} (l : list A) (i : Z) : option A :=
  let n := Z.of_nat (List.length l) in
  if (0 <=? i) && (i <? n) then nth_error l (Z.to_nat i)
  else if (- n <=? i) && (i <? 0) then nth_error l (Z.to_nat (n + i))
  else None.

(** [a / b] on two integers below 2^53 in absolute value, where both
    conversions are exact: the correctly rounded quotient. *)
Definition true_div (a b : Z) : spec_float :=
  SFdiv prec emax (binary_normalize prec emax a 0 false)
                  (binary_normalize prec emax b 0 false).

(** [int((percent / 100) * 255)] *)
Definition pwm_of_percent (percent : Z) : Result Z :=
  int_of_float (float_mul (true_div percent 100)
                          (binary_normalize prec emax 255 0 false)).

(** [int((pwm / 255) * 100) if pwm else None] *)
Definition percent_of_pwm (pwm : Z) : Result (option Z) :=
  if pwm =? 0 then Ok None
  else
    rbind (int_of_float (float_mul (true_div pwm 255)
                                   (binary_normalize prec emax 100 0 false)))
          (fun p => Ok (Some p)).

(** The percentages the clamp of [set_pwm_fan_speed] lets through, and
    the duty values a hwmon file holds. *)
Definition percents : list Z := map Z.of_nat (seq 0 101).
Definition duties : list Z := map Z.of_nat (seq 0 256).

(** A path is used when it is neither [None] nor empty. *)
Definition truthy_path (p : option string) : option string :=
  match p with
  | Some EmptyString => None
  | other => other
  end.

Section WithEnv.
Variable env : Env.

(** [set_pwm_fan_speed] *)
Definition set_pwm_fan_speed (pwm_fans : list Fan) (fan_index percent : Z)
  : Outcome * list Action :=
  if Z.of_nat (List.length pwm_fans) <=? fan_index then (Returned false, [])
  else
    match py_index pwm_fans fan_index with
    | None => (Raised, [])
    | Some fan =>
        let percent := Z.max 0 (Z.min 100 percent) in
        match pwm_of_percent percent with
        | OverflowError => (Raised, [])
        | Ok pwm_value =>
            match truthy_path (pwm_enable_path fan) with
            | Some enable =>
                match env (write_pwm_enable enable 1) with
                | Written =>
                    match env (write_pwm (pwm_path fan) pwm_value) with
                    | Written =>
                        (Returned true, [write_pwm_enable enable 1;
                                         write_pwm (pwm_path fan) pwm_value])
                    | _ =>
                        (Returned false, [write_pwm_enable enable 1;
                                          write_pwm (pwm_path fan) pwm_value])
                    end
                | _ => (Returned false, [write_pwm_enable enable 1])
                end
            | None =>
                match env (write_pwm (pwm_path fan) pwm_value) with
                | Written => (Returned true, [write_pwm (pwm_path fan) pwm_value])
                | _ => (Returned false, [write_pwm (pwm_path fan) pwm_value])
                end
            end
        end
    end.

End WithEnv.

Definition env_ok : Env := fun _ => Written.

(** Two fans, the second without a mode file. *)
Definition two_fans : list Fan :=
  [ {| name := "nct6775/pwm1"; pwm_path := "/sys/class/hwmon/hwmon2/pwm1";
       pwm_enable_path := Some "/sys/class/hwmon/hwmon2/pwm1_enable"%string;
       current_pwm := 128; current_rpm := Some 1200; mode := AUTO |};
    {| name := "nct6775/pwm2"; pwm_path := "/sys/class/hwmon/hwmon2/pwm2";
       pwm_enable_path := None;
       current_pwm := 0; current_rpm := None; mode := AUTO |} ]%string.

End FanController.

(* ================================================================== *)
(** * src/services/monitoring_service.py *)
(* ================================================================== *)

Module Monitoring.
Import PyFloat.
Import QArith.
Local Open Scope Z_scope.

(** The attributes of a [MonitoringService] read by the fan
    adjustment and the monitoring loop. *)
Record Service := {
  cpu_temp_warning : Z;
  cpu_temp_critical : Z;
  cpu_temp_emergency : Z;
  gpu_temp_warning : Z;
  gpu_temp_critical : Z;
  gpu_temp_emergency : Z;
  auto_fan_control : bool;
  max_snapshots : Z
}.

(** [MonitoringService.__init__], from the thresholds of the
    configuration. *)
Definition new_service (thermal : Config.ThermalConfig) : Service :=
  {| cpu_temp_warning := Config.warning_temp thermal;
     cpu_temp_critical := Config.critical_temp thermal;
     cpu_temp_emergency := Config.emergency_temp thermal;
     gpu_temp_warning := 75;
     gpu_temp_critical := 85;
     gpu_temp_emergency := 95;
     auto_fan_control := true;
     max_snapshots := 100 |}.

(** [self.fan_speed_map] *)
Inductive Tier := low | medium | high | max.

Definition fan_speed_map (t : Tier) : Z :=
  match t with
  | low => 30
  | medium => 50
  | high => 75
  | max => 100
  end.

(** The two temperatures of a snapshot. A sensor value is a float;
    it is taken here as the rational number it denotes. *)
Record Snapshot := {
  cpu_temp : option Q;
  gpu_temp : option Q
}.

(** [if x:] on an optional temperature. *)
Definition present (x : option Q) : bool :=
  match x with
  | Some q => negb (Qeq_bool q 0)
  | None => false
  end.

(** [max(a, b)]: the first of the two unless the second is greater. *)
Definition py_max (a b : Q) : Q := if Qle_bool b a then a else b.

(** [x >= t] for a temperature and an integer threshold. *)
Definition at_least (x : Q) (t : Z) : bool := Qle_bool (inject_Z t) x.

(** [snapshot.gpu_temp and snapshot.gpu_temp >= t] *)
Definition gpu_at_least (s : Snapshot) (t : Z) : bool :=
  match gpu_temp s with
  | Some g => present (Some g) && at_least g t
  | None => false
  end.

(** The maximum temperature of [adjust_fans_based_on_temp]. *)
Definition max_temp (s : Snapshot) : Q :=
  let m := 0%Q in
  let m := match cpu_temp s with
           | Some c => if present (Some c) then py_max m c else m
           | None => m
           end in
  match gpu_temp s with
  | Some g => if present (Some g) then py_max m g else m
  | None => m
  end.

(** The tier of [adjust_fans_based_on_temp]; [None] when it returns
    without touching the fans. *)
Definition fan_tier (sv : Service) (s : Snapshot) : option Tier :=
  if negb (auto_fan_control sv) then None
  else
    let m := max_temp s in
    if Qeq_bool m 0 then None
    else if at_least m (cpu_temp_emergency sv) || gpu_at_least s (gpu_temp_emergency sv)
    then Some max
    else if at_least m (cpu_temp_critical sv) || gpu_at_least s (gpu_temp_critical sv)
    then Some high
    else if at_least m (cpu_temp_warning sv) || gpu_at_least s (gpu_temp_warning sv)
    then Some medium
    else Some low.

(** The loop over the controllable fans: every index in
    [range(len(pwm_fans))], an exception of one call is caught. *)
Fixpoint set_all_fans (env : FanController.Env) (pwm_fans : list FanController.Fan)
    (indices : list Z) (target_speed : Z) : list FanController.Action :=
  match indices with
  | [] => []
  | i :: rest =>
      snd (FanController.set_pwm_fan_speed env pwm_fans i target_speed)
      ++ set_all_fans env pwm_fans rest target_speed
  end.

(** [adjust_fans_based_on_temp] *)
Definition adjust_fans_based_on_temp (env : FanController.Env) (sv : Service)
    (pwm_fans : list FanController.Fan) (s : Snapshot)
  : list FanController.Action :=
  match fan_tier sv s with
  | None => []
  | Some t =>
      set_all_fans env pwm_fans
        (UniversalCPU.range (Z.of_nat (List.length pwm_fans)))
        (fan_speed_map t)
  end.

(** The in-memory trail of [monitoring_loop]: append, then drop the
    oldest snapshot when the list is longer than [max_snapshots]. *)
Definition remember {A} (limit : Z) (snapshots : list A) (x : A) : list A :=
  let snapshots := snapshots ++ [x] in
  if limit <? Z.of_nat (List.length snapshots) then tl snapshots else snapshots.

(** [self.snapshots] after the loop has collected the snapshots [xs]
    in turn, from the empty list of [__init__]. *)
Definition snapshots_after {A} (limit : Z) (xs : list A) : list A :=
  fold_left (remember limit) xs [].

(** The service of a CPU whose ceiling is 85 (thresholds 63, 72, 80),
    and a snapshot with a cool CPU and a GPU at 90 degrees. *)
Definition service_85 : Service :=
  new_service {| Config.comfort_temp := 55; Config.warning_temp := 63;
                 Config.critical_temp := 72; Config.emergency_temp := 80 |}.

Definition gpu_at_90 : Snapshot :=
  {| cpu_temp := Some (inject_Z 40); gpu_temp := Some (inject_Z 90) |}.

End Monitoring.

(* ================================================================== *)
(** * Properties of the thermal control loop *)
(* ================================================================== *)

Section ThermalLoop.
Import SmartThermal.
Local Open Scope thermal_scope.

(** ** Laws of the state-and-trace monad *)

Lemma run_bind {A B} (c : M A) (k : A -> M B) (s : Manager) :
  bind c k s =
  (value_of (k (value_of (c s)) (state_of (c s))),
   state_of (k (value_of (c s)) (state_of (c s))),
   trace_of (c s) ++ trace_of (k (value_of (c s)) (state_of (c s)))).
Proof.
  unfold bind, value_of, state_of, trace_of.
  destruct (c s) as [[a s1] t1]; simpl.
  destruct (k a s1) as [[b s2] t2]; reflexivity.
Qed.

Lemma state_of_bind {A B} (c : M A) (k : A -> M B) s :
  state_of (bind c k s) = state_of (k (value_of (c s)) (state_of (c s))).
Proof. rewrite run_bind; reflexivity. Qed.

Lemma trace_of_bind {A B} (c : M A) (k : A -> M B) s :
  trace_of (bind c k s) =
  trace_of (c s) ++ trace_of (k (value_of (c s)) (state_of (c s))).
Proof. rewrite run_bind; reflexivity. Qed.

Variable os : OS.

Lemma profile_ok_iff mode : profile_ok os mode = true <-> profile_succeeds os mode.
Proof.
  unfold profile_ok, profile_succeeds. split.
  - destruct (os (powerprofilesctl_set mode)) as [|rc out]; try discriminate.
    destruct rc; try discriminate. intros _. now exists out.
  - intros [out ->]. reflexivity.
Qed.

Lemma set_power_profile_state mode s :
  state_of (set_power_profile os mode s) =
  if profile_ok os mode then with_mode mode s else s.
Proof.
  unfold set_power_profile, profile_ok.
  rewrite state_of_bind. unfold exec at 1 2. cbn [value_of state_of fst snd].
  destruct (os (powerprofilesctl_set mode)) as [|rc out]; [reflexivity|].
  destruct rc; reflexivity.
Qed.

Lemma set_power_profile_trace mode s :
  trace_of (set_power_profile os mode s) = [powerprofilesctl_set mode].
Proof.
  unfold set_power_profile.
  rewrite trace_of_bind. unfold exec at 1 2 3. cbn [value_of state_of trace_of fst snd].
  destruct (os (powerprofilesctl_set mode)) as [|rc out]; [reflexivity|].
  destruct rc; reflexivity.
Qed.

(** Searching and throttling processes never touches the manager. *)
Lemma find_loop_state patterns : forall pids s,
  state_of (find_loop os patterns pids s) = s.
Proof.
  induction patterns as [|p rest IH]; intros pids s; cbn [find_loop].
  - reflexivity.
  - rewrite state_of_bind. unfold exec. cbn [value_of state_of fst snd].
    destruct (os (pgrep p)); [reflexivity | apply IH].
Qed.

Lemma throttle_one_state n pid s : state_of (throttle_one os n pid s) = s.
Proof.
  unfold throttle_one. rewrite state_of_bind. unfold exec at 1 2.
  cbn [value_of state_of fst snd].
  destruct (os (renice n pid)); [reflexivity|].
  destruct (15 <? n).
  - rewrite state_of_bind. unfold exec. cbn [value_of state_of fst snd].
    destruct (os (taskset "0" pid)); reflexivity.
  - destruct (5 <? n); [|reflexivity].
    rewrite state_of_bind. unfold exec. cbn [value_of state_of fst snd].
    destruct (os (taskset "0,1" pid)); reflexivity.
Qed.

Lemma throttle_loop_state n pids : forall k s,
  state_of (throttle_loop os n pids k s) = s.
Proof.
  induction pids as [|pid rest IH]; intros k s; cbn [throttle_loop].
  - reflexivity.
  - rewrite state_of_bind, IH. apply throttle_one_state.
Qed.

Lemma throttle_ai_processes_state n s :
  state_of (throttle_ai_processes os n s) = s.
Proof.
  unfold throttle_ai_processes, find_ai_processes.
  rewrite state_of_bind, throttle_loop_state. apply find_loop_state.
Qed.

Lemma kill_loop_state patterns : forall s, state_of (kill_loop os patterns s) = s.
Proof.
  induction patterns as [|p rest IH]; intros s; cbn [kill_loop].
  - reflexivity.
  - rewrite state_of_bind. unfold exec. cbn [value_of state_of fst snd]. apply IH.
Qed.

Lemma kill_loop_trace patterns : forall s,
  trace_of (kill_loop os patterns s) = map pkill patterns.
Proof.
  induction patterns as [|p rest IH]; intros s; cbn [kill_loop map].
  - reflexivity.
  - rewrite trace_of_bind. unfold exec. cbn [value_of state_of trace_of fst snd].
    cbn [app]. f_equal. apply IH.
Qed.

Lemma emergency_kill_state s :
  state_of (emergency_kill_heavy_processes os s) = s.
Proof.
  unfold emergency_kill_heavy_processes.
  rewrite state_of_bind, state_of_bind, kill_loop_state.
  unfold exec at 1 2. cbn [value_of state_of fst snd].
  destruct (os sync); [reflexivity|].
  rewrite state_of_bind. reflexivity.
Qed.

Lemma emergency_kill_trace s :
  trace_of (emergency_kill_heavy_processes os s) =
  map pkill heavy_patterns ++
  sync :: match os sync with Raised => [] | Exited _ _ => [drop_caches] end.
Proof.
  unfold emergency_kill_heavy_processes.
  rewrite trace_of_bind, kill_loop_trace, kill_loop_state. f_equal.
  rewrite trace_of_bind. unfold exec at 1 2 3.
  cbn [value_of state_of trace_of fst snd].
  destruct (os sync); [reflexivity|].
  rewrite trace_of_bind. reflexivity.
Qed.


Lemma bind_get {B} (k : Manager -> M B) s : bind get k s = k s s.
Proof.
  unfold bind, get. destruct (k s s) as [[b s2] t2]. reflexivity.
Qed.

Lemma after_profile_count mode s :
  escalation_count (after_profile os mode s) = escalation_count s.
Proof. unfold after_profile. destruct (profile_ok os mode); reflexivity. Qed.

(** ** The five branches of [adaptive_thermal_response] *)

Lemma tick_comfort s temp :
  temp < comfort_temp s ->
  adaptive_thermal_response os temp s =
  if PowerMode_eqb (current_mode s) EMERGENCY
  then (tt,
        with_count (Z.max 0 (escalation_count s - 1)) (after_profile os BALANCED s),
        [powerprofilesctl_set BALANCED])
  else (tt, s, []).
Proof.
  intros H. unfold adaptive_thermal_response. rewrite bind_get.
  apply Z.ltb_lt in H. rewrite H.
  destruct (PowerMode_eqb (current_mode s) EMERGENCY); [|reflexivity].
  rewrite run_bind, set_power_profile_state, set_power_profile_trace.
  unfold modify. cbn [value_of state_of trace_of fst snd].
  fold (after_profile os BALANCED s). rewrite after_profile_count. reflexivity.
Qed.

Lemma tick_band_state s temp :
  comfort_temp s <= temp -> warning_temp s <= temp < critical_temp s ->
  state_of (adaptive_thermal_response os temp s) =
  let s1 := with_count (escalation_count s + 1) s in
  if escalation_count s + 1 <=? 3
  then after_profile os POWER_SAVE s1
  else after_profile os EMERGENCY s1.
Proof.
  intros Hc [Hw Hk]. unfold adaptive_thermal_response. rewrite bind_get.
  apply Z.ltb_ge in Hc, Hw. apply Z.ltb_lt in Hk. rewrite Hc, Hw, Hk.
  rewrite state_of_bind. unfold modify. cbn [value_of state_of fst snd].
  rewrite bind_get. cbn [escalation_count with_count]. cbv zeta.
  destruct (escalation_count s + 1 <=? 3);
    rewrite !state_of_bind; unfold ret; cbn [value_of state_of fst snd];
    rewrite throttle_ai_processes_state; apply set_power_profile_state.
Qed.

Lemma tick_emergency s temp :
  comfort_temp s <= temp -> warning_temp s <= temp ->
  critical_temp s <= temp -> emergency_temp s <= temp ->
  adaptive_thermal_response os temp s =
  (tt,
   with_count 10 (after_profile os EMERGENCY s),
   powerprofilesctl_set EMERGENCY ::
   map pkill heavy_patterns ++
   sync :: match os sync with Raised => [] | Exited _ _ => [drop_caches] end).
Proof.
  intros Hc Hw Hk He. unfold adaptive_thermal_response. rewrite bind_get.
  apply Z.ltb_ge in Hc, Hw, Hk. apply Z.leb_le in He. rewrite Hc, Hw, Hk, He.
  rewrite run_bind, set_power_profile_state, set_power_profile_trace.
  rewrite run_bind, emergency_kill_state, emergency_kill_trace.
  unfold modify. cbn [value_of state_of trace_of fst snd].
  rewrite app_nil_r. reflexivity.
Qed.

(** A tick never writes the thresholds. *)
Lemma tick_shape s temp :
  exists mode count,
    state_of (adaptive_thermal_response os temp s) = with_count count (with_mode mode s).
Proof.
  assert (Hid : forall s, s = with_count (escalation_count s) (with_mode (current_mode s) s))
    by (intros []; reflexivity).
  assert (Hap : forall mode s, exists mode',
            after_profile os mode s = with_mode mode' s).
  { intros mode [c w k e m n]. unfold after_profile.
    destruct (profile_ok os mode); [now exists mode | now exists m]. }
  unfold adaptive_thermal_response. rewrite bind_get.
  destruct (temp <? comfort_temp s).
  { destruct (PowerMode_eqb (current_mode s) EMERGENCY).
    - rewrite state_of_bind, set_power_profile_state. fold (after_profile os BALANCED s).
      unfold modify. cbn [state_of fst snd].
      destruct (Hap BALANCED s) as [m' ->]. eexists _, _. reflexivity.
    - eexists _, _. apply Hid. }
  destruct (temp <? warning_temp s).
  { destruct (PowerMode_eqb (current_mode s) PERFORMANCE).
    - rewrite !state_of_bind. unfold ret. cbn [state_of fst snd].
      rewrite throttle_ai_processes_state, set_power_profile_state.
      fold (after_profile os BALANCED s).
      destruct (Hap BALANCED s) as [m' ->]. exists m', (escalation_count s).
      destruct s; reflexivity.
    - eexists _, _. apply Hid. }
  destruct (temp <? critical_temp s).
  { rewrite state_of_bind. unfold modify. cbn [value_of state_of fst snd].
    rewrite bind_get.
    destruct (escalation_count _ <=? 3);
      rewrite !state_of_bind; unfold ret; cbn [value_of state_of fst snd];
      rewrite throttle_ai_processes_state, set_power_profile_state;
      match goal with |- context [profile_ok os ?m] =>
        fold (after_profile os m (with_count (escalation_count s + 1) s));
        destruct (Hap m (with_count (escalation_count s + 1) s)) as [m' ->] end;
      exists m', (escalation_count s + 1); destruct s; reflexivity. }
  destruct (emergency_temp s <=? temp).
  { rewrite !state_of_bind. unfold modify. cbn [value_of state_of fst snd].
    rewrite emergency_kill_state, set_power_profile_state.
    fold (after_profile os EMERGENCY s).
    destruct (Hap EMERGENCY s) as [m' ->]. eexists _, _. reflexivity. }
  rewrite !state_of_bind. unfold ret. cbn [state_of fst snd].
  rewrite throttle_ai_processes_state, set_power_profile_state.
  fold (after_profile os EMERGENCY s).
  destruct (Hap EMERGENCY s) as [m' ->]. exists m', (escalation_count s).
  destruct s; reflexivity.
Qed.

Lemma tick_thresholds s temp :
  let s' := state_of (adaptive_thermal_response os temp s) in
  comfort_temp s' = comfort_temp s /\ warning_temp s' = warning_temp s /\
  critical_temp s' = critical_temp s /\ emergency_temp s' = emergency_temp s.
Proof.
  cbv zeta. destruct (tick_shape s temp) as (m & c & ->). repeat split.
Qed.


Lemma after_profile_mode_ok mode s :
  profile_succeeds os mode -> current_mode (after_profile os mode s) = mode.
Proof.
  intros H. apply profile_ok_iff in H. unfold after_profile. rewrite H. reflexivity.
Qed.

Lemma after_profile_mode_ko mode s :
  ~ profile_succeeds os mode -> after_profile os mode s = s.
Proof.
  intros H. unfold after_profile.
  destruct (profile_ok os mode) eqn:E; [|reflexivity].
  apply profile_ok_iff in E. contradiction.
Qed.

Lemma PowerMode_eqb_eq a b : PowerMode_eqb a b = true <-> a = b.
Proof. destruct a, b; cbn; split; congruence. Qed.

End ThermalLoop.

Section ThermalClaims.
Import SmartThermal.
Variable os : OS.

(** C1 (as amended). Below the comfort threshold one tick leaves a
    manager that is not in Emergency untouched, and for a manager in
    Emergency asks for the Balanced profile and lowers the escalation
    counter by one, never below 0. The mode after the tick is not
    Emergency when it was not before or when the profile command
    succeeds; the counter is not reset. *)
Theorem comfort_tick_relaxes (s : Manager) (temp : Z) :
  temp < comfort_temp s ->
  let s' := state_of (adaptive_thermal_response os temp s) in
  (current_mode s <> EMERGENCY \/ profile_succeeds os BALANCED ->
   current_mode s' <> EMERGENCY) /\
  escalation_count s' =
    (if PowerMode_eqb (current_mode s) EMERGENCY
     then Z.max 0 (escalation_count s - 1)
     else escalation_count s).
Proof.
  intros H. cbv zeta. rewrite (tick_comfort os s temp H).
  destruct (PowerMode_eqb (current_mode s) EMERGENCY) eqn:E;
    cbn [state_of fst snd].
  - split; [|reflexivity].
    intros [Hne | Hok].
    + apply PowerMode_eqb_eq in E. contradiction.
    + cbn [current_mode with_count].
      rewrite (after_profile_mode_ok os _ _ Hok). discriminate.
  - split; [|reflexivity].
    intros _ Hm. apply PowerMode_eqb_eq in Hm. congruence.
Qed.

(** C2 (as amended). On a tick whose temperature is at or above the
    comfort and warning thresholds and below the critical one, the
    escalation counter grows by exactly one, whatever the temperature
    of the tick before was. *)
Theorem band_tick_always_increments (os_prev : OS) (s : Manager) (t_prev temp : Z) :
  comfort_temp s <= temp ->
  warning_temp s <= temp < critical_temp s ->
  let s1 := state_of (adaptive_thermal_response os_prev t_prev s) in
  escalation_count (state_of (adaptive_thermal_response os temp s1)) =
  escalation_count s1 + 1.
Proof.
  intros Hc Hb s1.
  destruct (tick_thresholds os_prev s t_prev) as (E1 & E2 & E3 & _).
  fold s1 in E1, E2, E3.
  rewrite (tick_band_state os) by (rewrite ?E1, ?E2, ?E3; assumption).
  cbv zeta.
  destruct (escalation_count s1 + 1 <=? 3); rewrite after_profile_count; reflexivity.
Qed.

Lemma band_tick_count s temp :
  comfort_temp s <= temp -> warning_temp s <= temp < critical_temp s ->
  let s' := state_of (adaptive_thermal_response os temp s) in
  escalation_count s' = escalation_count s + 1 /\
  (profile_succeeds os POWER_SAVE -> escalation_count s + 1 <= 3 ->
   current_mode s' = POWER_SAVE) /\
  (profile_succeeds os EMERGENCY -> 3 < escalation_count s + 1 ->
   current_mode s' = EMERGENCY) /\
  comfort_temp s' = comfort_temp s /\ warning_temp s' = warning_temp s /\
  critical_temp s' = critical_temp s.
Proof.
  intros Hc Hb. cbv zeta.
  destruct (tick_thresholds os s temp) as (E1 & E2 & E3 & _).
  rewrite E1, E2, E3.
  rewrite (tick_band_state os) by assumption. cbv zeta.
  destruct (escalation_count s + 1 <=? 3) eqn:E.
  - apply Z.leb_le in E. rewrite after_profile_count. repeat split; try reflexivity.
    + intros Hok _. now apply after_profile_mode_ok.
    + lia.
  - apply Z.leb_gt in E. rewrite after_profile_count. repeat split; try reflexivity.
    + lia.
    + intros Hok _. now apply after_profile_mode_ok.
Qed.

Lemma ticks_cons t rest s :
  state_of (ticks os (t :: rest) s) =
  state_of (ticks os rest (state_of (adaptive_thermal_response os t s))).
Proof. cbn [ticks]. rewrite state_of_bind. reflexivity. Qed.

(** C3 (as amended). With thresholds 60/75/85/95 and the counter at 0,
    three consecutive ticks at 80 leave the counter at 3 and the mode
    at PowerSaver; the fourth tick takes the counter to 4 and the mode
    to Emergency (the profile commands succeeding). *)
Theorem emergency_on_fourth_tick_at_80 (s : Manager) :
  comfort_temp s = 60 -> warning_temp s = 75 ->
  critical_temp s = 85 -> emergency_temp s = 95 ->
  escalation_count s = 0 ->
  profile_succeeds os POWER_SAVE -> profile_succeeds os EMERGENCY ->
  let s3 := state_of (ticks os [80; 80; 80] s) in
  let s4 := state_of (ticks os [80; 80; 80; 80] s) in
  current_mode s3 = POWER_SAVE /\ escalation_count s3 = 3 /\
  current_mode s4 = EMERGENCY /\ escalation_count s4 = 4.
Proof.
  intros Hc Hw Hk He H0 Hps Hem. cbv zeta.
  rewrite !ticks_cons. cbn [ticks ret state_of fst snd].
  set (s1 := state_of (adaptive_thermal_response os 80 s)).
  set (s2 := state_of (adaptive_thermal_response os 80 s1)).
  set (s3 := state_of (adaptive_thermal_response os 80 s2)).
  set (s4 := state_of (adaptive_thermal_response os 80 s3)).
  destruct (band_tick_count s 80) as (C1 & _ & _ & A1 & B1 & D1); try lia.
  fold s1 in C1, A1, B1, D1.
  destruct (band_tick_count s1 80) as (C2 & _ & _ & A2 & B2 & D2); try lia.
  fold s2 in C2, A2, B2, D2.
  destruct (band_tick_count s2 80) as (C3 & M3 & _ & A3 & B3 & D3); try lia.
  fold s3 in C3, M3, A3, B3, D3.
  destruct (band_tick_count s3 80) as (C4 & _ & M4 & _); try lia.
  fold s4 in C4, M4.
  repeat split; [apply M3 | | apply M4 | ]; try assumption; lia.
Qed.

(** C4 (as amended). At or above the emergency threshold (and the three
    thresholds below it) one tick asks for the Emergency profile, runs
    the kill path for every heavy pattern on that same tick and sets
    the escalation counter to 10. It runs no renice and no taskset. The
    mode becomes Emergency when the profile command succeeds and is
    left as it was otherwise. *)
Theorem emergency_tick_kills (s : Manager) (temp : Z) :
  comfort_temp s <= temp -> warning_temp s <= temp ->
  critical_temp s <= temp -> emergency_temp s <= temp ->
  let r := adaptive_thermal_response os temp s in
  trace_of r =
    powerprofilesctl_set EMERGENCY ::
    map pkill heavy_patterns ++
    sync :: match os sync with Raised => [] | Exited _ _ => [drop_caches] end /\
  (forall c, In c (trace_of r) -> is_throttle c = false) /\
  escalation_count (state_of r) = 10 /\
  (profile_succeeds os EMERGENCY -> current_mode (state_of r) = EMERGENCY) /\
  (~ profile_succeeds os EMERGENCY -> current_mode (state_of r) = current_mode s).
Proof.
  intros Hc Hw Hk He. cbv zeta.
  rewrite (tick_emergency os s temp Hc Hw Hk He). cbn [trace_of state_of fst snd].
  split; [reflexivity|]. split.
  - intros c [<- | Hin]; [reflexivity|].
    apply in_app_or in Hin. destruct Hin as [Hin | Hin].
    + apply in_map_iff in Hin. destruct Hin as (p & <- & _). reflexivity.
    + destruct Hin as [<- | Hin]; [reflexivity|].
      destruct (os sync); [destruct Hin|].
      destruct Hin as [<- | []]. reflexivity.
  - split; [reflexivity|]. cbn [current_mode with_count]. split.
    + apply after_profile_mode_ok.
    + intros Hko. now rewrite after_profile_mode_ko.
Qed.

(** C10. When both reading methods fail, [get_cpu_temperature] returns
    0, and with a positive comfort threshold the tick takes that 0 for
    a cool reading: a manager in Emergency asks for the Balanced
    profile (and is Balanced when the command succeeds) and has its
    escalation counter lowered by one, never below 0. *)
Theorem failed_sampling_reads_as_cool (s : Manager) :
  0 < comfort_temp s ->
  current_mode s = EMERGENCY ->
  let src := {| sensors_core0 := None; thermal_zone0 := None |} in
  let r := monitoring_tick os src s in
  get_cpu_temperature src = 0 /\
  trace_of r = [powerprofilesctl_set BALANCED] /\
  escalation_count (state_of r) = Z.max 0 (escalation_count s - 1) /\
  (profile_succeeds os BALANCED -> current_mode (state_of r) = BALANCED).
Proof.
  intros Hpos Hm. cbv zeta. unfold monitoring_tick.
  cbn [get_cpu_temperature sensors_core0 thermal_zone0].
  rewrite (tick_comfort os s 0 Hpos), Hm. cbn [PowerMode_eqb trace_of state_of fst snd].
  repeat split. cbn [current_mode with_count]. apply after_profile_mode_ok.
Qed.

End ThermalClaims.

Section ThermalExamples.
Import SmartThermal.

Lemma comfort_tick_relaxes_witness :
  let s := with_count 10 (with_mode EMERGENCY init) in
  let s' := state_of (adaptive_thermal_response os_ok 50 s) in
  current_mode s' <> EMERGENCY /\ escalation_count s' = 9.
Proof.
  destruct (comfort_tick_relaxes os_ok (with_count 10 (with_mode EMERGENCY init)) 50)
    as [Hm Hc]; [reflexivity|].
  split; [apply Hm; right; exists []; reflexivity | exact Hc].
Defined.

(** C1, as stated, fails: after two ticks at 75 the counter is 2 and the
    mode PowerSaver; a tick at 50, below the comfort threshold 65,
    leaves the counter at 2. *)
Lemma comfort_tick_counter_not_reset :
  let s := state_of (ticks os_ok [75; 75] init) in
  let s' := state_of (adaptive_thermal_response os_ok 50 s) in
  50 < comfort_temp s /\
  ~ (current_mode s' <> EMERGENCY /\ escalation_count s' = 0).
Proof.
  cbv zeta. split; [reflexivity|].
  intros [_ H]. vm_compute in H. discriminate.
Qed.

Lemma band_tick_always_increments_witness :
  let s1 := state_of (adaptive_thermal_response os_ok 50 init) in
  escalation_count (state_of (adaptive_thermal_response os_ok 75 s1)) =
  escalation_count s1 + 1.
Proof.
  apply (band_tick_always_increments os_ok os_ok init 50 75); cbn; lia.
Defined.

(** C2, as stated, fails: the tick at 50 is in the comfort band, the
    next tick at 75 is in the warning-to-critical band, and the counter
    is incremented all the same. *)
Lemma band_tick_increments_after_cool_tick :
  let s1 := state_of (adaptive_thermal_response os_ok 50 init) in
  let s2 := state_of (adaptive_thermal_response os_ok 75 s1) in
  50 < comfort_temp init /\
  warning_temp s1 <= 75 < critical_temp s1 /\
  ~ (escalation_count s2 = escalation_count s1).
Proof.
  cbv zeta. split; [reflexivity|]. split; [split; [discriminate | reflexivity]|].
  vm_compute. discriminate.
Qed.

Lemma emergency_on_fourth_tick_at_80_witness :
  let s3 := state_of (ticks os_ok [80; 80; 80] thresholds_60_75_85_95) in
  let s4 := state_of (ticks os_ok [80; 80; 80; 80] thresholds_60_75_85_95) in
  current_mode s3 = POWER_SAVE /\ escalation_count s3 = 3 /\
  current_mode s4 = EMERGENCY /\ escalation_count s4 = 4.
Proof.
  apply (emergency_on_fourth_tick_at_80 os_ok thresholds_60_75_85_95);
    try reflexivity; exists []; reflexivity.
Defined.

(** C3, as stated, fails: after the third tick at 80 the mode is
    PowerSaver and the counter is 3, which does not exceed 3. *)
Lemma third_tick_at_80_is_power_save :
  let s3 := state_of (ticks os_ok [80; 80; 80] thresholds_60_75_85_95) in
  ~ (current_mode s3 = EMERGENCY /\ 3 < escalation_count s3).
Proof.
  cbv zeta. intros [H _]. vm_compute in H. discriminate.
Qed.

Lemma emergency_tick_kills_witness :
  let r := adaptive_thermal_response os_ok 96 init in
  trace_of r =
    [powerprofilesctl_set EMERGENCY; pkill "docker"; pkill "ollama";
     pkill "python.*ollama"; pkill "npm"; pkill "python.*mycoder";
     sync; drop_caches] /\
  escalation_count (state_of r) = 10 /\
  current_mode (state_of r) = EMERGENCY.
Proof.
  destruct (emergency_tick_kills os_ok init 96) as (Ht & _ & Hc & Hm & _);
    try (cbn; lia).
  split; [exact Ht|]. split; [exact Hc|]. apply Hm. exists []; reflexivity.
Defined.

(** C4, as stated, fails: at 96 with the default thresholds, and with a
    workload process (pid 4242) running, the tick runs neither renice
    nor taskset: no throttling or affinity restriction is applied. *)
Lemma emergency_tick_does_not_throttle :
  let r := adaptive_thermal_response os_ok 96 init in
  emergency_temp init <= 96 /\
  value_of (find_ai_processes os_ok init) = [4242] /\
  ~ (current_mode (state_of r) = EMERGENCY /\
     In (renice 19 4242) (trace_of r) /\
     In (taskset "0" 4242) (trace_of r) /\
     In (pkill "ollama") (trace_of r) /\
     escalation_count (state_of r) = 10).
Proof.
  cbv zeta. split; [discriminate|]. split; [reflexivity|].
  intros (_ & H & _). vm_compute in H.
  repeat (destruct H as [H | H]; [discriminate|]). exact H.
Qed.

Lemma failed_sampling_reads_as_cool_witness :
  let s := with_count 10 (with_mode EMERGENCY init) in
  let src := {| sensors_core0 := None; thermal_zone0 := None |} in
  let r := monitoring_tick os_ok src s in
  get_cpu_temperature src = 0 /\
  trace_of r = [powerprofilesctl_set BALANCED] /\
  escalation_count (state_of r) = 9 /\
  current_mode (state_of r) = BALANCED.
Proof.
  destruct (failed_sampling_reads_as_cool os_ok (with_count 10 (with_mode EMERGENCY init)))
    as (H0 & Ht & Hc & Hm); try reflexivity.
  split; [exact H0|]. split; [exact Ht|]. split; [exact Hc|].
  apply Hm. exists []; reflexivity.
Defined.

End ThermalExamples.

(* ================================================================== *)
(** * Properties of hardware detection *)
(* ================================================================== *)

Section DetectorClaims.
Import Detector.

(** C7 (as amended). Without the native interface and with a readable
    current frequency, the ceiling is max(current, 2000) and the floor
    is a third of the ceiling; the floor is current/3 exactly when the
    current frequency is at least 2000. *)
Theorem fallback_frequency_range (p : Platform) (current : Z) :
  cpufreq_limits p = None ->
  proc_cpu_mhz p = Some current ->
  _detect_frequency_range p = (Z.max current 2000 / 3, Z.max current 2000) /\
  (2000 <= current -> fst (_detect_frequency_range p) = current / 3).
Proof.
  intros Hl Hc. unfold _detect_frequency_range. rewrite Hl, Hc.
  split; [reflexivity|]. intros H. cbn [fst]. now rewrite Z.max_l by assumption.
Qed.

(** The detected range is never empty on the fallback path. *)
Lemma fallback_range_ordered (p : Platform) (current : Z) :
  cpufreq_limits p = None ->
  proc_cpu_mhz p = Some current ->
  fst (_detect_frequency_range p) <= snd (_detect_frequency_range p).
Proof.
  intros Hl Hc. unfold _detect_frequency_range. rewrite Hl, Hc. cbn [fst snd].
  assert (0 < Z.max current 2000) by lia.
  apply Z.lt_le_incl, Z.div_lt; lia.
Qed.

End DetectorClaims.

Section DetectorExamples.
Import Detector.

Lemma fallback_frequency_range_witness :
  _detect_frequency_range (core2_without_cpufreq 2833) = (944, 2833) /\
  fst (_detect_frequency_range (core2_without_cpufreq 2833)) = 2833 / 3.
Proof.
  destruct (fallback_frequency_range (core2_without_cpufreq 2833) 2833)
    as [H1 H2]; [reflexivity | reflexivity |].
  split; [exact H1 | apply H2; lia].
Defined.

(** C7, as stated, fails: at a current frequency of 1500 MHz the floor
    is 2000/3 = 666, not 1500/3 = 500. *)
Lemma fallback_floor_is_not_current_third :
  let p := core2_without_cpufreq 1500 in
  cpufreq_limits p = None /\ proc_cpu_mhz p = Some 1500 /\
  ~ (fst (_detect_frequency_range p) = 1500 / 3 /\
     snd (_detect_frequency_range p) = Z.max 1500 2000).
Proof.
  cbv zeta. split; [reflexivity|]. split; [reflexivity|].
  intros [H _]. vm_compute in H. discriminate.
Qed.

End DetectorExamples.

(* ================================================================== *)
(** * Properties of the universal frequency manager *)
(* ================================================================== *)

Section FrequencyClaims.
Import Detector UniversalCPU.
Variable env : Env.

Lemma CPUGeneration_eqb_eq a b : CPUGeneration_eqb a b = true <-> a = b.
Proof. destruct a, b; cbn; split; congruence. Qed.


Lemma div_1000 (t : Z) : t * 1000 / 1000 = t.
Proof. apply Z.div_mul. discriminate. Qed.

(** Whatever [run_all] attempts is among the actions it was given. *)
Lemma run_all_incl (acts : list Action) :
  incl (snd (run_all env acts)) acts.
Proof.
  induction acts as [|a rest IH]; cbn [run_all].
  - apply incl_refl.
  - destruct (env a).
    + cbn [snd]. intros x [<- | []]. now left.
    + destruct (run_all env rest) as [ok t]. cbn [snd] in *.
      intros x [<- | Hx]; [now left | right; now apply IH].
Qed.

Lemma cpufreq_actions_target (m : Manager) (t : Z) (a : Action) (f : Z) :
  In a (snd (set_frequency_cpufreq env m t)) ->
  applied_mhz a = Some f -> f = t.
Proof.
  unfold set_frequency_cpufreq. intros Hin Ha.
  destruct (control_method m);
    apply run_all_incl, in_flat_map in Hin;
    destruct Hin as (cpu & _ & Hin); cbn [In] in Hin;
    destruct Hin as [<- | [<- | []]]; cbn [applied_mhz] in Ha;
    try discriminate; rewrite div_1000 in Ha; congruence.
Qed.

Lemma cpupower_actions_target (t : Z) (a : Action) (f : Z) :
  In a (snd (set_frequency_cpupower env t)) ->
  applied_mhz a = Some f -> f = t.
Proof.
  unfold set_frequency_cpupower. intros Hin Ha.
  destruct (env (cpupower_frequency_set t)) as [|rc]; [|destruct rc];
    cbn [snd In] in Hin; destruct Hin as [<- | []];
    cbn [applied_mhz] in Ha; congruence.
Qed.

Lemma run_checked_incl (acts : list Action) :
  incl (snd (run_checked env acts)) acts.
Proof.
  induction acts as [|a rest IH]; cbn [run_checked].
  - apply incl_refl.
  - destruct (env a) as [|rc]; [|destruct rc].
    + cbn [snd]. intros x [<- | []]. now left.
    + destruct (run_checked env rest) as [ok t]. cbn [snd] in *.
      intros x [<- | Hx]; [now left | right; now apply IH].
    + cbn [snd]. intros x [<- | []]. now left.
    + cbn [snd]. intros x [<- | []]. now left.
Qed.

Lemma min_by_in (key : Z -> Z) (rest : list Z) : forall best,
  In (min_by key best rest) (best :: rest).
Proof.
  induction rest as [|x r IH]; intros best; cbn [min_by].
  - now left.
  - specialize (IH (if key x <? key best then x else best)).
    destruct (key x <? key best); destruct IH as [<- | IH]; cbn; auto.
Qed.

(** Every table frequency is found again from its register value. *)
Lemma table_values_distinct (c : Z) :
  In c (sorted (map fst CORE2_QUAD_MULTIPLIERS)) ->
  exists v, lookup c CORE2_QUAD_MULTIPLIERS = Some v /\ key_of_value v = Some c.
Proof.
  cbv [sorted map fst CORE2_QUAD_MULTIPLIERS fold_right insert_sorted Z.leb Z.compare Pos.compare Pos.compare_cont].
  cbn [In]. intros H.
  repeat (destruct H as [<- | H]; [eexists; split; reflexivity|]).
  destruct H.
Qed.

Lemma msr_actions_target (m : Manager) (t : Z) (a : Action) (f : Z) :
  In a (snd (set_frequency_msr env m t)) ->
  applied_mhz a = Some f ->
  closest_freq t = Some f /\ Z.abs (f - t) <= 200.
Proof.
  unfold set_frequency_msr.
  destruct (negb _); [intros []|].
  destruct (closest_freq t) as [c|] eqn:Ec; [|intros []].
  destruct (200 <? Z.abs (c - t)) eqn:E; [intros []|].
  apply Z.ltb_ge in E.
  assert (Hin : In c (sorted (map fst CORE2_QUAD_MULTIPLIERS))).
  { unfold closest_freq in Ec.
    destruct (sorted (map fst CORE2_QUAD_MULTIPLIERS)) as [|x r]; [discriminate|].
    injection Ec as <-. apply min_by_in. }
  destruct (table_values_distinct c Hin) as (v & Hl & Hk). rewrite Hl.
  intros Ha Hf. apply run_checked_incl in Ha. cbn [In] in Ha.
  destruct Ha as [<- | [<- | []]]; cbn [applied_mhz] in Hf; [discriminate|].
  rewrite Hk in Hf. injection Hf as <-. split; [reflexivity | exact E].
Qed.

Lemma clamp_in_range (m : Manager) (x : Z) :
  min_freq_mhz (cpu_info m) <= max_freq_mhz (cpu_info m) ->
  min_freq_mhz (cpu_info m) <= clamp m x <= max_freq_mhz (cpu_info m).
Proof. unfold clamp. lia. Qed.

(** C5 (as amended). For a profile whose range is not empty and every
    integer input, the target that [set_frequency] hands to the
    actuation method it tries is the input clamped into
    [min_freq_mhz, max_freq_mhz]. The cpufreq and cpupower methods
    write or pass exactly that frequency; the MSR method writes the
    register value of the table frequency nearest to it, which is
    within 200 MHz of the clamped target. In CI mode and without a
    method nothing is attempted. *)
Theorem set_frequency_clamps (m : Manager) (x : Z) :
  min_freq_mhz (cpu_info m) <= max_freq_mhz (cpu_info m) ->
  match set_frequency_attempt m x with
  | Some a =>
      attempted_freq a = clamp m x /\
      min_freq_mhz (cpu_info m) <= attempted_freq a <= max_freq_mhz (cpu_info m) /\
      set_frequency env m x = perform env m a /\
      forall act f,
        In act (snd (set_frequency env m x)) ->
        applied_mhz act = Some f ->
        match a with
        | try_msr t => closest_freq t = Some f /\ Z.abs (f - t) <= 200
        | try_cpufreq t | try_cpupower t => f = t
        end
  | None => snd (set_frequency env m x) = []
  end.
Proof.
  intros Hr. pose proof (clamp_in_range m x Hr) as Hc.
  unfold set_frequency_attempt, set_frequency.
  destruct (is_ci m); [reflexivity|].
  destruct (control_method m) eqn:Hcm; cbn [attempted_freq perform snd];
    try reflexivity;
    (split; [reflexivity|]); (split; [exact Hc|]); (split; [reflexivity|]);
    intros act f Hin Ha.
  - exact (cpufreq_actions_target m _ act f Hin Ha).
  - exact (cpufreq_actions_target m _ act f Hin Ha).
  - exact (msr_actions_target m _ act f Hin Ha).
  - exact (cpupower_actions_target _ act f Hin Ha).
Qed.

End FrequencyClaims.

Section FrequencyExamples.
Import Detector UniversalCPU.



Lemma set_frequency_clamps_witness :
  let m := new_manager env_ok false (_detect_cpu (core2_without_cpufreq 2133)) in
  set_frequency_attempt m 5000 = Some (try_msr 2133) /\
  min_freq_mhz (cpu_info m) <= 2133 <= max_freq_mhz (cpu_info m).
Proof.
  cbv zeta. split; [reflexivity|].
  pose proof (set_frequency_clamps env_ok
                (new_manager env_ok false (_detect_cpu (core2_without_cpufreq 2133)))
                5000) as T.
  assert (Hr : min_freq_mhz (cpu_info (new_manager env_ok false
                 (_detect_cpu (core2_without_cpufreq 2133)))) <=
               max_freq_mhz (cpu_info (new_manager env_ok false
                 (_detect_cpu (core2_without_cpufreq 2133)))))
    by (vm_compute; discriminate).
  exact (proj1 (proj2 (T Hr))).
Defined.

(** C5, as stated, fails on the MSR path. On a 2133 MHz Core 2 without
    cpufreq the detected range is [711, 2133]; a request for 5000 MHz
    is clamped to 2133, and the register value written is the one of
    the table frequency 2166 MHz, above the detected maximum. *)
Lemma msr_applies_above_detected_maximum :
  let m := new_manager env_ok false (_detect_cpu (core2_without_cpufreq 2133)) in
  (min_freq_mhz (cpu_info m), max_freq_mhz (cpu_info m)) = (711, 2133) /\
  set_frequency env_ok m 5000 = (true, [modprobe_msr; wrmsr 0x0411]) /\
  applied_mhz (wrmsr 0x0411) = Some 2166 /\
  ~ (forall act f,
       In act (snd (set_frequency env_ok m 5000)) ->
       applied_mhz act = Some f ->
       min_freq_mhz (cpu_info m) <= f <= max_freq_mhz (cpu_info m)).
Proof.
  cbv zeta. repeat (split; [reflexivity|]).
  intros H. specialize (H (wrmsr 0x0411) 2166 ltac:(right; left; reflexivity) eq_refl).
  vm_compute in H. destruct H as [_ H]. now apply H.
Qed.

End FrequencyExamples.

Section LegacyExamples.
Import LegacyCPU.

(** [CPUFrequencyManager.set_frequency] has no clamp: the cpufreq
    method is given the target as it came. *)
Lemma legacy_set_frequency_forwards_target (t : Z) :
  set_frequency env_ok [CPUFREQ; MSR; CPUPOWER; GRUB_FALLBACK] t =
  (Some CPUFREQ,
   [write_scaling_governor "userspace"; write_scaling_setspeed (t * 1000)]).
Proof. reflexivity. Qed.

Lemma legacy_set_frequency_above_maximum :
  q9550_max_freq < 5000 /\
  snd (set_frequency env_ok [CPUFREQ; MSR; CPUPOWER; GRUB_FALLBACK] 5000) =
  [write_scaling_governor "userspace"; write_scaling_setspeed 5000000].
Proof. split; reflexivity. Qed.

End LegacyExamples.

(* ================================================================== *)
(** * Rounding facts for Python's float arithmetic *)
(* ================================================================== *)

Section Binary64.
Import PyFloat.

(** ** Number of binary digits *)

Lemma digits2_pos_size (p : positive) : digits2_pos p = Pos.size p.
Proof. induction p; cbn; now rewrite ?IHp. Qed.

Lemma Zdigits2_bounds (p : positive) :
  2 ^ (Zdigits2 (Zpos p) - 1) <= Zpos p < 2 ^ Zdigits2 (Zpos p).
Proof.
  cbn [Zdigits2]. rewrite digits2_pos_size. split.
  - pose proof (Pos.size_le p) as H.
    assert (E : Zpos (2 ^ Pos.size p) = 2 ^ Zpos (Pos.size p))
      by apply Pos2Z.inj_pow.
    assert (Zpos (2 ^ Pos.size p) <= Zpos p~0) by exact H.
    replace (Zpos (Pos.size p)) with (Zpos (Pos.size p) - 1 + 1) in E by lia.
    rewrite Z.pow_add_r in E by lia. lia.
  - pose proof (Pos.size_gt p) as H.
    assert (Zpos p < Zpos (2 ^ Pos.size p)) by exact H.
    now rewrite Pos2Z.inj_pow in *.
Qed.

Lemma Zdigits2_pos (p : positive) : 0 < Zdigits2 (Zpos p).
Proof. cbn. lia. Qed.

Lemma Zdigits2_unique (p : positive) (d : Z) :
  2 ^ (d - 1) <= Zpos p < 2 ^ d -> Zdigits2 (Zpos p) = d.
Proof.
  intros [Hl Hu]. pose proof (Zdigits2_bounds p) as [Hl' Hu'].
  pose proof (Zdigits2_pos p) as Hp.
  assert (0 < d).
  { destruct (Z.ltb_spec 0 d) as [|Hd]; [assumption|].
    destruct (Z.eq_dec d 0) as [->|].
    - change (2 ^ 0) with 1 in Hu. lia.
    - rewrite Z.pow_neg_r in Hu by lia. lia. }
  assert (Zdigits2 (Zpos p) - 1 < d).
  { apply (Z.pow_lt_mono_r_iff 2); lia. }
  assert (d - 1 < Zdigits2 (Zpos p)).
  { apply (Z.pow_lt_mono_r_iff 2); lia. }
  lia.
Qed.

(** ** Right shifts with round and sticky bits *)

Lemma shr_1_m (mrs : shr_record) :
  0 <= shr_m mrs -> shr_m (shr_1 mrs) = shr_m mrs / 2.
Proof.
  destruct mrs as [m r s]. cbn [shr_m]. intros H.
  destruct m as [|[p|p|]|p]; cbn [shr_1 shr_m]; try reflexivity; try lia.
  - rewrite Pos2Z.inj_xI. apply Z.div_unique with 1; lia.
  - rewrite Pos2Z.inj_xO. apply Z.div_unique with 0; lia.
Qed.

Lemma pow2_xO (p : positive) : 2 ^ Zpos p~0 = 2 ^ Zpos p * 2 ^ Zpos p.
Proof. rewrite <- Z.pow_add_r by lia. f_equal. lia. Qed.

Lemma pow2_xI (p : positive) : 2 ^ Zpos p~1 = 2 * (2 ^ Zpos p * 2 ^ Zpos p).
Proof.
  rewrite <- Z.pow_add_r, <- Z.pow_succ_r by lia. f_equal. lia.
Qed.

Lemma pow2_pos (n : Z) : 0 <= n -> 0 < 2 ^ n.
Proof. intros. apply Z.pow_pos_nonneg; lia. Qed.

Lemma iter_shr_1_m (p : positive) : forall mrs,
  0 <= shr_m mrs ->
  shr_m (iter_pos shr_1 p mrs) = shr_m mrs / 2 ^ Zpos p.
Proof.
  assert (Hnn : forall mrs, 0 <= shr_m mrs -> 0 <= shr_m (shr_1 mrs)).
  { intros mrs H. rewrite shr_1_m by assumption. apply Z.div_pos; lia. }
  induction p as [p IH|p IH|]; intros mrs H; cbn [iter_pos].
  - pose proof (pow2_pos (Zpos p) ltac:(lia)) as Hp.
    assert (H1 : 0 <= shr_m (iter_pos shr_1 p (shr_1 mrs))).
    { rewrite IH by auto. apply Z.div_pos; auto. }
    rewrite IH, IH, shr_1_m by auto.
    rewrite !Z.div_div by lia. f_equal. rewrite pow2_xI. lia.
  - pose proof (pow2_pos (Zpos p) ltac:(lia)) as Hp.
    assert (H1 : 0 <= shr_m (iter_pos shr_1 p mrs)).
    { rewrite IH by auto. apply Z.div_pos; auto. }
    rewrite IH, IH by auto.
    rewrite !Z.div_div by lia. f_equal. rewrite pow2_xO. lia.
  - rewrite shr_1_m by assumption. reflexivity.
Qed.

(** A shift that drops only zero bits is exact. *)
Lemma iter_shr_1_exact (p : positive) : forall q,
  0 <= q ->
  iter_pos shr_1 p (Build_shr_record (2 ^ Zpos p * q) false false) =
  Build_shr_record q false false.
Proof.
  assert (H1 : forall q, 0 <= q ->
            shr_1 (Build_shr_record (2 * q) false false) =
            Build_shr_record q false false).
  { intros [|q|q] H; reflexivity. }
  induction p as [p IH|p IH|]; intros q H; cbn [iter_pos].
  - pose proof (pow2_pos (Zpos p) ltac:(lia)) as Hp.
    replace (2 ^ Zpos p~1 * q) with (2 * (2 ^ Zpos p * (2 ^ Zpos p * q)))
      by (rewrite pow2_xI; lia).
    rewrite H1, IH, IH; auto; nia.
  - pose proof (pow2_pos (Zpos p) ltac:(lia)) as Hp.
    replace (2 ^ Zpos p~0 * q) with (2 ^ Zpos p * (2 ^ Zpos p * q))
      by (rewrite pow2_xO; lia).
    rewrite IH, IH; auto; nia.
  - change (2 ^ 1) with 2. now apply H1.
Qed.

Lemma round_nearest_even_bounds (m : Z) (l : location) :
  m <= round_nearest_even m l <= m + 1.
Proof.
  destruct l as [|[| |]]; cbn [round_nearest_even]; try lia.
  destruct (Z.even m); lia.
Qed.


(** ** Rounding to binary64 *)

Lemma fexp_normal (x : Z) :
  -1074 <= x - 53 -> fexp prec emax x = x - 53.
Proof. unfold fexp, emin, prec, emax. lia. Qed.

Lemma shr_fexp_noshift (P : positive) (e : Z) :
  Zdigits2 (Zpos P) <= 53 -> -1074 <= e ->
  shr_fexp prec emax (Zpos P) e loc_Exact =
  (Build_shr_record (Zpos P) false false, e).
Proof.
  intros Hd He. unfold shr_fexp, fexp, emin, prec, emax, shr.
  cbn [shr_record_of_loc].
  destruct (Z.max _ _ - e) eqn:E; try reflexivity. lia.
Qed.

Lemma shr_fexp_shift (P : positive) (e : Z) (k : positive) :
  Zdigits2 (Zpos P) = 53 + Zpos k -> -1074 <= e + Zpos k ->
  shr_fexp prec emax (Zpos P) e loc_Exact =
  (iter_pos shr_1 k (Build_shr_record (Zpos P) false false), e + Zpos k).
Proof.
  intros Hd He. unfold shr_fexp. rewrite fexp_normal by lia.
  replace (Zdigits2 (Zpos P) + e - 53 - e) with (Zpos k) by lia.
  reflexivity.
Qed.

Lemma shiftl_double (a n : Z) : Z.shiftl (2 * a) n = Z.shiftl a (n + 1).
Proof.
  replace (2 * a) with (Z.shiftl a 1) by (rewrite Z.shiftl_mul_pow2; lia).
  rewrite Z.shiftl_shiftl by lia. f_equal. lia.
Qed.

(** A mantissa of at most 53 bits needs no rounding. *)
Lemma binary_round_aux_fits (P : positive) (e : Z) :
  Zdigits2 (Zpos P) <= 53 -> -1074 <= e <= 971 ->
  binary_round_aux prec emax false (Zpos P) e loc_Exact = S754_finite false P e.
Proof.
  intros Hd He. unfold binary_round_aux.
  rewrite shr_fexp_noshift by lia.
  cbn [shr_m loc_of_shr_record round_nearest_even].
  rewrite shr_fexp_noshift by lia. cbn [shr_m].
  unfold prec, emax. destruct (Z.leb_spec e (1024 - 53)); [reflexivity | lia].
Qed.

(** A longer mantissa is cut to 53 bits: the result is [M * 2^(e+k)],
    where [M] is the mantissa shifted right by [k] bits or its
    successor, and the shifted mantissa itself when the bits dropped
    are all zero. A carry into bit 54 is renormalised and may
    overflow. *)
Lemma binary_round_aux_cut (P : positive) (e : Z) (k : positive) :
  Zdigits2 (Zpos P) = 53 + Zpos k ->
  -1074 <= e + Zpos k ->
  exists M : positive,
    Zpos P / 2 ^ Zpos k <= Zpos M <= Zpos P / 2 ^ Zpos k + 1 /\
    (Zpos P mod 2 ^ Zpos k = 0 -> Zpos M = Zpos P / 2 ^ Zpos k) /\
    2 ^ 52 <= Zpos M <= 2 ^ 53 /\
    binary_round_aux prec emax false (Zpos P) e loc_Exact =
    if Zpos M <? 2 ^ 53
    then if e + Zpos k <=? 971
         then S754_finite false M (e + Zpos k)
         else S754_infinity false
    else if e + Zpos k + 1 <=? 971
         then S754_finite false 4503599627370496 (e + Zpos k + 1)
         else S754_infinity false.
Proof.
  intros Hd Hlo.
  pose proof (Zdigits2_bounds P) as [Bl Bu]. rewrite Hd in Bl, Bu.
  pose proof (pow2_pos (Zpos k) ltac:(lia)) as Hk.
  replace (53 + Zpos k - 1) with (Zpos k + 52) in Bl by lia.
  replace (53 + Zpos k) with (Zpos k + 53) in Bu by lia.
  rewrite Z.pow_add_r in Bl, Bu by lia.
  set (m1 := Zpos P / 2 ^ Zpos k).
  assert (Hm1 : 2 ^ 52 <= m1 < 2 ^ 53).
  { unfold m1. split.
    - apply Z.div_le_lower_bound; lia.
    - apply Z.div_lt_upper_bound; lia. }
  unfold binary_round_aux. rewrite (shr_fexp_shift P e k) by lia.
  set (mrs := iter_pos shr_1 k (Build_shr_record (Zpos P) false false)).
  assert (Hmrs : shr_m mrs = m1).
  { unfold mrs. rewrite iter_shr_1_m by (cbn; lia). reflexivity. }
  set (m2 := round_nearest_even (shr_m mrs) (loc_of_shr_record mrs)).
  assert (Hm2 : m1 <= m2 <= m1 + 1).
  { unfold m2. rewrite <- Hmrs. apply round_nearest_even_bounds. }
  assert (Hex : Zpos P mod 2 ^ Zpos k = 0 -> m2 = m1).
  { intros Hmod. unfold m2, mrs.
    replace (Zpos P) with (2 ^ Zpos k * m1).
    - rewrite iter_shr_1_exact by lia. reflexivity.
    - unfold m1. pose proof (Z.div_mod (Zpos P) (2 ^ Zpos k)). lia. }
  assert (Hpos : 0 < m2) by lia.
  destruct m2 as [|m2p|m2p] eqn:E2; try lia.
  exists m2p. split; [exact Hm2|]. split; [exact Hex|]. split; [lia|].
  destruct (Z.ltb_spec (Zpos m2p) (2 ^ 53)) as [Hlt | Hge].
  - (* the rounded mantissa still has 53 bits *)
    assert (Hd2 : Zdigits2 (Zpos m2p) = 53).
    { apply Zdigits2_unique. change (53 - 1) with 52. lia. }
    rewrite shr_fexp_noshift by lia. cbn [shr_m].
    unfold prec, emax. reflexivity.
  - (* the rounding carried into bit 54 *)
    assert (E : Zpos m2p = 2 ^ 53) by lia.
    assert (m2p = 9007199254740992%positive) by (apply Pos2Z.inj; exact E).
    subst m2p.
    unfold shr_fexp. rewrite fexp_normal by (cbn [Zdigits2 digits2_pos]; lia).
    replace (Zdigits2 (Zpos 9007199254740992) + (e + Zpos k) - 53 - (e + Zpos k))
      with 1 by (cbn [Zdigits2 digits2_pos]; lia).
    cbn [shr shr_record_of_loc iter_pos shr_1 shr_m].
    unfold prec, emax. reflexivity.
Qed.

(** ** The product of a normal float and a literal in [1/2, 1) *)

Lemma digits_of_product (m M : positive) :
  2 ^ 52 <= Zpos m < 2 ^ 53 -> 2 ^ 52 <= Zpos M < 2 ^ 53 ->
  (2 ^ 104 <= Zpos (m * M) < 2 ^ 105 /\ Zdigits2 (Zpos (m * M)) = 53 + 52) \/
  (2 ^ 105 <= Zpos (m * M) < 2 ^ 106 /\ Zdigits2 (Zpos (m * M)) = 53 + 53).
Proof.
  intros Hm HM. rewrite Pos2Z.inj_mul.
  assert (H104 : 2 ^ 104 = 2 ^ 52 * 2 ^ 52) by reflexivity.
  assert (H106 : 2 ^ 106 = 2 ^ 53 * 2 ^ 53) by reflexivity.
  assert (Hl : 2 ^ 104 <= Zpos m * Zpos M) by (rewrite H104; nia).
  assert (Hu : Zpos m * Zpos M < 2 ^ 106) by (rewrite H106; nia).
  destruct (Z.ltb_spec (Zpos m * Zpos M) (2 ^ 105)) as [H | H]; [left | right];
    (split; [lia|]); rewrite <- Pos2Z.inj_mul; apply Zdigits2_unique;
    rewrite Pos2Z.inj_mul; split; try assumption.
Qed.

Lemma mul_cut (m M : positive) (ex : Z) :
  2 ^ 52 <= Zpos m < 2 ^ 53 -> 2 ^ 52 <= Zpos M < 2 ^ 53 ->
  -1021 <= ex <= 971 ->
  exists k M2 : positive,
    Zdigits2 (Zpos (m * M)) = 53 + Zpos k /\
    (Zpos k = 52 \/ Zpos k = 53) /\
    Zpos (m * M) / 2 ^ Zpos k <= Zpos M2 <= Zpos (m * M) / 2 ^ Zpos k + 1 /\
    (Zpos (m * M) mod 2 ^ Zpos k = 0 -> Zpos M2 = Zpos (m * M) / 2 ^ Zpos k) /\
    int_of_float (float_mul (S754_finite false m ex) (S754_finite false M (-53))) =
    Ok (Z.shiftl (Zpos M2) (ex - 53 + Zpos k)).
Proof.
  intros Hm HM Hex.
  unfold float_mul. cbn [SFmul xorb].
  destruct (digits_of_product m M Hm HM) as [[HP Hd] | [HP Hd]].
  - destruct (binary_round_aux_cut (m * M) (ex + -53) 52 Hd ltac:(lia))
      as (M2 & Hb & Hx & Hr & ->).
    exists 52%positive, M2. repeat (split; [auto|]).
    replace (ex + -53 + 52) with (ex - 53 + 52) by lia.
    destruct (Z.ltb_spec (Zpos M2) (2 ^ 53)) as [Hlt | Hge].
    + destruct (Z.leb_spec (ex - 53 + 52) 971); [reflexivity | lia].
    + destruct (Z.leb_spec (ex - 53 + 52 + 1) 971); [|lia].
      assert (E : Zpos M2 = 2 * 4503599627370496) by (change (2 * 4503599627370496) with (2 ^ 53); lia).
      cbn [int_of_float cond_Zopp]. f_equal. rewrite E.
      symmetry. apply shiftl_double.
  - destruct (binary_round_aux_cut (m * M) (ex + -53) 53 Hd ltac:(lia))
      as (M2 & Hb & Hx & Hr & ->).
    exists 53%positive, M2. repeat (split; [auto|]).
    replace (ex + -53 + 53) with (ex - 53 + 53) by lia.
    assert (Hlt : Zpos M2 < 2 ^ 53).
    { assert (Zpos (m * M) / 2 ^ 53 < 2 ^ 53 - 1); [|lia].
      apply Z.div_lt_upper_bound; [reflexivity|].
      rewrite Pos2Z.inj_mul.
      assert (Zpos m <= 2 ^ 53 - 1) by lia. assert (Zpos M <= 2 ^ 53 - 1) by lia.
      assert (Zpos m * Zpos M <= (2 ^ 53 - 1) * (2 ^ 53 - 1)) by nia.
      assert ((2 ^ 53 - 1) * (2 ^ 53 - 1) < 2 ^ 53 * (2 ^ 53 - 1)) by reflexivity.
      lia. }
    destruct (Z.ltb_spec (Zpos M2) (2 ^ 53)); [|lia].
    destruct (Z.leb_spec (ex - 53 + 53) 971); [reflexivity | lia].
Qed.


(** ** Conversion of a positive integer *)

Lemma iter_xO (p j : positive) : Zpos (Pos.iter xO p j) = Zpos p * 2 ^ Zpos j.
Proof.
  change (Pos.iter xO p j) with (shift_pos j p).
  rewrite shift_pos_correct. change (Zpower_pos 2 j) with (2 ^ Zpos j). lia.
Qed.


(** An integer of at most 53 bits is converted exactly, with its
    mantissa shifted up to 53 bits. *)
Lemma float_of_int_small (p : positive) :
  Zpos p < 2 ^ 53 ->
  exists (m : positive) (j : Z),
    0 <= j <= 52 /\
    Zpos m = Zpos p * 2 ^ j /\
    2 ^ 52 <= Zpos m < 2 ^ 53 /\
    float_of_int (Zpos p) = Ok (S754_finite false m (- j)).
Proof.
  intros Hp.
  pose proof (Zdigits2_bounds p) as [Bl Bu].
  pose proof (Zdigits2_pos p) as Hd0.
  set (d := Zdigits2 (Zpos p)) in *.
  assert (Hd : d <= 53).
  { destruct (Z.leb_spec d 53); [assumption|].
    assert (2 ^ 53 <= 2 ^ (d - 1)) by (apply Z.pow_le_mono_r; lia). lia. }
  unfold float_of_int, binary_normalize, binary_round.
  change (Zpos (digits2_pos p)) with d.
  replace (fexp prec emax (d + 0)) with (d - 53)
    by (unfold fexp, emin, prec, emax; lia).
  unfold shl_align.
  destruct (d - 53 - 0) as [|j|j] eqn:Ej; try lia.
  - (* exactly 53 bits *)
    exists p, 0. change (2 ^ 0) with 1. rewrite Z.mul_1_r.
    assert (d = 53) by lia.
    replace (d - 1) with 52 in Bl by lia. replace d with 53 in Bu by lia.
    repeat (split; [lia|]).
    rewrite binary_round_aux_fits by (fold d; lia). reflexivity.
  - (* fewer bits: the mantissa is shifted left *)
    pose proof (iter_xO p j) as Hm.
    pose proof (pow2_pos (Zpos j) ltac:(lia)) as Hj.
    assert (Hb : 2 ^ 52 <= Zpos (Pos.iter xO p j) < 2 ^ 53).
    { rewrite Hm. split.
      - replace 52 with (d - 1 + Zpos j) by lia.
        rewrite Z.pow_add_r by lia. nia.
      - replace 53 with (d + Zpos j) by lia.
        rewrite Z.pow_add_r by lia. nia. }
    exists (Pos.iter xO p j), (Zpos j).
    split; [lia|]. split; [exact Hm|]. split; [exact Hb|].
    replace (d - 53) with (- Zpos j) by lia.
    rewrite binary_round_aux_fits; [reflexivity | | lia].
    rewrite (Zdigits2_unique _ 53); [lia|]. exact Hb.
Qed.

(** A longer integer is rounded to 53 bits; the conversion overflows
    when the rounded value needs an exponent above 971. *)
Lemma float_of_int_big (p : positive) :
  2 ^ 53 <= Zpos p ->
  exists (k M : positive),
    Zdigits2 (Zpos p) = 53 + Zpos k /\
    Zpos p / 2 ^ Zpos k <= Zpos M <= Zpos p / 2 ^ Zpos k + 1 /\
    2 ^ 52 <= Zpos M <= 2 ^ 53 /\
    float_of_int (Zpos p) =
    if Zpos M <? 2 ^ 53
    then if Zpos k <=? 971
         then Ok (S754_finite false M (Zpos k))
         else OverflowError
    else if Zpos k + 1 <=? 971
         then Ok (S754_finite false 4503599627370496 (Zpos k + 1))
         else OverflowError.
Proof.
  intros Hp.
  pose proof (Zdigits2_bounds p) as [Bl Bu].
  set (d := Zdigits2 (Zpos p)) in *.
  assert (Hd : 53 < d).
  { destruct (Z.ltb_spec 53 d); [assumption|].
    assert (2 ^ d <= 2 ^ 53) by (apply Z.pow_le_mono_r; lia). lia. }
  destruct (d - 53) as [|k|k] eqn:Ek; try lia.
  assert (Hdk : Zdigits2 (Zpos p) = 53 + Zpos k) by (fold d; lia).
  destruct (binary_round_aux_cut p 0 k Hdk ltac:(lia)) as (M & Hb & _ & Hr & E).
  exists k, M. repeat (split; [assumption|]).
  unfold float_of_int, binary_normalize, binary_round.
  change (Zpos (digits2_pos p)) with d.
  replace (fexp prec emax (d + 0)) with (Zpos k)
    by (unfold fexp, emin, prec, emax; lia).
  rewrite !Z.add_0_l in E.
  unfold shl_align. rewrite Z.sub_0_r. rewrite E.
  destruct (Zpos M <? 2 ^ 53).
  - destruct (Zpos k <=? 971); reflexivity.
  - destruct (Zpos k + 1 <=? 971); reflexivity.
Qed.


(** ** [int(n * c)] for an integer of at most 53 bits *)

Lemma shiftl_neg (a s : Z) : 0 <= s -> Z.shiftl a (- s) = a / 2 ^ s.
Proof.
  intros H. rewrite <- Z.shiftr_div_pow2 by assumption.
  unfold Z.shiftr. reflexivity.
Qed.

Lemma div_succ_le (q d : Z) : 0 < d -> (q + 1) / d <= q / d + 1.
Proof.
  intros H. replace (q / d + 1) with ((q + 1 * d) / d) by (rewrite Z.div_add; lia).
  apply Z.div_le_mono; lia.
Qed.

Lemma int_mul_lit_small (n : Z) (M : positive) :
  0 < n < 2 ^ 53 -> 2 ^ 52 <= Zpos M < 2 ^ 53 ->
  exists a,
    int_mul_lit n (S754_finite false M (-53)) = Ok a /\
    n * Zpos M / 2 ^ 53 <= a <= n * Zpos M / 2 ^ 53 + 1 /\
    ((n * Zpos M) mod 2 ^ 53 = 0 -> a = n * Zpos M / 2 ^ 53) /\
    (Zpos M = 2 ^ 52 -> a = n / 2).
Proof.
  intros [Hn0 Hn] HM. destruct n as [|p|p]; try lia.
  destruct (float_of_int_small p Hn) as (m & j & Hj & Em & Hm & Ef).
  destruct (mul_cut m M (- j) Hm HM ltac:(lia))
    as (k & M2 & Hd & Hk & Hb & Hx & Ei).
  unfold int_mul_lit. rewrite Ef. cbn [rbind]. rewrite Ei.
  set (s := j + 53 - Zpos k).
  assert (Hs : 0 <= s) by (unfold s; lia).
  replace (- j - 53 + Zpos k) with (- s) by (unfold s; lia).
  rewrite shiftl_neg by assumption.
  pose proof (pow2_pos s Hs) as Hps.
  pose proof (pow2_pos (Zpos k) ltac:(lia)) as Hpk.
  pose proof (pow2_pos j ltac:(lia)) as Hpj.
  assert (Epow : 2 ^ Zpos k * 2 ^ s = 2 ^ j * 2 ^ 53).
  { rewrite <- !Z.pow_add_r by lia. f_equal. unfold s. lia. }
  assert (EP : Zpos (m * M) = Zpos p * Zpos M * 2 ^ j)
    by (rewrite Pos2Z.inj_mul, Em; ring).
  assert (Efl : Zpos (m * M) / 2 ^ Zpos k / 2 ^ s = Zpos p * Zpos M / 2 ^ 53).
  { rewrite Z.div_div by lia. rewrite Epow, EP.
    rewrite (Z.mul_comm (2 ^ j)). rewrite Z.div_mul_cancel_r by lia. reflexivity. }
  exists (Zpos M2 / 2 ^ s). split; [reflexivity|]. split; [|split].
  - rewrite <- Efl. split.
    + apply Z.div_le_mono; lia.
    + etransitivity; [apply Z.div_le_mono; [lia | apply Hb] |].
      apply div_succ_le. lia.
  - intros Hmod. rewrite Hx; [exact Efl|].
    apply Z.mod_divide in Hmod; [|lia]. destruct Hmod as [t Et].
    apply Z.mod_divide; [lia|].
    exists (t * 2 ^ (53 - Zpos k) * 2 ^ j).
    rewrite EP, Et.
    replace (2 ^ 53) with (2 ^ (53 - Zpos k) * 2 ^ Zpos k)
      by (rewrite <- Z.pow_add_r by lia; f_equal; lia).
    ring.
  - intros EM.
    assert (Ek : Zpos k = 52).
    { assert (Zdigits2 (Zpos (m * M)) = 53 + 52); [|lia].
      apply Zdigits2_unique. rewrite Pos2Z.inj_mul, EM.
      change (53 + 52 - 1) with (52 + 52). change (53 + 52) with (53 + 52).
      rewrite !Z.pow_add_r by lia. nia. }
    rewrite Hx.
    + rewrite Efl, EM. change (2 ^ 53) with (2 * 2 ^ 52).
      rewrite Z.div_mul_cancel_r by lia. reflexivity.
    + rewrite Ek, Pos2Z.inj_mul, EM. apply Z.mod_mul. lia.
Qed.


(** The same product from above, as a relative bound: rounding to 53
    bits adds at most two units in the last place of the literal. *)
Lemma int_mul_lit_small_upper (n : Z) (M : positive) :
  0 < n < 2 ^ 53 -> 2 ^ 52 <= Zpos M < 2 ^ 53 ->
  exists a,
    int_mul_lit n (S754_finite false M (-53)) = Ok a /\
    a * 2 ^ 53 <= n * (Zpos M + 2).
Proof.
  intros [Hn0 Hn] HM. destruct n as [|p|p]; try lia.
  destruct (float_of_int_small p Hn) as (m & j & Hj & Em & Hm & Ef).
  destruct (mul_cut m M (- j) Hm HM ltac:(lia))
    as (k & M2 & Hd & Hk & Hb & Hx & Ei).
  unfold int_mul_lit. rewrite Ef. cbn [rbind]. rewrite Ei.
  set (s := j + 53 - Zpos k).
  assert (Hs : 0 <= s) by (unfold s; lia).
  replace (- j - 53 + Zpos k) with (- s) by (unfold s; lia).
  rewrite shiftl_neg by assumption.
  pose proof (pow2_pos s Hs) as Hps.
  pose proof (pow2_pos (Zpos k) ltac:(lia)) as Hpk.
  pose proof (pow2_pos j ltac:(lia)) as Hpj.
  assert (Epow : 2 ^ Zpos k * 2 ^ s = 2 ^ j * 2 ^ 53).
  { rewrite <- !Z.pow_add_r by lia. f_equal. unfold s. lia. }
  assert (EP : Zpos (m * M) = Zpos p * Zpos M * 2 ^ j)
    by (rewrite Pos2Z.inj_mul, Em; ring).
  assert (Hk53 : 2 ^ Zpos k <= 2 ^ 53)
    by (apply Z.pow_le_mono_r; lia).
  exists (Zpos M2 / 2 ^ s). split; [reflexivity|].
  set (a := Zpos M2 / 2 ^ s).
  assert (Ha : a * 2 ^ s <= Zpos M2)
    by (unfold a; rewrite Z.mul_comm; apply Z.mul_div_le; lia).
  assert (Hq : Zpos (m * M) / 2 ^ Zpos k * 2 ^ Zpos k <= Zpos (m * M))
    by (rewrite Z.mul_comm; apply Z.mul_div_le; lia).
  assert (H1 : a * 2 ^ s * 2 ^ Zpos k <= Zpos (m * M) + 2 ^ Zpos k) by nia.
  assert (H2 : a * 2 ^ s * 2 ^ Zpos k = 2 ^ j * (a * 2 ^ 53)).
  { rewrite <- Z.mul_assoc, (Z.mul_comm (2 ^ s)), Epow. ring. }
  assert (H3 : 2 ^ 53 <= 2 * (Zpos p * 2 ^ j))
    by (change (2 ^ 53) with (2 * 2 ^ 52); lia).
  assert (H4 : 2 ^ j * (a * 2 ^ 53) <= 2 ^ j * (Zpos p * (Zpos M + 2))).
  { rewrite <- H2. etransitivity; [exact H1|]. rewrite EP. nia. }
  apply Z.mul_le_mono_pos_l in H4; [exact H4 | exact Hpj].
Qed.


(** ** [int(n * c)] for a longer integer *)

Lemma mul_big_bounds (m M : positive) (ex : Z) :
  2 ^ 52 <= Zpos m < 2 ^ 53 -> 2 ^ 52 <= Zpos M < 2 ^ 53 ->
  1 <= ex <= 971 ->
  exists a,
    int_of_float (float_mul (S754_finite false m ex) (S754_finite false M (-53))) =
    Ok a /\
    Zpos M * (Zpos m * 2 ^ ex) - 2 ^ 53 * 2 ^ ex <= a * 2 ^ 53
      <= Zpos M * (Zpos m * 2 ^ ex) + 2 ^ 53 * 2 ^ ex.
Proof.
  intros Hm HM Hex.
  destruct (mul_cut m M ex Hm HM ltac:(lia)) as (k & M2 & _ & Hk & Hb & _ & Ei).
  rewrite Ei. rewrite Z.shiftl_mul_pow2 by lia.
  exists (Zpos M2 * 2 ^ (ex - 53 + Zpos k)). split; [reflexivity|].
  pose proof (pow2_pos ex ltac:(lia)) as HE.
  pose proof (pow2_pos (Zpos k) ltac:(lia)) as HK.
  assert (Epow : 2 ^ (ex - 53 + Zpos k) * 2 ^ 53 = 2 ^ Zpos k * 2 ^ ex).
  { rewrite <- !Z.pow_add_r by lia. f_equal. lia. }
  rewrite <- Z.mul_assoc, Epow.
  assert (Hk53 : 2 ^ Zpos k <= 2 ^ 53) by (apply Z.pow_le_mono_r; lia).
  set (P := Zpos (m * M)) in *.
  assert (EP : P = Zpos M * Zpos m) by (unfold P; rewrite Pos2Z.inj_mul; ring).
  pose proof (Z.div_mod P (2 ^ Zpos k) ltac:(lia)) as Hdm.
  pose proof (Z.mod_pos_bound P (2 ^ Zpos k) HK) as Hmb.
  set (Q := P / 2 ^ Zpos k) in *.
  assert (Hlo : P - 2 ^ 53 <= Zpos M2 * 2 ^ Zpos k) by nia.
  assert (Hhi : Zpos M2 * 2 ^ Zpos k <= P + 2 ^ 53) by nia.
  replace (Zpos M * (Zpos m * 2 ^ ex)) with (P * 2 ^ ex) by (rewrite EP; ring).
  replace (Zpos M2 * (2 ^ Zpos k * 2 ^ ex)) with (Zpos M2 * 2 ^ Zpos k * 2 ^ ex) by ring.
  split.
  - replace (P * 2 ^ ex - 2 ^ 53 * 2 ^ ex) with ((P - 2 ^ 53) * 2 ^ ex) by ring.
    apply Z.mul_le_mono_nonneg_r; lia.
  - replace (P * 2 ^ ex + 2 ^ 53 * 2 ^ ex) with ((P + 2 ^ 53) * 2 ^ ex) by ring.
    apply Z.mul_le_mono_nonneg_r; lia.
Qed.

Lemma int_mul_lit_big (n : Z) (M : positive) :
  2 ^ 53 <= n -> 2 ^ 52 <= Zpos M < 2 ^ 53 ->
  let K := 2 ^ (Zdigits2 n - 53) in
  0 < K /\ 2 ^ 52 * K <= n /\
  match int_mul_lit n (S754_finite false M (-53)) with
  | Ok a =>
      Zpos M * n - 3 * 2 ^ 53 * K <= a * 2 ^ 53 <= Zpos M * n + 3 * 2 ^ 53 * K
  | OverflowError => 2 ^ 1023 <= n
  end.
Proof.
  intros Hn HM. destruct n as [|p|p]; try lia. cbv zeta.
  destruct (float_of_int_big p Hn) as (k1 & M1 & Hd & Hb & Hr & Ef).
  rewrite Hd. replace (53 + Zpos k1 - 53) with (Zpos k1) by lia.
  pose proof (pow2_pos (Zpos k1) ltac:(lia)) as HK.
  set (K := 2 ^ Zpos k1) in *.
  assert (HnK : 2 ^ 52 * K <= Zpos p).
  { pose proof (Zdigits2_bounds p) as [Bl _]. rewrite Hd in Bl.
    replace (53 + Zpos k1 - 1) with (52 + Zpos k1) in Bl by lia.
    rewrite Z.pow_add_r in Bl by lia. exact Bl. }
  split; [exact HK|]. split; [exact HnK|].
  pose proof (Z.div_mod (Zpos p) K ltac:(lia)) as Hdm.
  pose proof (Z.mod_pos_bound (Zpos p) K HK) as Hmb.
  set (Q := Zpos p / K) in *.
  assert (HRlo : Zpos p - K <= Zpos M1 * K) by nia.
  assert (HRhi : Zpos M1 * K <= Zpos p + K) by nia.
  assert (Hbig : forall x, 971 <= x -> 2 ^ 971 <= 2 ^ x)
    by (intros; apply Z.pow_le_mono_r; lia).
  unfold int_mul_lit. rewrite Ef.
  destruct (Z.ltb_spec (Zpos M1) (2 ^ 53)) as [Hlt | Hge].
  - destruct (Z.leb_spec (Zpos k1) 971) as [Hk | Hk].
    + cbn [rbind].
      destruct (mul_big_bounds M1 M (Zpos k1) ltac:(lia) HM ltac:(lia))
        as (a & -> & Hlo & Hhi).
      fold K in Hlo, Hhi.
      assert (Zpos M * (Zpos M1 * K) <= Zpos M * (Zpos p + K))
        by (apply Z.mul_le_mono_nonneg_l; lia).
      assert (Zpos M * (Zpos p - K) <= Zpos M * (Zpos M1 * K))
        by (apply Z.mul_le_mono_nonneg_l; lia).
      nia.
    + cbn [rbind]. pose proof (Hbig (Zpos k1) ltac:(lia)).
      change (2 ^ 1023) with (2 ^ 52 * 2 ^ 971). unfold K in HnK. nia.
  - destruct (Z.leb_spec (Zpos k1 + 1) 971) as [Hk | Hk].
    + cbn [rbind].
      destruct (mul_big_bounds 4503599627370496 M (Zpos k1 + 1)
                  ltac:(split; [apply Z.le_refl | reflexivity]) HM ltac:(lia))
        as (a & -> & Hlo & Hhi).
      rewrite Z.pow_add_r in Hlo, Hhi by lia. fold K in Hlo, Hhi.
      change (2 ^ 1) with 2 in Hlo, Hhi.
      assert (E1 : Zpos M1 = 2 ^ 53) by lia.
      replace (4503599627370496 * (K * 2)) with (Zpos M1 * K) in Hlo, Hhi
        by (rewrite E1; change (2 ^ 53) with (4503599627370496 * 2); ring).
      assert (Zpos M * (Zpos M1 * K) <= Zpos M * (Zpos p + K))
        by (apply Z.mul_le_mono_nonneg_l; lia).
      assert (Zpos M * (Zpos p - K) <= Zpos M * (Zpos M1 * K))
        by (apply Z.mul_le_mono_nonneg_l; lia).
      nia.
    + cbn [rbind]. pose proof (Hbig (Zpos k1) ltac:(lia)).
      change (2 ^ 1023) with (2 ^ 52 * 2 ^ 971). unfold K in HnK. nia.
Qed.

End Binary64.

(* ================================================================== *)
(** * Properties of the configuration derived from the hardware *)
(* ================================================================== *)

Section ConfigClaims.
Import PyFloat Config.

Lemma lit_0_65_nearest : nearest_to 65 100 lit_0_65.
Proof. cbn. lia. Qed.
Lemma lit_0_75_nearest : nearest_to 75 100 lit_0_75.
Proof. cbn. lia. Qed.
Lemma lit_0_85_nearest : nearest_to 85 100 lit_0_85.
Proof. cbn. lia. Qed.
Lemma lit_0_95_nearest : nearest_to 95 100 lit_0_95.
Proof. cbn. lia. Qed.
Lemma lit_0_7_nearest : nearest_to 7 10 lit_0_7.
Proof. cbn. lia. Qed.
Lemma lit_0_5_nearest : nearest_to 5 10 lit_0_5.
Proof. cbn. lia. Qed.

(** The literals are also what a correctly rounded division of the two
    integers gives. *)
Lemma literals_by_division :
  SFdiv prec emax (S754_finite false 65 0) (S754_finite false 100 0) = lit_0_65 /\
  SFdiv prec emax (S754_finite false 75 0) (S754_finite false 100 0) = lit_0_75 /\
  SFdiv prec emax (S754_finite false 85 0) (S754_finite false 100 0) = lit_0_85 /\
  SFdiv prec emax (S754_finite false 95 0) (S754_finite false 100 0) = lit_0_95 /\
  SFdiv prec emax (S754_finite false 7 0) (S754_finite false 10 0) = lit_0_7 /\
  SFdiv prec emax (S754_finite false 5 0) (S754_finite false 10 0) = lit_0_5.
Proof. repeat split; vm_compute; reflexivity. Qed.


Ltac literal_bounds := split; [apply Z.leb_le | apply Z.ltb_lt]; reflexivity.

(** [int(r * 0.7)] and [int(r * 0.5)] for a range [r >= 0]. *)
Lemma range_products (r : Z) :
  0 <= r ->
  match int_mul_lit r lit_0_7, int_mul_lit r lit_0_5 with
  | Ok b, Ok p => 0 <= p <= b /\ b <= r /\ (r < 2 ^ 53 -> p = r / 2)
  | _, _ => 2 ^ 1023 <= r
  end.
Proof.
  intros Hr.
  destruct (Z.eq_dec r 0) as [-> | Hr0].
  { vm_compute. repeat split; intros; discriminate. }
  destruct (Z.ltb_spec r (2 ^ 53)) as [Hs | Hb].
  - destruct (int_mul_lit_small r 6305039478318694 ltac:(lia) ltac:(literal_bounds))
      as (b & Eb & Hb & _).
    destruct (int_mul_lit_small r 4503599627370496 ltac:(lia) ltac:(literal_bounds))
      as (p & Ep & _ & _ & Hp).
    unfold lit_0_7, lit_0_5. rewrite Eb, Ep.
    specialize (Hp eq_refl). subst p.
    change (2 ^ 53) with 9007199254740992 in *.
    repeat split; try lia.
    + apply Z.div_pos; lia.
    + pose proof (Z.div_mod r 2 ltac:(lia)). pose proof (Z.mod_pos_bound r 2 ltac:(lia)).
      pose proof (Z.div_mod (r * 6305039478318694) 9007199254740992 ltac:(lia)).
      pose proof (Z.mod_pos_bound (r * 6305039478318694) 9007199254740992 ltac:(lia)).
      lia.
    + pose proof (Z.div_mod (r * 6305039478318694) 9007199254740992 ltac:(lia)).
      pose proof (Z.mod_pos_bound (r * 6305039478318694) 9007199254740992 ltac:(lia)).
      lia.
  - destruct (int_mul_lit_big r 6305039478318694 Hb ltac:(literal_bounds))
      as (HK & HnK & H7).
    destruct (int_mul_lit_big r 4503599627370496 Hb ltac:(literal_bounds))
      as (_ & _ & H5).
    unfold lit_0_7, lit_0_5.
    set (K := 2 ^ (Zdigits2 r - 53)) in *.
    change (2 ^ 53) with 9007199254740992 in *.
    change (2 ^ 52) with 4503599627370496 in *.
    destruct (int_mul_lit r (S754_finite false 6305039478318694 (-53))) as [b|];
      [|exact H7].
    destruct (int_mul_lit r (S754_finite false 4503599627370496 (-53))) as [p|];
      [|exact H5].
    repeat split; lia.
Qed.

(** [int(r * 0.7)] against the exact seven tenths: for a range below
    2^49 the float product is truncated to [7r // 10] or to one less,
    and to [7r // 10] itself when [r] is not a multiple of 10. *)
Lemma balanced_offset_bounds (r : Z) :
  0 <= r < 2 ^ 49 ->
  exists b,
    int_mul_lit r lit_0_7 = Ok b /\
    7 * r / 10 - 1 <= b <= 7 * r / 10 /\
    (r mod 10 <> 0 -> b = 7 * r / 10).
Proof.
  intros [Hr0 Hr].
  destruct (Z.eq_dec r 0) as [-> | Hne].
  { exists 0. split; [reflexivity|]. split; [cbn; lia|].
    intros Hm. exfalso. apply Hm. reflexivity. }
  change (2 ^ 49) with 562949953421312 in Hr.
  assert (Hr53 : 0 < r < 2 ^ 53)
    by (change (2 ^ 53) with 9007199254740992; lia).
  destruct (int_mul_lit_small r 6305039478318694 Hr53 ltac:(literal_bounds))
    as (b & Eb & Hb & _).
  destruct (int_mul_lit_small_upper r 6305039478318694 Hr53 ltac:(literal_bounds))
    as (b' & Eb' & Hup).
  rewrite Eb in Eb'. injection Eb' as <-.
  fold lit_0_7 in Eb. exists b. split; [exact Eb|].
  change (2 ^ 53) with 9007199254740992 in *.
  change (6305039478318694 + 2) with 6305039478318696 in Hup.
  pose proof (Z.div_mod (r * 6305039478318694) 9007199254740992 ltac:(lia)) as D1.
  pose proof (Z.mod_pos_bound (r * 6305039478318694) 9007199254740992 ltac:(lia)) as B1.
  pose proof (Z.div_mod (7 * r) 10 ltac:(lia)) as D2.
  pose proof (Z.mod_pos_bound (7 * r) 10 ltac:(lia)) as B2.
  pose proof (Z.div_mod r 10 ltac:(lia)) as D3.
  pose proof (Z.mod_pos_bound r 10 ltac:(lia)) as B3.
  split; [lia|]. intros Hmod. lia.
Qed.

(** C9 (as amended). For every range with [min <= max] the profile
    computed by [set_frequency_config] has performance = max exactly,
    emergency = min, and performance >= balanced >= powersave >=
    emergency >= min, where balanced is min + int(range * 0.7) and
    powersave is min + int(range * 0.5), the products being Python
    float products. For a range below 2^53 MHz powersave is
    min + range // 2, the truncated half. Balanced is not always the
    truncated seven tenths: for a range below 2^49 MHz it is
    min + (7 * range) // 10 or one less, and exactly
    min + (7 * range) // 10 when the range is not a multiple of 10. The
    call raises OverflowError instead of computing a profile only for
    ranges of at least 2^1023. *)
Theorem frequency_profile_ordered (min_freq max_freq : Z) (cfg : PowerConfig) :
  min_freq <= max_freq ->
  match set_frequency_config min_freq max_freq cfg with
  | Ok cfg' =>
      exists f,
        frequency cfg' = Some f /\
        performance_freq f = max_freq /\
        performance_freq f >= balanced_freq f /\
        balanced_freq f >= powersave_freq f /\
        powersave_freq f >= emergency_freq f /\
        emergency_freq f >= min_freq /\
        emergency_freq f = min_freq /\
        int_mul_lit (max_freq - min_freq) lit_0_7 = Ok (balanced_freq f - min_freq) /\
        int_mul_lit (max_freq - min_freq) lit_0_5 = Ok (powersave_freq f - min_freq) /\
        (max_freq - min_freq < 2 ^ 53 ->
         powersave_freq f = min_freq + (max_freq - min_freq) / 2) /\
        (max_freq - min_freq < 2 ^ 49 ->
         min_freq + 7 * (max_freq - min_freq) / 10 - 1 <= balanced_freq f
           <= min_freq + 7 * (max_freq - min_freq) / 10 /\
         ((max_freq - min_freq) mod 10 <> 0 ->
          balanced_freq f = min_freq + 7 * (max_freq - min_freq) / 10))
  | OverflowError => 2 ^ 1023 <= max_freq - min_freq
  end.
Proof.
  intros H. unfold set_frequency_config, frequency_profile.
  pose proof (range_products (max_freq - min_freq) ltac:(lia)) as HP.
  pose proof (balanced_offset_bounds (max_freq - min_freq)) as HB.
  destruct (int_mul_lit (max_freq - min_freq) lit_0_7) as [b|]; [|exact HP].
  destruct (int_mul_lit (max_freq - min_freq) lit_0_5) as [p|]; [|exact HP].
  cbn [rbind]. eexists. split; [reflexivity|].
  cbn [performance_freq balanced_freq powersave_freq emergency_freq].
  destruct HP as (Hp & Hb & Hx).
  assert (HB' : max_freq - min_freq < 2 ^ 49 ->
                7 * (max_freq - min_freq) / 10 - 1 <= b
                  <= 7 * (max_freq - min_freq) / 10 /\
                ((max_freq - min_freq) mod 10 <> 0 ->
                 b = 7 * (max_freq - min_freq) / 10)).
  { intros Hlt. destruct (HB ltac:(lia)) as (b' & Eb & H1 & H2).
    injection Eb as <-. split; assumption. }
  do 9 (split; [try reflexivity; try lia; f_equal; lia|]).
  intros Hlt. destruct (HB' Hlt) as (H1 & H2). split; [lia|].
  intros Hm. rewrite (H2 Hm). reflexivity.
Qed.


Ltac div_facts a d :=
  pose proof (Z.div_mod a d ltac:(lia));
  pose proof (Z.mod_pos_bound a d ltac:(lia)).

(** The four products of [set_thermal_config] for [m >= 9]. *)
Lemma threshold_products (m : Z) :
  9 <= m ->
  match int_mul_lit m lit_0_65, int_mul_lit m lit_0_75,
        int_mul_lit m lit_0_85, int_mul_lit m lit_0_95 with
  | Ok c, Ok w, Ok k, Ok e => c < w /\ w < k /\ k < e
  | _, _, _, _ => 2 ^ 1023 <= m
  end.
Proof.
  intros Hm.
  destruct (Z.ltb_spec m 21) as [Hsmall | Hmid].
  { assert (Hcases : m = 9 \/ m = 10 \/ m = 11 \/ m = 12 \/ m = 13 \/ m = 14 \/
                     m = 15 \/ m = 16 \/ m = 17 \/ m = 18 \/ m = 19 \/ m = 20) by lia.
    repeat (destruct Hcases as [-> | Hcases]); try subst m;
      vm_compute; repeat split. }
  destruct (Z.ltb_spec m (2 ^ 53)) as [Hs | Hb].
  - destruct (int_mul_lit_small m 5854679515581645 ltac:(lia) ltac:(literal_bounds))
      as (c & Ec & Hc & _).
    destruct (int_mul_lit_small m 6755399441055744 ltac:(lia) ltac:(literal_bounds))
      as (w & Ew & Hw & _).
    destruct (int_mul_lit_small m 7656119366529843 ltac:(lia) ltac:(literal_bounds))
      as (k & Ek & Hk & _).
    destruct (int_mul_lit_small m 8556839292003942 ltac:(lia) ltac:(literal_bounds))
      as (e & Ee & He & _).
    unfold lit_0_65, lit_0_75, lit_0_85, lit_0_95. rewrite Ec, Ew, Ek, Ee.
    change (2 ^ 53) with 9007199254740992 in *.
    div_facts (m * 5854679515581645) 9007199254740992.
    div_facts (m * 6755399441055744) 9007199254740992.
    div_facts (m * 7656119366529843) 9007199254740992.
    div_facts (m * 8556839292003942) 9007199254740992.
    repeat split; lia.
  - destruct (int_mul_lit_big m 5854679515581645 Hb ltac:(literal_bounds))
      as (HK & HnK & Hc).
    destruct (int_mul_lit_big m 6755399441055744 Hb ltac:(literal_bounds))
      as (_ & _ & Hw).
    destruct (int_mul_lit_big m 7656119366529843 Hb ltac:(literal_bounds))
      as (_ & _ & Hk).
    destruct (int_mul_lit_big m 8556839292003942 Hb ltac:(literal_bounds))
      as (_ & _ & He).
    unfold lit_0_65, lit_0_75, lit_0_85, lit_0_95.
    set (K := 2 ^ (Zdigits2 m - 53)) in *.
    change (2 ^ 53) with 9007199254740992 in *.
    change (2 ^ 52) with 4503599627370496 in *.
    destruct (int_mul_lit m (S754_finite false 5854679515581645 (-53))) as [c|];
      [|exact Hc].
    destruct (int_mul_lit m (S754_finite false 6755399441055744 (-53))) as [w|];
      [|exact Hw].
    destruct (int_mul_lit m (S754_finite false 7656119366529843 (-53))) as [k|];
      [|exact Hk].
    destruct (int_mul_lit m (S754_finite false 8556839292003942 (-53))) as [e|];
      [|exact He].
    repeat split; lia.
Qed.

(** Beyond the detector's table: for every maximum safe temperature
    [m >= 9], [set_thermal_config] writes the four thresholds
    int(m * 0.65), int(m * 0.75), int(m * 0.85) and int(m * 0.95)
    (Python float products, truncated), and they are strictly
    increasing. The call raises OverflowError, writing nothing, only
    for [m] of at least 2^1023. *)
Lemma thresholds_increasing_from_9 (m : Z) (cfg : PowerConfig) :
  9 <= m ->
  match set_thermal_config m cfg with
  | Ok cfg' =>
      strictly_increasing (thermal cfg') /\
      int_mul_lit m lit_0_65 = Ok (comfort_temp (thermal cfg')) /\
      int_mul_lit m lit_0_75 = Ok (warning_temp (thermal cfg')) /\
      int_mul_lit m lit_0_85 = Ok (critical_temp (thermal cfg')) /\
      int_mul_lit m lit_0_95 = Ok (emergency_temp (thermal cfg'))
  | OverflowError => 2 ^ 1023 <= m
  end.
Proof.
  intros Hm. unfold set_thermal_config, thermal_thresholds.
  pose proof (threshold_products m Hm) as HP.
  destruct (int_mul_lit m lit_0_65) as [c|]; [|exact HP].
  destruct (int_mul_lit m lit_0_75) as [w|]; [|exact HP].
  destruct (int_mul_lit m lit_0_85) as [k|]; [|exact HP].
  destruct (int_mul_lit m lit_0_95) as [e|]; [|exact HP].
  cbn [rbind thermal]. unfold strictly_increasing.
  cbn [comfort_temp warning_temp critical_temp emergency_temp].
  repeat split; apply HP.
Qed.

(** Every value in the detector's thermal table gives increasing
    thresholds. *)
Lemma detected_thresholds_increasing v g cfg :
  exists cfg',
    set_thermal_config (Detector._get_thermal_max_safe v g) cfg = Ok cfg' /\
    strictly_increasing (thermal cfg').
Proof.
  destruct v, g; eexists; (split; [vm_compute; reflexivity|]);
    unfold strictly_increasing; cbn; repeat split.
Qed.

(** C8. For every thermal-max-safe value the detector reports, whatever
    the platform (the value is 70, 75, 85, 95 or 100, hence positive),
    [set_thermal_config] writes the four thresholds as the truncated
    65%, 75%, 85% and 95% of it, [65 * m // 100] and so on, the float
    products giving exactly these integers, and the thresholds written
    are strictly increasing: comfort < warning < critical < emergency.
    The call does not raise and leaves the frequency part as it was. *)
Theorem detected_thermal_thresholds (p : Detector.Platform) (cfg : PowerConfig) :
  let m := Detector.thermal_max_safe (Detector._detect_cpu p) in
  In m [70; 75; 85; 95; 100] /\
  exists cfg',
    set_thermal_config m cfg = Ok cfg' /\
    comfort_temp (thermal cfg') = 65 * m / 100 /\
    warning_temp (thermal cfg') = 75 * m / 100 /\
    critical_temp (thermal cfg') = 85 * m / 100 /\
    emergency_temp (thermal cfg') = 95 * m / 100 /\
    strictly_increasing (thermal cfg') /\
    frequency cfg' = frequency cfg.
Proof.
  cbv zeta. unfold Detector._detect_cpu.
  destruct (Detector._detect_frequency_range p) as [min_freq max_freq].
  cbn [Detector.thermal_max_safe].
  destruct (Detector.id_vendor p), (Detector.id_generation p);
    cbn [Detector._get_thermal_max_safe];
    (split; [cbn; auto 6|]);
    eexists; (split; [vm_compute; reflexivity|]);
    unfold strictly_increasing; cbn; repeat split.
Qed.

End ConfigClaims.

Section ConfigExamples.
Import PyFloat Config.

Lemma frequency_profile_ordered_witness :
  set_frequency_config 1200 3000 PowerConfig_init =
  Ok {| thermal := ThermalConfig_default;
        frequency := Some {| min_freq_mhz := 1200; max_freq_mhz := 3000;
                             performance_freq := 3000; balanced_freq := 2460;
                             powersave_freq := 2100; emergency_freq := 1200 |} |} /\
  3000 >= 2460 /\ 2460 >= 2100 /\ 2100 >= 1200.
Proof.
  pose proof (frequency_profile_ordered 1200 3000 PowerConfig_init
                ltac:(discriminate)) as T.
  split; [reflexivity|].
  destruct T as (f & Ef & _ & T1 & T2 & T3 & _).
  injection Ef as <-. exact (conj T1 (conj T2 T3)).
Defined.

(** The float product falls below the exact one: at a range of 90 MHz
    [90 * 0.7] is 62.99999999999999 and the balanced frequency is
    min + 62, not min + 63. *)
Lemma balanced_at_range_90 :
  int_mul_lit 90 lit_0_7 = Ok 62 /\ 7 * 90 / 10 = 63.
Proof. split; reflexivity. Qed.

(** C9, as stated, fails: for the range 800..3500 the seven tenths of
    the range are 1890 and the claim gives a balanced frequency of
    2690; the float product [2700 * 0.7] is 1889.9999999999998, and
    [set_frequency_config] stores 800 + 1889 = 2689. *)
Lemma balanced_below_truncated_seven_tenths :
  800 <= 3500 /\
  set_frequency_config 800 3500 PowerConfig_init =
  Ok {| thermal := ThermalConfig_default;
        frequency := Some {| min_freq_mhz := 800; max_freq_mhz := 3500;
                             performance_freq := 3500; balanced_freq := 2689;
                             powersave_freq := 2150; emergency_freq := 800 |} |} /\
  ~ (exists cfg' f,
       set_frequency_config 800 3500 PowerConfig_init = Ok cfg' /\
       frequency cfg' = Some f /\
       balanced_freq f = 800 + 7 * (3500 - 800) / 10).
Proof.
  split; [discriminate|]. split; [reflexivity|].
  intros (cfg' & f & E & Ef & Hb). vm_compute in E. injection E as <-.
  cbn in Ef. injection Ef as <-. cbn in Hb. discriminate Hb.
Qed.

Lemma thresholds_increasing_from_9_at_100 :
  set_thermal_config 100 PowerConfig_init =
  Ok {| thermal := {| comfort_temp := 65; warning_temp := 75;
                      critical_temp := 85; emergency_temp := 95 |};
        frequency := None |} /\
  65 < 75 /\ 75 < 85 /\ 85 < 95.
Proof.
  pose proof (thresholds_increasing_from_9 100 PowerConfig_init
                ltac:(discriminate)) as T.
  split; [reflexivity|]. exact (proj1 T).
Defined.

(** Outside the detector's table nothing validates the result: for
    [m = 1], a value no detection gives, the four thresholds are all 0
    and [set_thermal_config] leaves them in place. *)
Lemma thresholds_collapse_at_1 :
  0 < 1 /\
  set_thermal_config 1 PowerConfig_init =
  Ok {| thermal := {| comfort_temp := 0; warning_temp := 0;
                      critical_temp := 0; emergency_temp := 0 |};
        frequency := None |} /\
  ~ (exists cfg', set_thermal_config 1 PowerConfig_init = Ok cfg' /\
                  strictly_increasing (thermal cfg')).
Proof.
  split; [reflexivity|]. split; [reflexivity|].
  intros (cfg' & E & H & _). vm_compute in E. injection E as <-.
  cbn in H. lia.
Qed.

(** No [m] from 1 to 8 gives strictly increasing thresholds. *)
Lemma thresholds_not_increasing_below_9 (m : Z) :
  0 < m < 9 ->
  exists t, thermal_thresholds m = Ok t /\ ~ strictly_increasing t.
Proof.
  intros H.
  assert (Hcases : m = 1 \/ m = 2 \/ m = 3 \/ m = 4 \/ m = 5 \/ m = 6 \/
                   m = 7 \/ m = 8) by lia.
  repeat (destruct Hcases as [-> | Hcases]); try subst m;
    eexists; (split; [vm_compute; reflexivity|]);
    unfold strictly_increasing; cbn; lia.
Qed.

End ConfigExamples.

(* ================================================================== *)
(** * Further properties of the thermal control loop *)
(* ================================================================== *)

Section ThermalMore.
Import SmartThermal ThermalCommands.
Variable os : OS.

(** The manager after one tick, branch by branch. *)
Lemma tick_state (s : Manager) (temp : Z) :
  state_of (adaptive_thermal_response os temp s) =
  if temp <? comfort_temp s then
    if PowerMode_eqb (current_mode s) EMERGENCY
    then with_count (Z.max 0 (escalation_count s - 1)) (after_profile os BALANCED s)
    else s
  else if temp <? warning_temp s then
    if PowerMode_eqb (current_mode s) PERFORMANCE
    then after_profile os BALANCED s
    else s
  else if temp <? critical_temp s then
    if escalation_count s + 1 <=? 3
    then after_profile os POWER_SAVE (with_count (escalation_count s + 1) s)
    else after_profile os EMERGENCY (with_count (escalation_count s + 1) s)
  else if emergency_temp s <=? temp then
    with_count 10 (after_profile os EMERGENCY s)
  else after_profile os EMERGENCY s.
Proof.
  destruct (Z.ltb_spec temp (comfort_temp s)) as [Hc | Hc].
  { rewrite (tick_comfort os s temp Hc).
    destruct (PowerMode_eqb (current_mode s) EMERGENCY); reflexivity. }
  destruct (Z.ltb_spec temp (warning_temp s)) as [Hw | Hw].
  { unfold adaptive_thermal_response. rewrite bind_get.
    apply Z.ltb_ge in Hc. apply Z.ltb_lt in Hw. rewrite Hc, Hw.
    destruct (PowerMode_eqb (current_mode s) PERFORMANCE); [|reflexivity].
    rewrite !state_of_bind. unfold ret. cbn [state_of fst snd].
    rewrite throttle_ai_processes_state. apply set_power_profile_state. }
  destruct (Z.ltb_spec temp (critical_temp s)) as [Hk | Hk].
  { rewrite (tick_band_state os s temp Hc (conj Hw Hk)). reflexivity. }
  destruct (Z.leb_spec (emergency_temp s) temp) as [He | He].
  { rewrite (tick_emergency os s temp Hc Hw Hk He). reflexivity. }
  unfold adaptive_thermal_response. rewrite bind_get.
  apply Z.ltb_ge in Hc, Hw, Hk. apply Z.leb_gt in He. rewrite Hc, Hw, Hk, He.
  rewrite !state_of_bind. unfold ret. cbn [state_of fst snd].
  rewrite throttle_ai_processes_state. apply set_power_profile_state.
Qed.

Lemma after_profile_mode mode s :
  current_mode (after_profile os mode s) = current_mode s \/
  (current_mode (after_profile os mode s) = mode /\ profile_succeeds os mode).
Proof.
  unfold after_profile. destruct (profile_ok os mode) eqn:E; [right | left; reflexivity].
  split; [reflexivity | now apply profile_ok_iff].
Qed.

(** The counter after one tick is the counter before, one less (not
    below 0), one more, or 10. *)
Lemma tick_count_cases (s : Manager) (temp : Z) :
  let c := escalation_count s in
  let c' := escalation_count (state_of (adaptive_thermal_response os temp s)) in
  c' = c \/ c' = Z.max 0 (c - 1) \/ c' = c + 1 \/ c' = 10.
Proof.
  cbv zeta. rewrite tick_state.
  repeat match goal with
         | |- context [if ?b then _ else _] => destruct b
         end;
    cbn [escalation_count with_count]; rewrite ?after_profile_count;
    cbn [escalation_count with_count]; auto.
Qed.

Lemma ticks_nil s : state_of (ticks os [] s) = s.
Proof. reflexivity. Qed.

Lemma ticks_app l1 : forall l2 s,
  state_of (ticks os (l1 ++ l2) s) = state_of (ticks os l2 (state_of (ticks os l1 s))).
Proof.
  induction l1 as [|t l1 IH]; intros l2 s.
  - reflexivity.
  - cbn [app]. rewrite !(ticks_cons os). apply IH.
Qed.

Lemma ticks_thresholds temps : forall s,
  let s' := state_of (ticks os temps s) in
  comfort_temp s' = comfort_temp s /\ warning_temp s' = warning_temp s /\
  critical_temp s' = critical_temp s /\ emergency_temp s' = emergency_temp s.
Proof.
  induction temps as [|t rest IH]; intros s; cbv zeta.
  - rewrite ticks_nil. repeat split.
  - rewrite (ticks_cons os).
    destruct (IH (state_of (adaptive_thermal_response os t s))) as (A & B & C & D).
    destruct (tick_thresholds os s t) as (A' & B' & C' & D').
    cbv zeta in *. repeat split; congruence.
Qed.

(** X1. [adaptive_thermal_response] never assigns a threshold: whatever
    the temperatures and whatever the commands do, after any sequence
    of calls the comfort, warning, critical and emergency thresholds of
    the manager are the ones it started with. *)
Theorem responses_never_move_thresholds (temps : list Z) : forall s : Manager,
  comfort_temp (state_of (ticks os temps s)) = comfort_temp s /\
  warning_temp (state_of (ticks os temps s)) = warning_temp s /\
  critical_temp (state_of (ticks os temps s)) = critical_temp s /\
  emergency_temp (state_of (ticks os temps s)) = emergency_temp s.
Proof.
  induction temps as [|t rest IH]; intros s.
  - rewrite ticks_nil. repeat split.
  - rewrite (ticks_cons os).
    destruct (tick_shape os s t) as (m1 & c1 & E1). rewrite E1.
    destruct (IH (with_count c1 (with_mode m1 s))) as (A & B & C & D).
    rewrite A, B, C, D. repeat split.
Qed.

(** X2. The escalation counter never becomes negative: from a counter
    that is not negative, any sequence of ticks leaves one that is not
    negative. *)
Theorem counter_stays_nonnegative (temps : list Z) : forall s : Manager,
  0 <= escalation_count s ->
  0 <= escalation_count (state_of (ticks os temps s)).
Proof.
  induction temps as [|t rest IH]; intros s H.
  - exact H.
  - rewrite (ticks_cons os). apply IH.
    pose proof (tick_count_cases s t) as C. cbv zeta in C. lia.
Qed.

(** X3. The recorded mode changes only through a profile command that
    exited with code 0: when the mode after a tick differs from the
    mode before, the command for the new mode succeeded. *)
Theorem mode_changes_only_on_success (s : Manager) (temp : Z) :
  let s' := state_of (adaptive_thermal_response os temp s) in
  current_mode s' <> current_mode s ->
  profile_succeeds os (current_mode s').
Proof.
  cbv zeta. rewrite tick_state.
  repeat match goal with
         | |- context [if ?b then _ else _] => destruct b
         end;
    cbn [current_mode with_count]; try congruence;
    match goal with
    | |- context [after_profile os ?m ?x] =>
        destruct (after_profile_mode m x) as [E | [E Hok]];
        rewrite E; cbn [current_mode with_count]; [congruence | intros _; exact Hok]
    end.
Qed.

Lemma in_band_after_tick s t u :
  in_band (state_of (adaptive_thermal_response os u s)) t <-> in_band s t.
Proof.
  unfold in_band. destruct (tick_thresholds os s u) as (A & B & C & _).
  cbv zeta in *. rewrite A, B, C. reflexivity.
Qed.

Lemma cool_after_tick s t u :
  cool (state_of (adaptive_thermal_response os u s)) t <-> cool s t.
Proof.
  unfold cool. destruct (tick_thresholds os s u) as (A & _).
  cbv zeta in *. rewrite A. reflexivity.
Qed.

Lemma band_ticks_count temps : forall s,
  Forall (in_band s) temps ->
  escalation_count (state_of (ticks os temps s)) =
  escalation_count s + Z.of_nat (List.length temps).
Proof.
  induction temps as [|t rest IH]; intros s H.
  - rewrite ticks_nil. cbn. lia.
  - inversion H as [|? ? Ht Hrest]; subst.
    rewrite (ticks_cons os), IH.
    + destruct Ht as [Hc Hb].
      destruct (band_tick_count os s t Hc Hb) as (E & _).
      cbv zeta in E. rewrite E. cbn [List.length]. lia.
    + eapply Forall_impl; [|exact Hrest].
      intros a Ha. now apply in_band_after_tick.
Qed.

(** X4. While the temperature stays between the warning and the
    critical threshold the counter grows by one per tick; once it has
    passed 3, and the Emergency profile command succeeds, the manager
    is in Emergency. *)
Theorem sustained_band_escalates (temps : list Z) (s : Manager) :
  Forall (in_band s) temps ->
  let s' := state_of (ticks os temps s) in
  escalation_count s' = escalation_count s + Z.of_nat (List.length temps) /\
  (temps <> [] -> 3 < escalation_count s' -> profile_succeeds os EMERGENCY ->
   current_mode s' = EMERGENCY).
Proof.
  intros H. cbv zeta. split; [now apply band_ticks_count|].
  induction temps as [|x l _] using rev_ind; [congruence|].
  intros _. rewrite ticks_app, (ticks_cons os), ticks_nil.
  apply Forall_app in H. destruct H as [Hrest Ht].
  inversion Ht as [|? ? Hb _]; subst.
  set (s1 := state_of (ticks os l s)).
  assert (Hb1 : in_band s1 x).
  { unfold in_band in *. destruct (ticks_thresholds l s) as (A & B & C & _).
    cbv zeta in *. fold s1 in A, B, C. rewrite A, B, C. exact Hb. }
  destruct Hb1 as [Hc1 Hb1].
  destruct (band_tick_count os s1 x Hc1 Hb1) as (E & _ & M & _).
  cbv zeta in *. rewrite E. intros Hgt Hok. apply M; [exact Hok | lia].
Qed.

Lemma cool_tick_not_emergency s t :
  cool s t -> current_mode s <> EMERGENCY ->
  state_of (adaptive_thermal_response os t s) = s.
Proof.
  intros Hc Hm. rewrite (tick_comfort os s t Hc).
  destruct (PowerMode_eqb (current_mode s) EMERGENCY) eqn:E; [|reflexivity].
  apply PowerMode_eqb_eq in E. contradiction.
Qed.

Lemma cool_ticks_not_emergency temps : forall s,
  Forall (cool s) temps -> current_mode s <> EMERGENCY ->
  state_of (ticks os temps s) = s.
Proof.
  induction temps as [|t rest IH]; intros s H Hm.
  - reflexivity.
  - inversion H as [|? ? Ht Hrest]; subst.
    rewrite (ticks_cons os), (cool_tick_not_emergency s t Ht Hm).
    now apply IH.
Qed.

Lemma cool_tick_emergency s t :
  cool s t -> current_mode s = EMERGENCY ->
  state_of (adaptive_thermal_response os t s) =
  with_count (Z.max 0 (escalation_count s - 1)) (after_profile os BALANCED s).
Proof.
  intros Hc Hm. rewrite (tick_comfort os s t Hc), Hm. reflexivity.
Qed.

Lemma cooling_state_once (temps : list Z) (s : Manager) :
  current_mode s = EMERGENCY ->
  profile_succeeds os BALANCED ->
  temps <> [] ->
  Forall (cool s) temps ->
  state_of (ticks os temps s) =
  with_count (Z.max 0 (escalation_count s - 1)) (with_mode BALANCED s).
Proof.
  intros Hm Hok Hne H.
  destruct temps as [|t rest]; [congruence|].
  inversion H as [|? ? Ht Hrest]; subst.
  rewrite (ticks_cons os), (cool_tick_emergency s t Ht Hm).
  assert (E : after_profile os BALANCED s = with_mode BALANCED s).
  { unfold after_profile. apply profile_ok_iff in Hok. now rewrite Hok. }
  rewrite E. apply cool_ticks_not_emergency.
  - exact Hrest.
  - cbn. discriminate.
Qed.

Lemma ticks_trace_cons t rest s :
  trace_of (ticks os (t :: rest) s) =
  trace_of (adaptive_thermal_response os t s) ++
  trace_of (ticks os rest (state_of (adaptive_thermal_response os t s))).
Proof. cbn [ticks]. rewrite trace_of_bind. reflexivity. Qed.

Lemma cool_ticks_silent temps : forall s,
  Forall (cool s) temps -> current_mode s <> EMERGENCY ->
  trace_of (ticks os temps s) = [].
Proof.
  induction temps as [|t rest IH]; intros s H Hm.
  - reflexivity.
  - inversion H as [|? ? Ht Hrest]; subst.
    rewrite ticks_trace_cons, (cool_tick_not_emergency s t Ht Hm), (IH s Hrest Hm).
    rewrite (tick_comfort os s t Ht).
    destruct (PowerMode_eqb (current_mode s) EMERGENCY) eqn:E; [|reflexivity].
    apply PowerMode_eqb_eq in E. contradiction.
Qed.

(** X5. Cooling relaxes only once: from Emergency, with the Balanced
    profile command succeeding, any number of cool ticks (at least one)
    leaves the manager Balanced with the counter lowered by exactly one
    (not below 0); the whole run issues a single command, the profile
    change of its first tick. *)
Theorem cooling_relaxes_once (temps : list Z) (s : Manager) :
  current_mode s = EMERGENCY ->
  profile_succeeds os BALANCED ->
  temps <> [] ->
  Forall (cool s) temps ->
  state_of (ticks os temps s) =
    with_count (Z.max 0 (escalation_count s - 1)) (with_mode BALANCED s) /\
  trace_of (ticks os temps s) = [powerprofilesctl_set BALANCED].
Proof.
  intros Hm Hok Hne H. split; [now apply cooling_state_once|].
  destruct temps as [|t rest]; [congruence|].
  inversion H as [|? ? Ht Hrest]; subst.
  rewrite ticks_trace_cons, (cool_tick_emergency s t Ht Hm).
  rewrite (tick_comfort os s t Ht), Hm. cbn [PowerMode_eqb trace_of snd app].
  f_equal.
  assert (E : after_profile os BALANCED s = with_mode BALANCED s).
  { unfold after_profile. apply profile_ok_iff in Hok. now rewrite Hok. }
  rewrite E. apply cool_ticks_silent.
  - exact Hrest.
  - cbn. discriminate.
Qed.

(** X6. When the Balanced profile command keeps failing, a manager in
    Emergency stays in Emergency and every cool tick lowers the counter
    again, down to 0. *)
Theorem cooling_with_failing_profile (temps : list Z) : forall s : Manager,
  current_mode s = EMERGENCY ->
  ~ profile_succeeds os BALANCED ->
  0 <= escalation_count s ->
  Forall (cool s) temps ->
  state_of (ticks os temps s) =
  with_count (Z.max 0 (escalation_count s - Z.of_nat (List.length temps))) s.
Proof.
  induction temps as [|t rest IH]; intros s Hm Hko H0 H.
  - rewrite ticks_nil. cbn [List.length Z.of_nat]. rewrite Z.sub_0_r, Z.max_r by exact H0.
    destruct s; reflexivity.
  - inversion H as [|? ? Ht Hrest]; subst.
    rewrite (ticks_cons os), (cool_tick_emergency s t Ht Hm).
    rewrite (after_profile_mode_ko os _ _ Hko).
    rewrite IH; cbn [current_mode escalation_count with_count comfort_temp];
      try assumption; try lia.
    cbn [List.length]. unfold with_count; cbn. f_equal. lia.
Qed.

End ThermalMore.

Section ThermalTraces.
Import SmartThermal ThermalCommands.
Variable os : OS.

Lemma find_loop_trace patterns : forall pids s c,
  In c (trace_of (find_loop os patterns pids s)) ->
  exists p, c = pgrep p /\ In p patterns.
Proof.
  induction patterns as [|p rest IH]; intros pids s c; cbn [find_loop].
  - intros [].
  - rewrite trace_of_bind. unfold exec at 1 2 3.
    cbn [value_of state_of trace_of fst snd app].
    intros [<- | Hin]; [exists p; split; [reflexivity | now left]|].
    destruct (os (pgrep p)) as [|rc out]; [destruct Hin|].
    apply IH in Hin. destruct Hin as (q & -> & Hq). exists q. split; [reflexivity | now right].
Qed.

Lemma find_loop_value patterns : forall pids s pid,
  In pid (value_of (find_loop os patterns pids s)) ->
  In pid pids \/
  exists p out, In p patterns /\ os (pgrep p) = Exited 0 out /\ In pid out.
Proof.
  induction patterns as [|p rest IH]; intros pids s pid; cbn [find_loop].
  - intros H. now left.
  - unfold bind, exec, value_of.
    destruct (os (pgrep p)) as [|rc out] eqn:E.
    + cbn. intros H. now left.
    + destruct (find_loop os rest (if rc =? 0 then pids ++ out else pids) s)
        as [[v s2] t2] eqn:EF. cbn [fst].
      intros H.
      assert (Hv : In pid (value_of (find_loop os rest
                     (if rc =? 0 then pids ++ out else pids) s)))
        by (rewrite EF; exact H).
      apply IH in Hv. destruct Hv as [Hv | (q & o & Hq & Hos & Ho)].
      * destruct (Z.eqb_spec rc 0) as [-> | Hrc]; [|now left].
        apply in_app_or in Hv. destruct Hv as [Hv | Hv]; [now left|].
        right. exists p, out. split; [now left | split; assumption].
      * right. exists q, o. split; [now right | split; assumption].
Qed.

Lemma throttle_one_trace n pid s c :
  In c (trace_of (throttle_one os n pid s)) ->
  c = renice n pid \/
  (c = taskset "0" pid /\ 15 < n) \/
  (c = taskset "0,1" pid /\ 5 < n <= 15).
Proof.
  unfold throttle_one. rewrite trace_of_bind. unfold exec at 1 2 3.
  cbn [value_of state_of trace_of fst snd app].
  intros [<- | Hin]; [now left|].
  destruct (os (renice n pid)); [destruct Hin|].
  destruct (Z.ltb_spec 15 n) as [H15 | H15].
  - rewrite trace_of_bind in Hin. unfold exec at 1 2 3 in Hin.
    cbn [value_of state_of trace_of fst snd app] in Hin.
    destruct Hin as [<- | Hin]; [right; left; now split|].
    destruct (os (taskset "0" pid)); destruct Hin.
  - destruct (Z.ltb_spec 5 n) as [H5 | H5]; [|destruct Hin].
    rewrite trace_of_bind in Hin. unfold exec at 1 2 3 in Hin.
    cbn [value_of state_of trace_of fst snd app] in Hin.
    destruct Hin as [<- | Hin]; [right; right; split; [reflexivity | lia]|].
    destruct (os (taskset "0,1" pid)); destruct Hin.
Qed.

Lemma throttle_loop_trace n pids : forall k s c,
  In c (trace_of (throttle_loop os n pids k s)) ->
  exists pid, In pid pids /\
    (c = renice n pid \/
     (c = taskset "0" pid /\ 15 < n) \/
     (c = taskset "0,1" pid /\ 5 < n <= 15)).
Proof.
  induction pids as [|pid rest IH]; intros k s c; cbn [throttle_loop].
  - intros [].
  - rewrite trace_of_bind. intros Hin. apply in_app_or in Hin.
    destruct Hin as [Hin | Hin].
    + apply throttle_one_trace in Hin. exists pid. split; [now left | exact Hin].
    + apply IH in Hin. destruct Hin as (q & Hq & Hc). exists q. split; [now right | exact Hc].
Qed.

(** Every command of [throttle_ai_processes] is a search for an AI
    pattern, or acts on a pid that such a search reported. *)
Lemma throttle_trace_sound n s c :
  In c (trace_of (throttle_ai_processes os n s)) -> throttle_command os n c.
Proof.
  unfold throttle_ai_processes, find_ai_processes. rewrite trace_of_bind.
  intros Hin. apply in_app_or in Hin. destruct Hin as [Hin | Hin].
  - apply find_loop_trace in Hin. destruct Hin as (p & -> & Hp). exact Hp.
  - apply throttle_loop_trace in Hin. destruct Hin as (pid & Hpid & Hc).
    apply find_loop_value in Hpid. destruct Hpid as [[] | Hrep].
    fold (reported os pid) in Hrep.
    destruct Hc as [-> | [[-> H] | [-> H]]]; cbn [throttle_command].
    + split; [reflexivity | exact Hrep].
    + split; [exact Hrep | left; split; [reflexivity | exact H]].
    + split; [exact Hrep | right; split; [reflexivity | exact H]].
Qed.

Lemma throttle_one_value n pid s :
  0 <= value_of (throttle_one os n pid s) <= 1.
Proof.
  unfold throttle_one, bind, exec, value_of.
  destruct (os (renice n pid)); cbn; [lia|].
  destruct (15 <? n); [destruct (os (taskset "0" pid)); cbn; lia|].
  destruct (5 <? n); [destruct (os (taskset "0,1" pid)); cbn; lia | cbn; lia].
Qed.

Lemma throttle_loop_value n pids : forall k s,
  k <= value_of (throttle_loop os n pids k s) <= k + Z.of_nat (List.length pids).
Proof.
  induction pids as [|pid rest IH]; intros k s; cbn [throttle_loop].
  - cbn. lia.
  - rewrite run_bind. cbn [value_of fst].
    pose proof (throttle_one_value n pid s) as H1.
    pose proof (IH (k + value_of (throttle_one os n pid s))
                   (state_of (throttle_one os n pid s))) as H2.
    unfold value_of in *. cbn [List.length]. lia.
Qed.

(** X7. Throttling touches only what the search reported: every
    command [throttle_ai_processes] runs is a [pgrep] for one of the
    five AI patterns, a [renice] at the requested level of a reported
    pid, or a [taskset] of a reported pid, to core 0 above level 15 and
    to cores 0 and 1 from level 6 to 15; at level 5 or below no
    affinity is set. The count it returns lies between 0 and the number
    of pids found. *)
Theorem throttle_touches_only_reported (n : Z) (s : Manager) :
  let r := throttle_ai_processes os n s in
  (forall c, In c (trace_of r) -> throttle_command os n c) /\
  0 <= value_of r <= Z.of_nat (List.length (value_of (find_ai_processes os s))).
Proof.
  cbv zeta. split; [intros c; apply throttle_trace_sound|].
  unfold throttle_ai_processes. rewrite run_bind. cbn [value_of fst].
  pose proof (throttle_loop_value n (value_of (find_ai_processes os s)) 0
                (state_of (find_ai_processes os s))) as H.
  unfold value_of in *. lia.
Qed.

(** The commands of one tick, branch by branch. *)
Lemma tick_trace (s : Manager) (temp : Z) :
  trace_of (adaptive_thermal_response os temp s) =
  if temp <? comfort_temp s then
    if PowerMode_eqb (current_mode s) EMERGENCY
    then [powerprofilesctl_set BALANCED] else []
  else if temp <? warning_temp s then
    if PowerMode_eqb (current_mode s) PERFORMANCE
    then powerprofilesctl_set BALANCED ::
         trace_of (throttle_ai_processes os 5 (after_profile os BALANCED s))
    else []
  else if temp <? critical_temp s then
    let s1 := with_count (escalation_count s + 1) s in
    if escalation_count s + 1 <=? 3
    then powerprofilesctl_set POWER_SAVE ::
         trace_of (throttle_ai_processes os (10 + (escalation_count s + 1) * 2)
                     (after_profile os POWER_SAVE s1))
    else powerprofilesctl_set EMERGENCY ::
         trace_of (throttle_ai_processes os 19 (after_profile os EMERGENCY s1))
  else if emergency_temp s <=? temp then
    powerprofilesctl_set EMERGENCY ::
    map pkill heavy_patterns ++
    sync :: match os sync with Raised => [] | Exited _ _ => [drop_caches] end
  else
    powerprofilesctl_set EMERGENCY ::
    trace_of (throttle_ai_processes os 19 (after_profile os EMERGENCY s)).
Proof.
  destruct (Z.ltb_spec temp (comfort_temp s)) as [Hc | Hc].
  { rewrite (tick_comfort os s temp Hc).
    destruct (PowerMode_eqb (current_mode s) EMERGENCY); reflexivity. }
  destruct (Z.ltb_spec temp (warning_temp s)) as [Hw | Hw].
  { unfold adaptive_thermal_response. rewrite bind_get.
    apply Z.ltb_ge in Hc. apply Z.ltb_lt in Hw. rewrite Hc, Hw.
    destruct (PowerMode_eqb (current_mode s) PERFORMANCE); [|reflexivity].
    rewrite !trace_of_bind, set_power_profile_trace, set_power_profile_state.
    unfold ret. cbn [trace_of state_of fst snd app]. rewrite app_nil_r. reflexivity. }
  destruct (Z.ltb_spec temp (critical_temp s)) as [Hk | Hk].
  { unfold adaptive_thermal_response. rewrite bind_get.
    apply Z.ltb_ge in Hc, Hw. apply Z.ltb_lt in Hk. rewrite Hc, Hw, Hk.
    rewrite trace_of_bind. unfold modify. cbn [value_of state_of trace_of fst snd app].
    rewrite bind_get. cbn [escalation_count with_count]. cbv zeta.
    destruct (escalation_count s + 1 <=? 3);
      rewrite !trace_of_bind, set_power_profile_trace, set_power_profile_state;
      unfold ret; cbn [trace_of state_of fst snd app]; rewrite app_nil_r; reflexivity. }
  destruct (Z.leb_spec (emergency_temp s) temp) as [He | He].
  { rewrite (tick_emergency os s temp Hc Hw Hk He). reflexivity. }
  unfold adaptive_thermal_response. rewrite bind_get.
  apply Z.ltb_ge in Hc, Hw, Hk. apply Z.leb_gt in He. rewrite Hc, Hw, Hk, He.
  rewrite !trace_of_bind, set_power_profile_trace, set_power_profile_state.
  unfold ret. cbn [trace_of state_of fst snd app]. rewrite app_nil_r. reflexivity.
Qed.

Lemma throttle_never_kills n s c :
  In c (trace_of (throttle_ai_processes os n s)) -> is_kill c = false.
Proof.
  intros H. apply throttle_trace_sound in H. destruct c; cbn in *; tauto.
Qed.

(** X8. Between the critical and the emergency threshold one tick asks
    for the Emergency profile and throttles at level 19; it kills
    nothing, runs neither [sync] nor the cache drop, and leaves the
    escalation counter as it was. *)
Theorem high_risk_tick_throttles (s : Manager) (temp : Z) :
  high_risk s temp ->
  let r := adaptive_thermal_response os temp s in
  trace_of r =
    powerprofilesctl_set EMERGENCY ::
    trace_of (throttle_ai_processes os 19 (after_profile os EMERGENCY s)) /\
  (forall c, In c (trace_of r) -> is_kill c = false) /\
  escalation_count (state_of r) = escalation_count s /\
  (profile_succeeds os EMERGENCY -> current_mode (state_of r) = EMERGENCY).
Proof.
  intros (Hc & Hw & Hk & He). cbv zeta.
  rewrite tick_trace, tick_state.
  apply Z.ltb_ge in Hc, Hw, Hk. apply Z.leb_gt in He. rewrite Hc, Hw, Hk, He.
  split; [reflexivity|]. split.
  - intros c [<- | Hin]; [reflexivity | now apply throttle_never_kills in Hin].
  - split; [apply after_profile_count | apply after_profile_mode_ok].
Qed.

(** X9. The nice levels of the loop: with a counter that is not
    negative, every [renice] of a tick is at level 5, 12, 14, 16 or 19
    and targets a reported pid; every [taskset] of a tick targets a
    reported pid. *)
Theorem tick_nice_levels (s : Manager) (temp : Z) :
  0 <= escalation_count s ->
  forall c, In c (trace_of (adaptive_thermal_response os temp s)) ->
    match c with
    | renice n pid =>
        (n = 5 \/ n = 12 \/ n = 14 \/ n = 16 \/ n = 19) /\ reported os pid
    | taskset _ pid => reported os pid
    | _ => True
    end.
Proof.
  intros H0 c. rewrite tick_trace.
  assert (T : forall n s', In c (trace_of (throttle_ai_processes os n s')) ->
            (n = 5 \/ n = 12 \/ n = 14 \/ n = 16 \/ n = 19) ->
            match c with
            | renice n pid =>
                (n = 5 \/ n = 12 \/ n = 14 \/ n = 16 \/ n = 19) /\ reported os pid
            | taskset _ pid => reported os pid
            | _ => True
            end).
  { intros n s' Hin Hn. apply throttle_trace_sound in Hin.
    destruct c; cbn [throttle_command] in Hin; try exact I.
    - destruct Hin as [-> Hr]. split; assumption.
    - apply Hin. }
  destruct (temp <? comfort_temp s).
  { destruct (PowerMode_eqb _ _); [intros [<- | []]; exact I | intros []]. }
  destruct (temp <? warning_temp s).
  { destruct (PowerMode_eqb _ _); [|intros []].
    intros [<- | Hin]; [exact I|]. apply (T _ _ Hin). auto. }
  destruct (temp <? critical_temp s).
  { cbv zeta. destruct (Z.leb_spec (escalation_count s + 1) 3) as [H3 | H3];
      (intros [<- | Hin]; [exact I|]); apply (T _ _ Hin); lia. }
  destruct (emergency_temp s <=? temp).
  { intros [<- | Hin]; [exact I|].
    apply in_app_or in Hin. destruct Hin as [Hin | Hin].
    - apply in_map_iff in Hin. destruct Hin as (p & <- & _). exact I.
    - destruct Hin as [<- | Hin]; [exact I|].
      destruct (os sync); [destruct Hin|]. destruct Hin as [<- | []]. exact I. }
  intros [<- | Hin]; [exact I|]. apply (T _ _ Hin). auto.
Qed.

(** X10. After an emergency tick the counter does not come down:
    with the Balanced profile command succeeding, any number of cool
    ticks later the counter is still at least 9, and the first tick
    between the warning and the critical threshold asks for the
    Emergency profile at once and throttles at level 19. *)
Theorem relapse_after_emergency (s : Manager) (hot warm : Z) (cools : list Z) :
  profile_succeeds os BALANCED ->
  at_emergency s hot ->
  Forall (cool s) cools ->
  in_band s warm ->
  let s1 := state_of (ticks os (hot :: cools) s) in
  9 <= escalation_count s1 /\
  trace_of (adaptive_thermal_response os warm s1) =
    powerprofilesctl_set EMERGENCY ::
    trace_of (throttle_ai_processes os 19
                (after_profile os EMERGENCY
                   (with_count (escalation_count s1 + 1) s1))).
Proof.
  intros Hok (Hc & Hw & Hk & He) Hcool Hband. cbv zeta.
  rewrite (ticks_cons os), (tick_emergency os s hot Hc Hw Hk He).
  cbn [state_of fst snd].
  set (s0 := with_count 10 (after_profile os EMERGENCY s)).
  assert (Hth : comfort_temp s0 = comfort_temp s /\ warning_temp s0 = warning_temp s /\
                critical_temp s0 = critical_temp s).
  { unfold s0, after_profile. destruct (profile_ok os EMERGENCY); repeat split. }
  assert (Hcool0 : Forall (cool s0) cools).
  { eapply Forall_impl; [|exact Hcool]. intros a Ha. unfold cool in *.
    destruct Hth as (-> & _). exact Ha. }
  assert (Hcount : escalation_count s0 = 10) by reflexivity.
  assert (Hfinal : 9 <= escalation_count (state_of (ticks os cools s0)) /\
                   comfort_temp (state_of (ticks os cools s0)) = comfort_temp s /\
                   warning_temp (state_of (ticks os cools s0)) = warning_temp s /\
                   critical_temp (state_of (ticks os cools s0)) = critical_temp s).
  { destruct (ticks_thresholds os cools s0) as (A & B & C & _). cbv zeta in *.
    destruct Hth as (A0 & B0 & C0).
    split; [|repeat split; congruence].
    destruct cools as [|t rest]; [rewrite ticks_nil; lia|].
    destruct (PowerMode_eqb (current_mode s0) EMERGENCY) eqn:Em.
    - apply PowerMode_eqb_eq in Em.
      rewrite (cooling_state_once os (t :: rest) s0 Em Hok ltac:(discriminate) Hcool0).
      cbn [escalation_count with_count]. rewrite Hcount. lia.
    - rewrite (cool_ticks_not_emergency os (t :: rest) s0 Hcool0).
      + lia.
      + intros E. apply PowerMode_eqb_eq in E. congruence. }
  destruct Hfinal as (H9 & A & B & C).
  split; [exact H9|].
  rewrite tick_trace. destruct Hband as (Hbc & Hbw & Hbk).
  rewrite A, B, C.
  apply Z.ltb_ge in Hbc, Hbw. apply Z.ltb_lt in Hbk. rewrite Hbc, Hbw, Hbk.
  cbv zeta.
  destruct (Z.leb_spec (escalation_count (state_of (ticks os cools s0)) + 1) 3); [lia|].
  reflexivity.
Qed.

End ThermalTraces.

Section ThermalMoreExamples.
Import SmartThermal ThermalCommands.

Lemma counter_stays_nonnegative_witness :
  0 <= escalation_count (state_of (ticks os_ok [50; 75; 90] init)).
Proof.
  apply (counter_stays_nonnegative os_ok [50; 75; 90] init). cbn. lia.
Defined.

Lemma mode_changes_only_on_success_witness :
  profile_succeeds os_ok
    (current_mode (state_of (adaptive_thermal_response os_ok 75 init))).
Proof.
  apply (mode_changes_only_on_success os_ok init 75). vm_compute. discriminate.
Defined.

Lemma sustained_band_escalates_witness :
  let s' := state_of (ticks os_ok [75; 76; 77; 78] init) in
  escalation_count s' = 4 /\ current_mode s' = EMERGENCY.
Proof.
  destruct (sustained_band_escalates os_ok [75; 76; 77; 78] init) as [Hc Hm].
  - repeat constructor; cbn; lia.
  - cbv zeta. split; [exact Hc|].
    apply Hm; [discriminate | rewrite Hc; cbn; lia | exists []; reflexivity].
Defined.

Lemma cooling_relaxes_once_witness :
  let r := ticks os_ok [50; 40; 30] (with_count 10 (with_mode EMERGENCY init)) in
  state_of r = with_count 9 (with_mode BALANCED init) /\
  trace_of r = [powerprofilesctl_set BALANCED].
Proof.
  apply (cooling_relaxes_once os_ok [50; 40; 30]
           (with_count 10 (with_mode EMERGENCY init))).
  - reflexivity.
  - exists []. reflexivity.
  - discriminate.
  - repeat constructor.
Defined.

Lemma cooling_with_failing_profile_witness :
  state_of (ticks os_balanced_fails [50; 40; 30]
              (with_count 10 (with_mode EMERGENCY init))) =
  with_count 7 (with_mode EMERGENCY init).
Proof.
  apply (cooling_with_failing_profile os_balanced_fails [50; 40; 30]
           (with_count 10 (with_mode EMERGENCY init))).
  - reflexivity.
  - intros [out H]. discriminate H.
  - cbn. lia.
  - repeat constructor.
Defined.

Lemma throttle_touches_only_reported_witness :
  throttle_command os_ok 19 (taskset "0" 4242).
Proof.
  apply (proj1 (throttle_touches_only_reported os_ok 19 init)).
  vm_compute. auto 10.
Defined.

Lemma high_risk_tick_throttles_witness :
  let r := adaptive_thermal_response os_ok 81 init in
  trace_of r =
    [powerprofilesctl_set EMERGENCY;
     pgrep "ollama"; pgrep "claude"; pgrep "python.*ai";
     pgrep "python.*mycoder"; pgrep "gemini";
     renice 19 4242; taskset "0" 4242] /\
  escalation_count (state_of r) = 0.
Proof.
  destruct (high_risk_tick_throttles os_ok init 81) as (Ht & _ & Hc & _).
  - unfold high_risk. cbn. lia.
  - cbv zeta. split; [rewrite Ht; reflexivity | exact Hc].
Defined.

Lemma tick_nice_levels_witness :
  (12 = 5 \/ 12 = 12 \/ 12 = 14 \/ 12 = 16 \/ 12 = 19) /\ reported os_ok 4242.
Proof.
  apply (tick_nice_levels os_ok init 75 ltac:(cbn; lia) (renice 12 4242)).
  vm_compute. auto 10.
Defined.

Lemma relapse_after_emergency_witness :
  let s1 := state_of (ticks os_ok [90; 50; 50] init) in
  9 <= escalation_count s1 /\
  hd_error (trace_of (adaptive_thermal_response os_ok 75 s1)) =
    Some (powerprofilesctl_set EMERGENCY).
Proof.
  destruct (relapse_after_emergency os_ok init 90 75 [50; 50]) as [H9 Ht].
  - exists []. reflexivity.
  - unfold at_emergency. cbn. lia.
  - repeat constructor.
  - unfold in_band. cbn. lia.
  - cbv zeta. split; [exact H9 | rewrite Ht; reflexivity].
Defined.

End ThermalMoreExamples.

(* ================================================================== *)
(** * Properties of the hardware identification *)
(* ================================================================== *)

Section IdentifyProps.
Import Detector PyFloat Config Identify UniversalCPU.

(** [prefix] and [contains] are the prefix and the substring test. *)
Lemma prefix_spec (sub : string) : forall s,
  prefix sub s = true <-> exists b, s = (sub ++ b)%string.
Proof.
  induction sub as [|a sub IH]; intros s; destruct s as [|c s];
    cbn [prefix String.append].
  - split; [intros _; now exists ""%string | reflexivity].
  - split; [intros _; now exists (String c s) | reflexivity].
  - split; [discriminate | intros [b H]; discriminate].
  - destruct (Ascii.ascii_dec a c) as [-> | Hne].
    + rewrite IH. split; intros [b H]; exists b; congruence.
    + split; [discriminate | intros [b H]; congruence].
Qed.

Lemma contains_spec (sub : string) : forall s,
  contains sub s = true <-> exists a b, s = (a ++ sub ++ b)%string.
Proof.
  induction s as [|c s IH]; cbn [contains].
  - destruct (prefix sub "") eqn:E.
    + apply prefix_spec in E. destruct E as [b E].
      split; [intros _; now exists ""%string, b | reflexivity].
    + split; [discriminate|]. intros (a & b & H). destruct a as [|? ?]; [|discriminate].
      cbn [String.append] in H.
      assert (prefix sub "" = true) by (apply prefix_spec; now exists b). congruence.
  - destruct (prefix sub (String c s)) eqn:E.
    + apply prefix_spec in E. destruct E as [b E].
      split; [intros _; now exists ""%string, b | reflexivity].
    + rewrite IH. split.
      * intros (a & b & ->). now exists (String c a), b.
      * intros (a & b & H). destruct a as [|c' a].
        -- cbn [String.append] in H.
           assert (prefix sub (String c s) = true) by (apply prefix_spec; now exists b).
           congruence.
        -- cbn [String.append] in H. injection H as _ ->. now exists a, b.
Qed.

(** X11. Whatever model name /proc/cpuinfo gives, the thermal ceiling
    is 85, 95 or 100 for a name containing "Intel", otherwise 70, 75 or
    95 for a name containing "AMD", otherwise 85; and the thresholds
    [set_thermal_config] derives from it are strictly increasing. *)
Theorem thermal_ceiling_by_vendor (model_name : string) :
  match detect_vendor model_name with
  | INTEL => In (thermal_max_of_name model_name) [85; 95; 100]
  | AMD => In (thermal_max_of_name model_name) [70; 75; 95]
  | UNKNOWN_VENDOR => thermal_max_of_name model_name = 85
  end /\
  exists cfg',
    set_thermal_config (thermal_max_of_name model_name) PowerConfig_init = Ok cfg' /\
    strictly_increasing (thermal cfg').
Proof.
  split; [|apply detected_thresholds_increasing].
  unfold thermal_max_of_name.
  destruct (detect_vendor model_name); unfold _detect_cpu_generation;
    repeat match goal with
           | |- context [if ?b then _ else _] => destruct b
           end;
    cbn; auto 6.
Qed.

(** X12. Without the cpufreq limit files the detected range is never
    empty and never small, whatever /proc/cpuinfo reports (0 or a
    negative number included): the floor is at least 666, the ceiling
    at least 2000, and the range is 800..3000 or has its floor at a
    third of its ceiling. *)
Theorem fallback_range_floor (p : Platform) :
  cpufreq_limits p = None ->
  let r := _detect_frequency_range p in
  666 <= fst r <= snd r /\ 2000 <= snd r /\
  (r = (800, 3000) \/ fst r = snd r / 3).
Proof.
  intros Hl. cbv zeta. unfold _detect_frequency_range. rewrite Hl.
  destruct (proc_cpu_mhz p) as [current|]; cbn [fst snd].
  - assert (H : 2000 <= Z.max current 2000) by lia.
    pose proof (Z.div_le_mono 2000 (Z.max current 2000) 3 ltac:(lia) H) as H3.
    change (2000 / 3) with 666 in H3.
    assert (Z.max current 2000 / 3 <= Z.max current 2000)
      by (apply Z.lt_le_incl, Z.div_lt; lia).
    repeat split; try lia; auto.
  - repeat split; try lia; auto.
Qed.

Variable env : Env.

(** X13. The compatibility verdict agrees with the method selection:
    off CI, [is_compatible] answers true exactly when the manager
    selects a method that writes to the hardware directly (cpufreq,
    intel_pstate or MSR), and false exactly when it is left with
    cpupower or nothing. *)
Theorem compatible_iff_direct_method (cpu : CPUInfo) (zones : list string)
    (gpu_power_profile gpu_power_cap : bool) :
  fst (is_compatible cpu zones gpu_power_profile gpu_power_cap) = true <->
  In (_select_control_method env false cpu) [cpufreq; cpufreq_intel_pstate; msr].
Proof.
  unfold is_compatible, _select_control_method.
  destruct (supports_cpufreq cpu), (supports_msr cpu); cbn [negb andb];
    destruct zones; destruct gpu_power_profile, gpu_power_cap; cbn [negb andb fst];
    try (destruct (CPUGeneration_eqb (generation cpu) SKYLAKE_PLUS));
    try (destruct (env which_cpupower) as [|rc]; [|destruct rc]);
    cbn [In]; split; intros H; try reflexivity; try discriminate; auto;
    repeat (destruct H as [H | H]; try discriminate H); try contradiction.
Qed.

(** X14. Compatible, yet without control: on a machine without cpufreq
    whose MSR device exists and whose generation is not Core 2,
    [is_compatible] answers true and announces the MSR fallback, while
    the manager built for that CPU fails every [set_frequency] without
    attempting anything. *)
Theorem compatible_but_uncontrollable (cpu : CPUInfo) (zones : list string)
    (gpu_power_profile gpu_power_cap : bool) (target_freq : Z) :
  supports_cpufreq cpu = false ->
  supports_msr cpu = true ->
  generation cpu <> CORE2 ->
  let verdict := is_compatible cpu zones gpu_power_profile gpu_power_cap in
  fst verdict = true /\
  In msr_fallback (snd verdict) /\
  set_frequency env (new_manager env false cpu) target_freq = (false, []).
Proof.
  intros Hc Hm Hg. cbv zeta. unfold is_compatible. rewrite Hc, Hm. cbn [negb andb].
  split; [|split].
  - destruct zones; destruct (negb gpu_power_profile && negb gpu_power_cap); reflexivity.
  - destruct zones; destruct (negb gpu_power_profile && negb gpu_power_cap);
      cbn; auto.
  - unfold set_frequency, new_manager, _select_control_method.
    cbn [is_ci control_method cpu_info]. rewrite Hc, Hm.
    unfold set_frequency_msr. cbn [cpu_info].
    destruct (CPUGeneration_eqb (generation cpu) CORE2) eqn:E; [|reflexivity].
    apply CPUGeneration_eqb_eq in E. contradiction.
Qed.

End IdentifyProps.

(* ================================================================== *)
(** * Properties of the frequency actuation *)
(* ================================================================== *)

Section ActuationProps.
Import Detector PyFloat Config UniversalCPU Profiles.
Variable env : Env.

(** One [try] block: either every action completed, or the block
    stopped at the first action that raised, the ones before it done. *)
Lemma run_all_split (acts : list Action) :
  match run_all env acts with
  | (true, tr) => tr = acts /\ Forall (fun a => env a <> Raises) acts
  | (false, tr) =>
      exists done a rest,
        acts = done ++ a :: rest /\ tr = done ++ [a] /\
        env a = Raises /\ Forall (fun a => env a <> Raises) done
  end.
Proof.
  induction acts as [|a rest IH]; cbn [run_all].
  - split; [reflexivity | constructor].
  - destruct (env a) as [|rc] eqn:Ea.
    + exists [], a, rest. repeat split; [exact Ea | constructor].
    + destruct (run_all env rest) as [[|] t].
      * destruct IH as [-> Hall]. split; [reflexivity|].
        constructor; [congruence | exact Hall].
      * destruct IH as (done & b & rest' & -> & -> & Hb & Hdone).
        exists (a :: done), b, rest'. repeat split; [exact Hb|].
        constructor; [congruence | exact Hdone].
Qed.

Lemma set_frequency_cpufreq_plan (m : Manager) (t : Z) :
  set_frequency_cpufreq env m t = run_all env (cpufreq_plan m t).
Proof.
  unfold set_frequency_cpufreq, cpufreq_plan.
  destruct (control_method m); reflexivity.
Qed.

(** X15. The cpufreq method has no rollback: it answers true exactly
    when every planned write completed, and when a write raises it
    answers false with all the writes before that one already made,
    so the cores handled earlier keep the new frequency. *)
Theorem cpufreq_partial_application (m : Manager) (target_freq : Z) :
  match set_frequency_cpufreq env m target_freq with
  | (true, tr) =>
      tr = cpufreq_plan m target_freq /\
      Forall (fun a => env a <> Raises) (cpufreq_plan m target_freq)
  | (false, tr) =>
      exists done a rest,
        cpufreq_plan m target_freq = done ++ a :: rest /\
        tr = done ++ [a] /\ env a = Raises /\
        Forall (fun a => env a <> Raises) done
  end.
Proof. rewrite set_frequency_cpufreq_plan. apply run_all_split. Qed.

(** X16. With a core count of 0 (a /proc/cpuinfo without "processor"
    lines) or below, the cpufreq method and [set_frequency] through it
    report success without a single write. *)
Theorem cpufreq_zero_cores (m : Manager) (target_freq : Z) :
  cores (cpu_info m) <= 0 ->
  set_frequency_cpufreq env m target_freq = (true, []) /\
  (is_ci m = false ->
   control_method m = cpufreq \/ control_method m = cpufreq_intel_pstate ->
   set_frequency env m target_freq = (true, [])).
Proof.
  intros H.
  assert (E : forall t, set_frequency_cpufreq env m t = (true, [])).
  { intros t. unfold set_frequency_cpufreq, range.
    replace (Z.to_nat (cores (cpu_info m))) with 0%nat by lia.
    destruct (control_method m); reflexivity. }
  split; [apply E|].
  intros Hci [Hm | Hm]; unfold set_frequency; rewrite Hci, Hm; apply E.
Qed.

(** ** The nearest table frequency *)

(** [min_by] returns the first element whose key is least. *)
Lemma min_by_split (key : Z -> Z) (rest : list Z) : forall best,
  exists l1 l2,
    best :: rest = l1 ++ min_by key best rest :: l2 /\
    Forall (fun y => key (min_by key best rest) < key y) l1 /\
    Forall (fun y => key (min_by key best rest) <= key y) l2.
Proof.
  induction rest as [|x r IH]; intros best; cbn [min_by].
  - exists [], []. repeat split; constructor.
  - destruct (Z.ltb_spec (key x) (key best)) as [Hlt | Hge].
    + destruct (IH x) as (l1 & l2 & E & H1 & H2).
      remember (min_by key x r) as m eqn:Em. clear Em.
      exists (best :: l1), l2. split; [cbn [app]; now rewrite <- E|].
      split; [|exact H2].
      constructor; [|exact H1].
      destruct l1 as [|y l1]; cbn [app] in E; injection E as E _; subst x.
      * exact Hlt.
      * inversion H1; subst. lia.
    + destruct (IH best) as (l1 & l2 & E & H1 & H2).
      remember (min_by key best r) as m eqn:Em. clear Em.
      destruct l1 as [|y l1]; cbn [app] in E; injection E as E Er; subst best r.
      * exists [], (x :: l2). split; [reflexivity|].
        split; [constructor|]. constructor; [exact Hge | exact H2].
      * exists (y :: x :: l1), l2. split; [reflexivity|].
        split; [|exact H2].
        inversion H1; subst.
        constructor; [assumption|]. constructor; [lia | assumption].
Qed.

Lemma ascending_tail (m : Z) : forall l1 l2,
  Sorted.StronglySorted Z.le (l1 ++ m :: l2) -> Forall (Z.le m) l2.
Proof.
  induction l1 as [|a l1 IH]; intros l2 H; cbn [app] in H.
  - now inversion H.
  - inversion H; subst. now apply IH.
Qed.

Lemma available_freqs_eq :
  available_freqs =
  [1200; 1333; 1500; 1666; 1833; 2000; 2166; 2333; 2500; 2666; 2833].
Proof. reflexivity. Qed.

Lemma available_freqs_ascending : Sorted.StronglySorted Z.le available_freqs.
Proof.
  rewrite available_freqs_eq.
  repeat (constructor; [|repeat (constructor; try lia)]). constructor.
Qed.

Lemma closest_freq_spec (t : Z) :
  exists c,
    closest_freq t = Some c /\ In c available_freqs /\
    forall k, In k available_freqs ->
      Z.abs (c - t) <= Z.abs (k - t) /\
      (Z.abs (k - t) = Z.abs (c - t) -> c <= k).
Proof.
  unfold closest_freq. fold available_freqs.
  pose proof available_freqs_ascending as Hs.
  destruct available_freqs as [|x r] eqn:Ea; [discriminate|].
  set (key := fun x => Z.abs (x - t)).
  destruct (min_by_split key r x) as (l1 & l2 & E & H1 & H2).
  set (c := min_by key x r) in *.
  exists c. split; [reflexivity|]. split.
  { rewrite E. apply in_or_app. right. now left. }
  rewrite E in Hs. pose proof (ascending_tail c l1 l2 Hs) as Hup.
  intros k Hk. rewrite E in Hk. apply in_app_or in Hk.
  rewrite Forall_forall in H1, H2, Hup. fold (key c) (key k).
  destruct Hk as [Hk | [<- | Hk]].
  - specialize (H1 k Hk). split; lia.
  - split; lia.
  - specialize (H2 k Hk). specialize (Hup k Hk). split; [lia | intros _; exact Hup].
Qed.

(** X17. The MSR method writes the register value of a nearest table
    frequency: whenever it runs [wrmsr], the value written belongs to a
    key of the multiplier table within 200 MHz of the target, no key is
    nearer to the target, and of two keys equally near the lower one
    is taken. *)
Theorem msr_writes_nearest_frequency (m : Manager) (target_freq v : Z) :
  In (wrmsr v) (snd (set_frequency_msr env m target_freq)) ->
  exists c,
    lookup c CORE2_QUAD_MULTIPLIERS = Some v /\
    Z.abs (c - target_freq) <= 200 /\
    forall k, In k available_freqs ->
      Z.abs (c - target_freq) <= Z.abs (k - target_freq) /\
      (Z.abs (k - target_freq) = Z.abs (c - target_freq) -> c <= k).
Proof.
  unfold set_frequency_msr.
  destruct (negb _); [intros []|].
  destruct (closest_freq_spec target_freq) as (c & E & Hin & Hmin). rewrite E.
  destruct (Z.ltb_spec 200 (Z.abs (c - target_freq))) as [_ | Hnear]; [intros []|].
  destruct (lookup c CORE2_QUAD_MULTIPLIERS) as [v0|] eqn:El; [|intros []].
  intros Hrun. apply run_checked_incl in Hrun. cbn [In] in Hrun.
  destruct Hrun as [Hv | [Hv | []]]; [discriminate Hv|].
  injection Hv as ->. exists c. split; [exact El|]. split; [exact Hnear | exact Hmin].
Qed.

Lemma key_within_200 (t : Z) :
  1000 <= t <= 3033 -> exists k, In k available_freqs /\ Z.abs (k - t) <= 200.
Proof.
  intros H. rewrite available_freqs_eq.
  destruct (Z.le_gt_cases t 1400); [exists 1200; split; [cbn; auto 12 | lia]|].
  destruct (Z.le_gt_cases t 1700); [exists 1500; split; [cbn; auto 12 | lia]|].
  destruct (Z.le_gt_cases t 2033); [exists 1833; split; [cbn; auto 12 | lia]|].
  destruct (Z.le_gt_cases t 2366); [exists 2166; split; [cbn; auto 12 | lia]|].
  destruct (Z.le_gt_cases t 2700); [exists 2500; split; [cbn; auto 12 | lia]|].
  exists 2833. split; [cbn; auto 12 | lia].
Qed.

Lemma key_bounds (k : Z) : In k available_freqs -> 1200 <= k <= 2833.
Proof.
  rewrite available_freqs_eq. cbn [In]. intros H.
  repeat (destruct H as [<- | H]; [lia|]). destruct H.
Qed.

Lemma modprobe_gate (m : Manager) (target_freq : Z) :
  env modprobe_msr <> Returns 0 ->
  fst (set_frequency_msr env m target_freq) = false /\
  forall v, ~ In (wrmsr v) (snd (set_frequency_msr env m target_freq)).
Proof.
  intros Hm. unfold set_frequency_msr.
  destruct (negb _); [split; [reflexivity | intros v []]|].
  destruct (closest_freq target_freq) as [c|]; [|split; [reflexivity | intros v []]].
  destruct (200 <? Z.abs (c - target_freq)); [split; [reflexivity | intros v []]|].
  destruct (lookup c CORE2_QUAD_MULTIPLIERS) as [v0|];
    [|split; [reflexivity | intros v []]].
  cbn [run_checked].
  destruct (env modprobe_msr) as [|rc]; [|destruct rc; [contradiction| |]];
    cbn [fst snd]; (split; [reflexivity|]);
    intros v [H | []]; discriminate H.
Qed.

(** X18. On a Core 2 the MSR method attempts a write exactly for the
    targets from 1000 to 3033 MHz, those within 200 MHz of a table
    frequency; for any other target it fails without running a
    command. An attempt starts with [modprobe msr], and when that
    command raises or exits with a code other than 0 the method fails
    and the register is not written. *)
Theorem msr_attempts_iff_in_reach (m : Manager) (target_freq : Z) :
  generation (cpu_info m) = CORE2 ->
  (1000 <= target_freq <= 3033 ->
   hd_error (snd (set_frequency_msr env m target_freq)) = Some modprobe_msr) /\
  (~ 1000 <= target_freq <= 3033 ->
   set_frequency_msr env m target_freq = (false, [])) /\
  (env modprobe_msr <> Returns 0 ->
   fst (set_frequency_msr env m target_freq) = false /\
   forall v, ~ In (wrmsr v) (snd (set_frequency_msr env m target_freq))).
Proof.
  intros Hg. split; [|split; [|apply modprobe_gate]];
    unfold set_frequency_msr; rewrite Hg; cbn [CPUGeneration_eqb negb];
    destruct (closest_freq_spec target_freq) as (c & E & Hin & Hmin); rewrite E;
    pose proof (key_bounds c Hin) as Hb.
  - intros Hr. destruct (key_within_200 target_freq Hr) as (k & Hk & Hk200).
    destruct (Hmin k Hk) as [Hle _].
    destruct (Z.ltb_spec 200 (Z.abs (c - target_freq))) as [Hfar | _]; [lia|].
    destruct (table_values_distinct c Hin) as (v & Hl & _). rewrite Hl.
    cbn [run_checked].
    destruct (env modprobe_msr) as [|rc]; [reflexivity|].
    destruct rc; [|reflexivity|reflexivity].
    destruct (env (wrmsr v)) as [|rc]; [reflexivity|]. destruct rc; reflexivity.
  - intros Hout.
    destruct (Z.ltb_spec 200 (Z.abs (c - target_freq))) as [_ | Hnear];
      [reflexivity | lia].
Qed.

End ActuationProps.

(* ================================================================== *)
(** * Properties of the named profiles and of the configuration *)
(* ================================================================== *)

Section ProfileProps.
Import Detector PyFloat Config UniversalCPU Profiles.
Variable env : Env.

(** X19. A profile name other than the four known ones, or any name
    before the frequency configuration is set, makes [set_profile]
    fail without touching the hardware. *)
Theorem set_profile_unknown_name (m : Manager) (cfg : PowerConfig)
    (profile_name : string) :
  ~ In profile_name profile_names \/ frequency cfg = None ->
  set_profile env m cfg profile_name = (false, []).
Proof.
  intros H. unfold set_profile, get_frequency_profiles.
  destruct (frequency cfg) as [f|]; [|reflexivity].
  destruct H as [H | H]; [|discriminate H].
  unfold profile_named. cbn [rev app find name].
  destruct (String.eqb_spec "emergency" profile_name) as [<- | _];
    [exfalso; apply H; cbn; auto|].
  destruct (String.eqb_spec "powersave" profile_name) as [<- | _];
    [exfalso; apply H; cbn; auto|].
  destruct (String.eqb_spec "balanced" profile_name) as [<- | _];
    [exfalso; apply H; cbn; auto|].
  destruct (String.eqb_spec "performance" profile_name) as [<- | _];
    [exfalso; apply H; cbn; auto|].
  reflexivity.
Qed.

Lemma init_config_frequency (loaded : PowerConfig) (info : CPUInfo) (cfg : PowerConfig) :
  init_config loaded info = Ok cfg ->
  Detector.min_freq_mhz info <= Detector.max_freq_mhz info ->
  exists b p,
    frequency cfg =
      Some {| min_freq_mhz := Detector.min_freq_mhz info;
              max_freq_mhz := Detector.max_freq_mhz info;
              performance_freq := Detector.max_freq_mhz info;
              balanced_freq := Detector.min_freq_mhz info + b;
              powersave_freq := Detector.min_freq_mhz info + p;
              emergency_freq := Detector.min_freq_mhz info |} /\
    0 <= p <= b /\ b <= Detector.max_freq_mhz info - Detector.min_freq_mhz info.
Proof.
  intros E Hr. unfold init_config, set_frequency_config, frequency_profile in E.
  pose proof (range_products (Detector.max_freq_mhz info - Detector.min_freq_mhz info)
                ltac:(lia)) as HP.
  destruct (int_mul_lit _ lit_0_7) as [b|]; [|discriminate E].
  destruct (int_mul_lit _ lit_0_5) as [p|]; [|discriminate E].
  cbn [rbind] in E. unfold set_thermal_config in E.
  destruct (thermal_thresholds (thermal_max_safe info)) as [t|]; [|discriminate E].
  cbn [rbind frequency] in E. injection E as <-.
  exists b, p. split; [reflexivity|]. destruct HP as (Hp & Hb & _). lia.
Qed.

(** X20. The four named profiles never need the clamp: for the
    configuration built at start-up from a range that is not empty,
    [set_profile] with a known name calls [set_frequency] with a
    frequency inside the range, which the clamp leaves as it is;
    "performance" is the maximum and "emergency" the minimum. *)
Theorem set_profile_within_range (loaded : PowerConfig) (m : Manager)
    (cfg : PowerConfig) (profile_name : string) :
  init_config loaded (cpu_info m) = Ok cfg ->
  Detector.min_freq_mhz (cpu_info m) <= Detector.max_freq_mhz (cpu_info m) ->
  In profile_name profile_names ->
  exists f,
    set_profile env m cfg profile_name = set_frequency env m f /\
    clamp m f = f /\
    (profile_name = "performance"%string -> f = Detector.max_freq_mhz (cpu_info m)) /\
    (profile_name = "emergency"%string -> f = Detector.min_freq_mhz (cpu_info m)).
Proof.
  intros E Hr Hn.
  destruct (init_config_frequency loaded (cpu_info m) cfg E Hr) as (b & p & Ef & Hp & Hb).
  unfold set_profile, get_frequency_profiles. rewrite Ef.
  cbn [performance_freq balanced_freq powersave_freq emergency_freq].
  unfold profile_names in Hn. cbn [In] in Hn.
  destruct Hn as [<- | [<- | [<- | [<- | []]]]];
    cbn [profile_named rev app find name String.eqb Ascii.eqb Bool.eqb andb frequency_mhz];
    eexists; (split; [reflexivity|]); unfold clamp;
    (split; [lia|]); split; intros H; try reflexivity; discriminate H.
Qed.

(** X21. What a configuration file held for the thresholds and the
    frequencies does not reach the manager: the configuration built at
    start-up is the same whatever [PowerConfig()] loaded. *)
Theorem init_config_ignores_loaded_values (loaded : PowerConfig) (info : CPUInfo) :
  init_config loaded info = init_config PowerConfig_init info.
Proof.
  unfold init_config, set_frequency_config.
  destruct (frequency_profile _ _) as [f|]; [|reflexivity].
  cbn [rbind]. unfold set_thermal_config.
  destruct (thermal_thresholds _) as [t|]; reflexivity.
Qed.

End ProfileProps.

Section LegacyProps.
Import LegacyCPU LegacyMethods.
Variable env : Env.

Lemma method_result (method : FrequencyMethod) (t : Z) :
  fst (match method with
       | CPUFREQ => set_frequency_cpufreq env t
       | MSR => set_frequency_msr env t
       | CPUPOWER => set_frequency_cpupower env t
       | GRUB_FALLBACK => (false, [])
       end) = method_succeeds env method t.
Proof. destruct method; reflexivity. Qed.

(** X22. The legacy manager's [set_frequency] records the first
    method of [available_methods] that succeeds: every method before it
    was tried and failed, and the GRUB fallback is never recorded;
    when it fails, every method has failed. *)
Theorem legacy_first_success (methods : list FrequencyMethod) (target_freq : Z) :
  match fst (set_frequency env methods target_freq) with
  | Some method =>
      method <> GRUB_FALLBACK /\
      method_succeeds env method target_freq = true /\
      exists before after,
        methods = before ++ method :: after /\
        Forall (fun x => method_succeeds env x target_freq = false) before
  | None =>
      Forall (fun x => method_succeeds env x target_freq = false) methods
  end.
Proof.
  induction methods as [|method rest IH]; cbn [set_frequency].
  - constructor.
  - pose proof (method_result method target_freq) as Hr.
    destruct (match method with
              | CPUFREQ => set_frequency_cpufreq env target_freq
              | MSR => set_frequency_msr env target_freq
              | CPUPOWER => set_frequency_cpupower env target_freq
              | GRUB_FALLBACK => (false, [])
              end) as [ok t]. cbn [fst] in Hr.
    destruct ok.
    + cbn [fst]. split; [intros ->; discriminate Hr|]. split; [now symmetry|].
      exists [], rest. split; [reflexivity | constructor].
    + destruct (set_frequency env rest target_freq) as [r t'] eqn:Er.
      cbn [fst] in *. destruct r as [m0|].
      * destruct IH as (Hg & Hs & before & after & -> & Hb).
        split; [exact Hg|]. split; [exact Hs|].
        exists (method :: before), after. split; [reflexivity|].
        constructor; [now symmetry | exact Hb].
      * constructor; [now symmetry | exact IH].
Qed.

(** X23. The legacy MSR method takes exact table frequencies only:
    whenever it runs [wrmsr], the target itself is a key of the Q9550
    table and the value written is the one the table gives for it; a
    target that is not a key fails without running a command. *)
Theorem legacy_msr_exact_match (target_freq : Z) :
  (forall v, In (wrmsr v) (snd (set_frequency_msr env target_freq)) ->
             lookup target_freq q9550_multipliers = Some v) /\
  (lookup target_freq q9550_multipliers = None ->
   set_frequency_msr env target_freq = (false, [])).
Proof.
  unfold set_frequency_msr.
  destruct (lookup target_freq q9550_multipliers) as [v0|]; [|split; [intros v [] | reflexivity]].
  split; [|discriminate].
  intros v.
  destruct (env modprobe_msr) as [|rc]; [|destruct rc];
    try (cbn [snd In]; intros [H | []]; discriminate H).
  destruct (env (wrmsr v0)) as [|rc]; [|destruct rc];
    cbn [snd In]; intros [H | [H | []]]; try discriminate H; congruence.
Qed.

End LegacyProps.

Section ThresholdProps.
Import PyFloat Config.

Lemma product_bounds (m : Z) (M : positive) :
  21 <= m -> 2 ^ 52 <= Zpos M <= 8556839292003942 ->
  match int_mul_lit m (S754_finite false M (-53)) with
  | Ok a => 0 <= a <= m
  | OverflowError => 2 ^ 1023 <= m
  end.
Proof.
  intros Hm HM.
  change (2 ^ 52) with 4503599627370496 in HM.
  destruct (Z.ltb_spec m (2 ^ 53)) as [Hs | Hb].
  - destruct (int_mul_lit_small m M ltac:(lia)
                ltac:(change (2 ^ 52) with 4503599627370496;
                      change (2 ^ 53) with 9007199254740992; lia))
      as (a & Ea & Ha & _).
    rewrite Ea. change (2 ^ 53) with 9007199254740992 in *.
    pose proof (Z.div_mod (m * Zpos M) 9007199254740992 ltac:(lia)).
    pose proof (Z.mod_pos_bound (m * Zpos M) 9007199254740992 ltac:(lia)).
    assert (0 <= m * Zpos M / 9007199254740992) by (apply Z.div_pos; nia).
    assert (m * Zpos M <= m * 8556839292003942) by nia.
    lia.
  - destruct (int_mul_lit_big m M Hb
                ltac:(change (2 ^ 52) with 4503599627370496;
                      change (2 ^ 53) with 9007199254740992; lia))
      as (HK & HnK & Ha).
    set (K := 2 ^ (Zdigits2 m - 53)) in *.
    change (2 ^ 53) with 9007199254740992 in *.
    change (2 ^ 52) with 4503599627370496 in *.
    destruct (int_mul_lit m (S754_finite false M (-53))) as [a|]; [|exact Ha].
    assert (4503599627370496 * m <= Zpos M * m) by nia.
    assert (Zpos M * m <= 8556839292003942 * m) by nia.
    lia.
Qed.

(** X24. For every maximum safe temperature [m >= 0] the four
    thresholds [set_thermal_config] derives are ordered and stay within
    the ceiling: 0 <= comfort <= warning <= critical <= emergency <= m.
    The call raises only for [m] of at least 2^1023. *)
Theorem thresholds_within_ceiling (m : Z) :
  0 <= m ->
  match thermal_thresholds m with
  | Ok t =>
      0 <= comfort_temp t /\ comfort_temp t <= warning_temp t /\
      warning_temp t <= critical_temp t /\ critical_temp t <= emergency_temp t /\
      emergency_temp t <= m
  | OverflowError => 2 ^ 1023 <= m
  end.
Proof.
  intros Hm.
  destruct (Z.ltb_spec m 21) as [Hsmall | Hbig].
  { assert (Hcases : m = 0 \/ m = 1 \/ m = 2 \/ m = 3 \/ m = 4 \/ m = 5 \/ m = 6 \/
                     m = 7 \/ m = 8 \/ m = 9 \/ m = 10 \/ m = 11 \/ m = 12 \/
                     m = 13 \/ m = 14 \/ m = 15 \/ m = 16 \/ m = 17 \/ m = 18 \/
                     m = 19 \/ m = 20) by lia.
    repeat (destruct Hcases as [-> | Hcases]); try subst m;
      vm_compute; repeat split; discriminate. }
  unfold thermal_thresholds.
  pose proof (threshold_products m ltac:(lia)) as HP.
  pose proof (product_bounds m 5854679515581645 Hbig
                ltac:(change (2 ^ 52) with 4503599627370496; lia)) as Hc.
  pose proof (product_bounds m 8556839292003942 Hbig
                ltac:(change (2 ^ 52) with 4503599627370496; lia)) as He.
  fold lit_0_65 in Hc. fold lit_0_95 in He.
  destruct (int_mul_lit m lit_0_65) as [c|]; [|exact Hc].
  destruct (int_mul_lit m lit_0_75) as [w|]; [|exact HP].
  destruct (int_mul_lit m lit_0_85) as [k|]; [|exact HP].
  destruct (int_mul_lit m lit_0_95) as [e|]; [|exact HP].
  cbn [rbind comfort_temp warning_temp critical_temp emergency_temp]. lia.
Qed.

End ThresholdProps.

(* ================================================================== *)
(** * Properties of the fan controller *)
(* ================================================================== *)

Section FanProps.
Import PyFloat FanController.

Lemma in_percents (q : Z) : 0 <= q <= 100 -> In q percents.
Proof.
  intros H. unfold percents. apply in_map_iff. exists (Z.to_nat q).
  split; [lia | apply in_seq; lia].
Qed.

Lemma in_duties (p : Z) : 0 <= p <= 255 -> In p duties.
Proof.
  intros H. unfold duties. apply in_map_iff. exists (Z.to_nat p).
  split; [lia | apply in_seq; lia].
Qed.

(** The float expression [int((q / 100) * 255)] is the integer
    [255 * q // 100] for every percentage. *)
Lemma pwm_of_percent_table :
  forallb (fun q => match pwm_of_percent q with
                    | Ok v => v =? 255 * q / 100
                    | OverflowError => false
                    end) percents = true.
Proof. vm_compute. reflexivity. Qed.

Lemma pwm_of_percent_exact (q : Z) :
  0 <= q <= 100 -> pwm_of_percent q = Ok (255 * q / 100).
Proof.
  intros H. pose proof pwm_of_percent_table as T.
  rewrite forallb_forall in T. specialize (T q (in_percents q H)).
  destruct (pwm_of_percent q) as [v|]; [|discriminate T].
  apply Z.eqb_eq in T. now subst v.
Qed.

(** The float expression [int((p / 255) * 100)] is the integer
    [100 * p // 255] for every duty value. *)
Lemma percent_of_pwm_table :
  forallb (fun p => match percent_of_pwm p with
                    | Ok None => p =? 0
                    | Ok (Some q) => negb (p =? 0) && (q =? 100 * p / 255)
                    | OverflowError => false
                    end) duties = true.
Proof. vm_compute. reflexivity. Qed.

Lemma percent_of_pwm_exact (p : Z) :
  0 < p <= 255 -> percent_of_pwm p = Ok (Some (100 * p / 255)).
Proof.
  intros H. pose proof percent_of_pwm_table as T.
  rewrite forallb_forall in T. specialize (T p (in_duties p ltac:(lia))).
  destruct (percent_of_pwm p) as [[q|]|]; [| |discriminate T].
  - apply andb_prop in T. destruct T as [_ T]. apply Z.eqb_eq in T. now subst q.
  - apply Z.eqb_eq in T. lia.
Qed.

Section WithFans.
Variable env : Env.

(** What [set_pwm_fan_speed] can write. *)
Lemma fan_speed_trace (pwm_fans : list Fan) (fan_index percent : Z) (a : Action) :
  In a (snd (set_pwm_fan_speed env pwm_fans fan_index percent)) ->
  exists fan,
    py_index pwm_fans fan_index = Some fan /\
    (a = write_pwm (pwm_path fan) (255 * Z.max 0 (Z.min 100 percent) / 100) \/
     exists enable,
       truthy_path (pwm_enable_path fan) = Some enable /\
       a = write_pwm_enable enable 1).
Proof.
  unfold set_pwm_fan_speed.
  destruct (Z.of_nat (List.length pwm_fans) <=? fan_index); [intros []|].
  destruct (py_index pwm_fans fan_index) as [fan|]; [|intros []].
  rewrite pwm_of_percent_exact by lia.
  intros H. exists fan. split; [reflexivity|].
  destruct (truthy_path (pwm_enable_path fan)) as [enable|].
  - destruct (env (write_pwm_enable enable 1));
      [destruct (env (write_pwm (pwm_path fan) _))| |];
      cbn [snd In] in H; repeat (destruct H as [<- | H]; eauto); destruct H.
  - destruct (env (write_pwm (pwm_path fan) _));
      cbn [snd In] in H; repeat (destruct H as [<- | H]; eauto); destruct H.
Qed.

(** X25. Every duty value [set_pwm_fan_speed] writes is
    [255 * q // 100] for the percentage [q] clamped into 0..100, hence
    between 0 and 255, whatever percentage was asked for; and every
    mode value it writes is 1 (manual). The call never raises
    OverflowError. *)
Theorem fan_duty_in_range (pwm_fans : list Fan) (fan_index percent : Z) :
  let q := Z.max 0 (Z.min 100 percent) in
  pwm_of_percent q = Ok (255 * q / 100) /\
  forall a, In a (snd (set_pwm_fan_speed env pwm_fans fan_index percent)) ->
    match a with
    | write_pwm _ v => v = 255 * q / 100 /\ 0 <= v <= 255
    | write_pwm_enable _ v => v = 1
    end.
Proof.
  cbv zeta. split; [apply pwm_of_percent_exact; lia|].
  intros a Ha. apply fan_speed_trace in Ha.
  destruct Ha as (fan & _ & [-> | (enable & _ & ->)]); [|reflexivity].
  split; [reflexivity|].
  assert (0 <= Z.max 0 (Z.min 100 percent) <= 100) by lia.
  split; [apply Z.div_pos; lia|].
  apply Z.div_le_upper_bound; lia.
Qed.

(** X26. The index guard checks the upper end only: an index at or
    past the number of fans is refused with [False] and nothing is
    written; a negative index down to minus that number acts on the
    fan counted from the end; below that the call raises IndexError,
    having written nothing. *)
Theorem negative_fan_index (pwm_fans : list Fan) (fan_index percent : Z) :
  let n := Z.of_nat (List.length pwm_fans) in
  (n <= fan_index ->
   set_pwm_fan_speed env pwm_fans fan_index percent = (Returned false, [])) /\
  (- n <= fan_index < 0 ->
   set_pwm_fan_speed env pwm_fans fan_index percent =
   set_pwm_fan_speed env pwm_fans (n + fan_index) percent) /\
  (fan_index < - n ->
   set_pwm_fan_speed env pwm_fans fan_index percent = (Raised, [])).
Proof.
  cbv zeta. unfold set_pwm_fan_speed, py_index.
  set (n := Z.of_nat (List.length pwm_fans)).
  split; [|split]; intros H.
  - destruct (Z.leb_spec n fan_index); [reflexivity | lia].
  - destruct (Z.leb_spec n fan_index); [lia|].
    destruct (Z.leb_spec n (n + fan_index)); [lia|].
    destruct (Z.leb_spec 0 fan_index); [lia|].
    destruct (Z.leb_spec (- n) fan_index); [|lia].
    destruct (Z.ltb_spec fan_index 0); [|lia].
    destruct (Z.leb_spec 0 (n + fan_index)); [|lia].
    destruct (Z.ltb_spec (n + fan_index) n); [|lia].
    cbn [andb]. reflexivity.
  - destruct (Z.leb_spec n fan_index); [lia|].
    destruct (Z.leb_spec 0 fan_index); [lia|].
    destruct (Z.leb_spec (- n) fan_index); [lia|].
    cbn [andb]. reflexivity.
Qed.

End WithFans.

(** X27. Percent to duty and back loses at most one percent: for a
    percentage [q] from 1 to 100 the duty written is [255 * q // 100],
    at least 2, and the percentage [get_fan_info] computes from that
    duty is [q] or [q - 1]; a duty of 0 is reported as no percentage
    at all. *)
Theorem percent_round_trip (q : Z) :
  1 <= q <= 100 ->
  exists w p,
    pwm_of_percent q = Ok w /\ 2 <= w <= 255 /\
    percent_of_pwm w = Ok (Some p) /\ q - 1 <= p <= q.
Proof.
  intros H. exists (255 * q / 100), (100 * (255 * q / 100) / 255).
  pose proof (Z.div_mod (255 * q) 100 ltac:(lia)) as D1.
  pose proof (Z.mod_pos_bound (255 * q) 100 ltac:(lia)) as B1.
  set (w := 255 * q / 100) in *.
  assert (Hw : 2 <= w <= 255) by lia.
  pose proof (Z.div_mod (100 * w) 255 ltac:(lia)) as D2.
  pose proof (Z.mod_pos_bound (100 * w) 255 ltac:(lia)) as B2.
  split; [apply pwm_of_percent_exact; lia|]. split; [exact Hw|].
  split; [apply percent_of_pwm_exact; lia|]. lia.
Qed.

End FanProps.

(* ================================================================== *)
(** * Properties of the monitoring service *)
(* ================================================================== *)

Section MonitoringProps.
Import PyFloat FanController Monitoring.
Import QArith.
Local Open Scope Z_scope.

Lemma py_max_ge_l (a b : Q) : (a <= py_max a b)%Q.
Proof.
  unfold py_max. destruct (Qle_bool b a) eqn:E; [apply Qle_refl|].
  destruct (Qlt_le_dec a b) as [H | H].
  - now apply Qlt_le_weak.
  - apply Qle_bool_iff in H. congruence.
Qed.

Lemma py_max_ge_r (a b : Q) : (b <= py_max a b)%Q.
Proof.
  unfold py_max. destruct (Qle_bool b a) eqn:E; [|apply Qle_refl].
  now apply Qle_bool_iff.
Qed.

Lemma max_temp_nonneg (s : Snapshot) : (0 <= max_temp s)%Q.
Proof.
  unfold max_temp.
  assert (H : (0 <= match cpu_temp s with
                    | Some c => if present (Some c) then py_max 0 c else 0
                    | None => 0
                    end)%Q).
  { destruct (cpu_temp s) as [c|]; [|apply Qle_refl].
    destruct (present (Some c)); [apply py_max_ge_l | apply Qle_refl]. }
  destruct (gpu_temp s) as [g|]; [|exact H].
  destruct (present (Some g)); [|exact H].
  eapply Qle_trans; [exact H | apply py_max_ge_l].
Qed.

Lemma max_temp_ge_gpu (s : Snapshot) (g : Q) :
  gpu_temp s = Some g -> (0 < g)%Q -> (g <= max_temp s)%Q.
Proof.
  intros Hg Hpos. unfold max_temp. rewrite Hg.
  assert (Hp : present (Some g) = true).
  { unfold present. destruct (Qeq_bool g 0) eqn:E; [|reflexivity].
    apply Qeq_bool_iff in E. rewrite E in Hpos. now apply Qlt_irrefl in Hpos. }
  rewrite Hp. apply py_max_ge_r.
Qed.

(** X28. The GPU temperature is held against the CPU thresholds as
    well: with automatic fan control on, a GPU reading at or above the
    (positive) CPU emergency threshold puts the fans in the top tier,
    whether or not it reaches the GPU emergency threshold. *)
Theorem gpu_judged_by_cpu_thresholds (sv : Service) (s : Snapshot) (g : Q) :
  auto_fan_control sv = true ->
  0 < cpu_temp_emergency sv ->
  gpu_temp s = Some g ->
  (inject_Z (cpu_temp_emergency sv) <= g)%Q ->
  fan_tier sv s = Some max.
Proof.
  intros Ha He Hg Hge.
  assert (Hpos : (0 < g)%Q).
  { eapply Qlt_le_trans; [|exact Hge].
    change 0%Q with (inject_Z 0). rewrite <- Zlt_Qlt. exact He. }
  pose proof (max_temp_ge_gpu s g Hg Hpos) as Hm.
  unfold fan_tier. rewrite Ha. cbn [negb].
  destruct (Qeq_bool (max_temp s) 0) eqn:E0.
  { apply Qeq_bool_iff in E0. rewrite E0 in Hm.
    exfalso. apply (Qlt_irrefl 0). eapply Qlt_le_trans; [exact Hpos | exact Hm]. }
  assert (Hat : at_least (max_temp s) (cpu_temp_emergency sv) = true).
  { unfold at_least. apply Qle_bool_iff. eapply Qle_trans; [exact Hge | exact Hm]. }
  rewrite Hat. reflexivity.
Qed.

Lemma set_all_fans_trace (env : Env) (pwm_fans : list Fan) (speed : Z) (a : Action) :
  forall indices,
  In a (set_all_fans env pwm_fans indices speed) ->
  exists i, In i indices /\ In a (snd (set_pwm_fan_speed env pwm_fans i speed)).
Proof.
  induction indices as [|i rest IH]; cbn [set_all_fans]; [intros []|].
  intros H. apply in_app_or in H. destruct H as [H | H].
  - exists i. split; [now left | exact H].
  - destruct (IH H) as (j & Hj & Ha). exists j. split; [now right | exact Ha].
Qed.

Lemma max_temp_without_reading (s : Snapshot) :
  (forall c, cpu_temp s = Some c -> (c <= 0)%Q) ->
  (forall g, gpu_temp s = Some g -> (g <= 0)%Q) ->
  max_temp s = 0%Q.
Proof.
  intros Hc Hg. unfold max_temp.
  assert (E : match cpu_temp s with
              | Some c => if present (Some c) then py_max 0 c else 0%Q
              | None => 0%Q
              end = 0%Q).
  { destruct (cpu_temp s) as [c|]; [|reflexivity].
    destruct (present (Some c)); [|reflexivity].
    unfold py_max. specialize (Hc c eq_refl). apply Qle_bool_iff in Hc.
    now rewrite Hc. }
  rewrite E. destruct (gpu_temp s) as [g|]; [|reflexivity].
  destruct (present (Some g)); [|reflexivity].
  unfold py_max. specialize (Hg g eq_refl). apply Qle_bool_iff in Hg.
  now rewrite Hg.
Qed.

(** X29. The fan adjustment writes one of four duty values to every
    fan: each duty it writes is 76, 127, 191 or 255 (30, 50, 75 and
    100 percent) and each mode value is 1; with no reading above zero
    (no sensor, or readings at or below 0 degrees) it writes nothing
    and the fans keep their last setting. *)
Theorem adjust_fans_duties (env : Env) (sv : Service) (pwm_fans : list Fan)
    (s : Snapshot) :
  (forall a, In a (adjust_fans_based_on_temp env sv pwm_fans s) ->
     match a with
     | write_pwm _ v => In v [76; 127; 191; 255]
     | write_pwm_enable _ v => v = 1
     end) /\
  ((forall c, cpu_temp s = Some c -> (c <= 0)%Q) ->
   (forall g, gpu_temp s = Some g -> (g <= 0)%Q) ->
   adjust_fans_based_on_temp env sv pwm_fans s = []).
Proof.
  split.
  - unfold adjust_fans_based_on_temp. intros a Ha.
    destruct (fan_tier sv s) as [t|]; [|destruct Ha].
    apply set_all_fans_trace in Ha. destruct Ha as (i & _ & Ha).
    apply fan_speed_trace in Ha.
    destruct Ha as (fan & _ & [-> | (enable & _ & ->)]); [|reflexivity].
    destruct t; cbn; auto.
  - intros Hc Hg. unfold adjust_fans_based_on_temp, fan_tier.
    rewrite (max_temp_without_reading s Hc Hg).
    destruct (negb (auto_fan_control sv)); reflexivity.
Qed.

Lemma tl_skipn {A} (l : list A) : forall k, tl (skipn k l) = skipn (S k) l.
Proof.
  induction l as [|a l IH]; intros k.
  - destruct k; reflexivity.
  - destruct k; [reflexivity|]. cbn [skipn]. rewrite IH. reflexivity.
Qed.

(** X30. The in-memory trail holds exactly the most recent
    [max_snapshots] snapshots: after the loop has collected the
    snapshots [xs] one by one, [self.snapshots] is [xs] without all but
    its last [max_snapshots] elements, in order. *)
Theorem snapshots_are_the_most_recent {A} (limit : Z) (xs : list A) :
  0 <= limit ->
  snapshots_after limit xs = skipn (List.length xs - Z.to_nat limit) xs /\
  Z.of_nat (List.length (snapshots_after limit xs)) =
    Z.min limit (Z.of_nat (List.length xs)).
Proof.
  intros Hl.
  assert (E : snapshots_after limit xs = skipn (List.length xs - Z.to_nat limit) xs).
  { unfold snapshots_after.
    induction xs as [|x xs IH] using rev_ind; [reflexivity|].
    rewrite fold_left_app. cbn [fold_left]. rewrite IH. unfold remember.
    set (n := List.length xs). set (L := Z.to_nat limit).
    assert (Happ : skipn (n - L) xs ++ [x] = skipn (n - L) (xs ++ [x])).
    { rewrite skipn_app. fold n. replace (n - L - n)%nat with 0%nat by lia.
      reflexivity. }
    rewrite Happ, length_skipn, !length_app. cbn [List.length]. fold n.
    destruct (Z.ltb_spec limit (Z.of_nat (n + 1 - (n - L)))) as [Hover | Hfit].
    - rewrite tl_skipn. f_equal. lia.
    - f_equal. lia. }
  split; [exact E|]. rewrite E, length_skipn. lia.
Qed.

End MonitoringProps.

(* ================================================================== *)
(** * Instances of the properties above *)
(* ================================================================== *)

Section MoreExamples.
Import Detector PyFloat Config Identify UniversalCPU Profiles.

Lemma fallback_range_floor_witness :
  _detect_frequency_range (core2_without_cpufreq (-5)) = (666, 2000) /\
  666 <= 666 <= 2000.
Proof.
  pose proof (fallback_range_floor (core2_without_cpufreq (-5)) eq_refl) as H.
  cbv zeta in H. split; [reflexivity | exact (proj1 H)].
Defined.

Lemma compatible_but_uncontrollable_witness :
  let cpu := _detect_cpu unidentified_with_msr in
  fst (is_compatible cpu [] false false) = true /\
  set_frequency env_ok (new_manager env_ok false cpu) 2000 = (false, []).
Proof.
  destruct (compatible_but_uncontrollable env_ok (_detect_cpu unidentified_with_msr)
              [] false false 2000 eq_refl eq_refl ltac:(discriminate))
    as (Hv & _ & Hs).
  cbv zeta. split; [exact Hv | exact Hs].
Defined.

Lemma cpufreq_zero_cores_witness :
  let m := new_manager env_ok false (_detect_cpu no_processor_lines) in
  control_method m = cpufreq /\
  set_frequency env_ok m 2000 = (true, []).
Proof.
  cbv zeta. split; [reflexivity|].
  apply (cpufreq_zero_cores env_ok
           (new_manager env_ok false (_detect_cpu no_processor_lines)) 2000).
  - cbn. lia.
  - reflexivity.
  - left. reflexivity.
Defined.

Lemma msr_writes_nearest_frequency_witness :
  exists c,
    lookup c CORE2_QUAD_MULTIPLIERS = Some 0x050D /\
    Z.abs (c - 1583) <= 200 /\
    forall k, In k available_freqs ->
      Z.abs (c - 1583) <= Z.abs (k - 1583) /\
      (Z.abs (k - 1583) = Z.abs (c - 1583) -> c <= k).
Proof.
  apply (msr_writes_nearest_frequency env_ok core2_manager 1583 0x050D).
  vm_compute. auto.
Defined.

Lemma msr_attempts_iff_in_reach_witness :
  hd_error (snd (set_frequency_msr env_ok core2_manager 3033)) = Some modprobe_msr /\
  set_frequency_msr env_ok core2_manager 3034 = (false, []) /\
  fst (set_frequency_msr env_no_modprobe core2_manager 2000) = false.
Proof.
  split; [|split].
  - apply (msr_attempts_iff_in_reach env_ok core2_manager 3033 eq_refl). lia.
  - apply (msr_attempts_iff_in_reach env_ok core2_manager 3034 eq_refl). lia.
  - apply (msr_attempts_iff_in_reach env_no_modprobe core2_manager 2000 eq_refl).
    discriminate.
Defined.

Lemma set_profile_unknown_name_witness :
  set_profile env_ok core2_manager PowerConfig_init "turbo" = (false, []).
Proof.
  apply (set_profile_unknown_name env_ok core2_manager PowerConfig_init "turbo").
  left. cbn. intros [H | [H | [H | [H | []]]]]; discriminate H.
Defined.

Lemma set_profile_within_range_witness :
  let cfg :=
    {| thermal := {| comfort_temp := 55; warning_temp := 63;
                     critical_temp := 72; emergency_temp := 80 |};
       frequency := Some {| min_freq_mhz := 800; max_freq_mhz := 2400;
                            performance_freq := 2400; balanced_freq := 1920;
                            powersave_freq := 1600; emergency_freq := 800 |} |} in
  exists f,
    set_profile env_ok core2_manager cfg "balanced" =
      set_frequency env_ok core2_manager f /\
    clamp core2_manager f = f.
Proof.
  cbv zeta.
  destruct (set_profile_within_range env_ok PowerConfig_init core2_manager
              {| thermal := {| comfort_temp := 55; warning_temp := 63;
                               critical_temp := 72; emergency_temp := 80 |};
                 frequency := Some {| min_freq_mhz := 800; max_freq_mhz := 2400;
                                      performance_freq := 2400; balanced_freq := 1920;
                                      powersave_freq := 1600; emergency_freq := 800 |} |}
              "balanced" eq_refl ltac:(cbn; lia) ltac:(cbn; auto))
    as (f & Hs & Hc & _).
  exists f. split; [exact Hs | exact Hc].
Defined.

Lemma thresholds_within_ceiling_witness :
  thermal_thresholds 85 =
    Ok {| comfort_temp := 55; warning_temp := 63;
          critical_temp := 72; emergency_temp := 80 |} /\
  0 <= 55 /\ 55 <= 63 /\ 63 <= 72 /\ 72 <= 80 /\ 80 <= 85.
Proof.
  pose proof (thresholds_within_ceiling 85 ltac:(lia)) as H.
  split; [reflexivity | exact H].
Defined.

End MoreExamples.

Section LegacyMoreExamples.
Import LegacyCPU.

Lemma legacy_msr_exact_match_witness :
  lookup 2166 q9550_multipliers = Some 0x0411 /\
  set_frequency_msr env_ok 2200 = (false, []).
Proof.
  split.
  - apply (proj1 (legacy_msr_exact_match env_ok 2166) 0x0411). cbn. auto.
  - apply (proj2 (legacy_msr_exact_match env_ok 2200)). reflexivity.
Defined.

End LegacyMoreExamples.

Section FanExamples.
Import PyFloat FanController Monitoring.
Import QArith.
Local Open Scope Z_scope.

Lemma fan_duty_in_range_witness :
  snd (set_pwm_fan_speed env_ok two_fans 0 250) =
    [write_pwm_enable "/sys/class/hwmon/hwmon2/pwm1_enable" 1;
     write_pwm "/sys/class/hwmon/hwmon2/pwm1" 255] /\
  255 = 255 * 100 / 100 /\ 0 <= 255 <= 255.
Proof.
  split; [reflexivity|].
  apply (proj2 (fan_duty_in_range env_ok two_fans 0 250)
           (write_pwm "/sys/class/hwmon/hwmon2/pwm1" 255)).
  cbn. auto.
Defined.

Lemma negative_fan_index_witness :
  set_pwm_fan_speed env_ok two_fans (-1) 50 =
    (Returned true, [write_pwm "/sys/class/hwmon/hwmon2/pwm2" 127]) /\
  set_pwm_fan_speed env_ok two_fans (-3) 50 = (Raised, []) /\
  set_pwm_fan_speed env_ok two_fans 2 50 = (Returned false, []).
Proof.
  destruct (negative_fan_index env_ok two_fans (-1) 50) as (_ & Hneg & _).
  destruct (negative_fan_index env_ok two_fans (-3) 50) as (_ & _ & Hlow).
  destruct (negative_fan_index env_ok two_fans 2 50) as (Hup & _ & _).
  cbv zeta in *. split; [|split].
  - rewrite Hneg by (cbn; lia). reflexivity.
  - apply Hlow. cbn. lia.
  - apply Hup. cbn. lia.
Defined.

Lemma percent_round_trip_witness :
  exists w p,
    pwm_of_percent 30 = Ok w /\ 2 <= w <= 255 /\
    percent_of_pwm w = Ok (Some p) /\ 30 - 1 <= p <= 30.
Proof. apply (percent_round_trip 30). lia. Defined.

Lemma gpu_judged_by_cpu_thresholds_witness :
  fan_tier service_85 gpu_at_90 = Some max /\
  gpu_at_least gpu_at_90 (gpu_temp_emergency service_85) = false.
Proof.
  split; [|reflexivity].
  apply (gpu_judged_by_cpu_thresholds service_85 gpu_at_90 (inject_Z 90)).
  - reflexivity.
  - cbn. lia.
  - reflexivity.
  - cbn. rewrite <- Zle_Qle. lia.
Defined.

Lemma adjust_fans_duties_witness :
  adjust_fans_based_on_temp env_ok service_85 two_fans
    {| cpu_temp := Some (inject_Z (-3)); gpu_temp := None |} = [].
Proof.
  apply (proj2 (adjust_fans_duties env_ok service_85 two_fans
                  {| cpu_temp := Some (inject_Z (-3)); gpu_temp := None |})).
  - intros c H. injection H as <-. change 0%Q with (inject_Z 0).
    rewrite <- Zle_Qle. lia.
  - intros g H. discriminate H.
Defined.

Lemma snapshots_are_the_most_recent_witness :
  snapshots_after 3 [1; 2; 3; 4; 5] = [3; 4; 5].
Proof.
  exact (proj1 (snapshots_are_the_most_recent 3 [1; 2; 3; 4; 5] ltac:(lia))).
Defined.

End FanExamples.
